(** * DamnBruh skill-betting backend: ledger, settlement and leaderboard

    A shallow embedding of [app/backend/config.py], [models.py],
    [database.py] and [server.py].

    Modelling conventions.
    - A MongoDB collection is a finite map from the [_id] string to the
      stored document; a document (a Python dict) is a finite map from field
      names to dynamically typed values.
    - [Decimal] values are exact rationals ([Qc]): the decimal context keeps
      28 significant digits, and the amounts of this program (validated
      bets, the factor 1.8, a house edge of a few digits) are taken to stay
      within them, so that no rounding step occurs.  [float(d)] followed by
      [Decimal(str(f))] is taken to give [d] back.
    - [datetime] values are integer milliseconds since the epoch (the
      resolution of a BSON date); the clock readings of one request are one
      instant [now].
    - [uuid.uuid4()], [random.*] and the clock are inputs of the handlers.
    - A handler is a function from the database to the database it leaves
      behind together with its result or the exception it raised: writes made
      before an exception stay. *)

From Stdlib Require Import ZArith QArith Qcanon.
From stdpp Require Import base option list strings gmap fin_maps sorting numbers.

Set Warnings "-register-all".
Open Scope string_scope.
Open Scope Z_scope.

(** ** Values and documents *)

Abbreviation Decimal := Qc.

(** A decimal literal [n / d]. *)
Definition dec (n : Z) (d : positive) : Decimal := Q2Qc (Qmake n d).

Inductive value : Type :=
| VNull
| VBool (b : bool)
| VInt (n : Z)
| VFloat (q : Decimal)
| VStr (s : string)
| VDate (t : Z)
| VDict (kv : list (string * value)).

Abbreviation doc := (gmap string value).
Abbreviation collection := (gmap string (gmap string value)).

(** [d.get(k, dflt)] *)
Definition get (d : doc) (k : string) (dflt : value) : value :=
  default dflt (d !! k).

(** A Python dict display [{k1: v1, ...}]. *)
Definition dict (kv : list (string * value)) : doc := list_to_map kv.

(** The number a value denotes, when it is an int or a float. *)
Definition numeric (v : value) : option Decimal :=
  match v with
  | VInt n => Some (Q2Qc (inject_Z n))
  | VFloat q => Some q
  | _ => None
  end.

Definition opt_str (o : option string) : value :=
  match o with Some s => VStr s | None => VNull end.

(** ** Exceptions and the handler monad *)

Inductive exn : Type :=
| HTTPException (status_code : Z) (detail : string)
| ValidationError (msg : string)
| KeyError (key : string)
| TypeError
| InvalidOperation
| DuplicateKeyError (id : string)
| OperationFailure (msg : string).

Inductive result (A : Type) : Type :=
| Ok (a : A)
| Raise (e : exn).
Arguments Ok {A} a.
Arguments Raise {A} e.

Record MongoDB : Type := mkDB {
  users : collection;
  game_sessions : collection;
  transactions : collection;
  affiliates : collection
}.

Definition M (A : Type) : Type := MongoDB → MongoDB * result A.

Definition ret {A} (a : A) : M A := λ db, (db, Ok a).
Definition raise {A} (e : exn) : M A := λ db, (db, Raise e).
Definition bind {A B} (m : M A) (k : A → M B) : M B :=
  λ db, match m db with
        | (db', Ok a) => k a db'
        | (db', Raise e) => (db', Raise e)
        end.
Definition lift {A} (r : result A) : M A := λ db, (db, r).
Definition read {A} (f : MongoDB → A) : M A := λ db, (db, Ok (f db)).
Definition write (f : MongoDB → MongoDB) : M unit := λ db, (f db, Ok tt).

Declare Scope py_scope.
Delimit Scope py_scope with py.
Notation "x <- m ;; k" := (bind m (λ x, k))
  (at level 100, m at next level, right associativity) : py_scope.
Notation "m ;;; k" := (bind m (λ _, k))
  (at level 100, right associativity) : py_scope.
Open Scope py_scope.

(** ** Python primitives on values *)

(** [Decimal(str(v))]: an int or a float prints as a numeral; [None], a
    bool, a date or a dict does not, and the constructor raises.  No path of
    the program stores an amount as a string, and numerals held in strings
    are not parsed here. *)
Definition Decimal_str (v : value) : result Decimal :=
  match numeric v with
  | Some q => Ok q
  | None => Raise InvalidOperation
  end.

(** [float(d)] as stored in a document.  The amount is kept as it is: the
    rounding to a double is left out, and what is proved of an amount read
    back from the store is stated for amounts a double holds exactly. *)
Definition float (d : Decimal) : value := VFloat d.

(** [v + 1] *)
Definition add_one (v : value) : result value :=
  match v with
  | VInt n => Ok (VInt (n + 1))
  | VBool b => Ok (VInt (Z.b2z b + 1))
  | VFloat q => Ok (VFloat (q + 1)%Qc)
  | _ => Raise TypeError
  end.

(** [d[k]] *)
Definition getitem (d : doc) (k : string) : result value :=
  match d !! k with
  | Some v => Ok v
  | None => Raise (KeyError k)
  end.

(** [v == s] for a string [s]. *)
Definition eq_str (v : value) (s : string) : bool :=
  match v with
  | VStr s' => bool_decide (s' = s)
  | _ => false
  end.

Definition result_bind {A B} (r : result A) (k : A → result B) : result B :=
  match r with
  | Ok a => k a
  | Raise e => Raise e
  end.

Fixpoint result_map {A B} (f : A → result B) (l : list A) : result (list B) :=
  match l with
  | [] => Ok []
  | x :: l' =>
      result_bind (f x) (λ y,
      result_bind (result_map f l') (λ ys, Ok (y :: ys)))
  end.

(** ** config.py *)

Module config.

Record Settings : Type := {
  MIN_BET_AMOUNT : Decimal;
  MAX_BET_AMOUNT : Decimal;
  HOUSE_EDGE : Decimal;
  MAX_DAILY_WITHDRAWAL : Decimal;
  DEFAULT_COMMISSION_RATE : Decimal
}.

(** The values taken when the environment sets none. *)
Definition defaults : Settings := {|
  MIN_BET_AMOUNT := dec 1 1000;
  MAX_BET_AMOUNT := dec 10 1;
  HOUSE_EDGE := dec 2 100;
  MAX_DAILY_WITHDRAWAL := dec 100 1;
  DEFAULT_COMMISSION_RATE := dec 5 100
|}.

End config.

(** ** models.py *)

Module models.

Record BetRequest : Type := {
  bet_amount : Decimal;
  game_type : string;
  appearance : option (list (string * value))
}.

(** [decimal_places=6]: the amount times 10^6 is an integer.  (The
    framework counts the digits of the literal; the value is what is
    counted here.) *)
Definition decimal_places_ok (places : Z) (v : Decimal) : bool :=
  bool_decide (Qden (this (v * Q2Qc (inject_Z (10 ^ places)))%Qc) = 1%positive).

(** [max_digits=18, decimal_places=6]: at most 12 digits before the point. *)
Definition whole_digits_ok (whole : Z) (v : Decimal) : bool :=
  bool_decide (v < Q2Qc (inject_Z (10 ^ whole)))%Qc.

(** [Field(..., gt=0, max_digits=18, decimal_places=6)] *)
Definition field_bet_amount (v : Decimal) : result Decimal :=
  if negb (bool_decide (0 < v)%Qc) then
    Raise (ValidationError "ensure this value is greater than 0")
  else if negb (whole_digits_ok 12 v) then
    Raise (ValidationError "ensure that there are no more than 18 digits in total")
  else if negb (decimal_places_ok 6 v) then
    Raise (ValidationError "ensure that there are no more than 6 decimal places")
  else Ok v.

Definition validate_bet_amount (v : Decimal) : result Decimal :=
  if bool_decide (v ≤ 0)%Qc then
    Raise (ValidationError "Bet amount must be positive")
  else if bool_decide (dec 100 10 < v)%Qc then
    Raise (ValidationError "Bet amount exceeds maximum limit")
  else Ok v.

(** [Field(..., min_length=1, max_length=32)] *)
Definition field_game_type (v : string) : result string :=
  if bool_decide (String.length v < 1)%nat then
    Raise (ValidationError "ensure this value has at least 1 characters")
  else if bool_decide (32 < String.length v)%nat then
    Raise (ValidationError "ensure this value has at most 32 characters")
  else Ok v.

Definition allowed_types : list string :=
  ["skill_match"; "tournament"; "practice"].

Definition validate_game_type (v : string) : result string :=
  if bool_decide (v ∈ allowed_types) then Ok v
  else Raise (ValidationError "Game type must be one of the allowed types").

(** Construction of a [BetRequest] from the request body: the field
    constraints, then the validators of each field. *)
Definition parse_BetRequest (body : BetRequest) : result BetRequest :=
  result_bind (field_bet_amount (bet_amount body)) (λ a,
  result_bind (validate_bet_amount a) (λ a,
  result_bind (field_game_type (game_type body)) (λ g,
  result_bind (validate_game_type g) (λ g,
  Ok {| bet_amount := a; game_type := g; appearance := appearance body |})))).

Record GameEnd : Type := {
  game_session_id : string;
  final_score : Z;
  final_rank : Z
}.

(** [final_score: int = Field(..., ge=0)], [final_rank: int = Field(..., ge=1)] *)
Definition parse_GameEnd (body : GameEnd) : result GameEnd :=
  if negb (0 <=? final_score body)%Z then
    Raise (ValidationError "ensure this value is greater than or equal to 0")
  else if negb (1 <=? final_rank body)%Z then
    Raise (ValidationError "ensure this value is greater than or equal to 1")
  else Ok body.

(** Response models. *)
Record GameSession : Type := {
  gs_game_session_id : string;
  gs_bet_amount : Decimal;
  gs_new_balance : Decimal;
  gs_game_state : string;
  gs_other_players : list value
}.

Record GameResult : Type := {
  gr_payout : Decimal;
  gr_new_balance : Decimal;
  gr_rank : Z;
  gr_total_players : Z;
  gr_game_result : string
}.

(** *** Text

    A [str] is a sequence of code points below 256. *)

Definition code (c : Ascii.ascii) : N := Ascii.N_of_ascii c.

Definition between (lo hi : N) (c : Ascii.ascii) : bool :=
  (lo <=? code c)%N && (code c <=? hi)%N.

(** [[a-zA-Z0-9_]] *)
Definition is_word_char (c : Ascii.ascii) : bool :=
  between 97 122 c || between 65 90 c || between 48 57 c || (code c =? 95)%N.

(** [[a-fA-F0-9]] *)
Definition is_hex_char (c : Ascii.ascii) : bool :=
  between 97 102 c || between 65 70 c || between 48 57 c.

(** [[1-9A-HJ-NP-Za-km-z]] *)
Definition is_base58_char (c : Ascii.ascii) : bool :=
  between 49 57 c || between 65 72 c || between 74 78 c || between 80 90 c
  || between 97 107 c || between 109 122 c.

Fixpoint all_chars (p : Ascii.ascii → bool) (s : string) : bool :=
  match s with
  | EmptyString => true
  | String c s' => p c && all_chars p s'
  end.

Definition newline : string := String (Ascii.ascii_of_N 10) EmptyString.

(** [s] without its final newline, when it ends in one. *)
Fixpoint chomp (s : string) : option string :=
  match s with
  | EmptyString => None
  | String c s' =>
      match s' with
      | EmptyString => if (code c =? 10)%N then Some EmptyString else None
      | String _ _ => String c <$> chomp s'
      end
  end.

(** [re.match(r'^body$', v)]: without the multi-line flag [$] matches at
    the end of the string and also just before a newline that ends it. *)
Definition re_match_to_end (body : string → bool) (v : string) : bool :=
  body v || from_option body false (chomp v).

(** [c.lower()] for a code point below 256. *)
Definition lower_char (c : Ascii.ascii) : Ascii.ascii :=
  if between 65 90 c || between 192 214 c || between 216 222 c
  then Ascii.ascii_of_N (code c + 32)
  else c.

(** [s.lower()] *)
Fixpoint lower (s : string) : string :=
  match s with
  | EmptyString => EmptyString
  | String c s' => String (lower_char c) (lower s')
  end.

(** [Field(..., min_length=lo, max_length=hi)] on a string. *)
Definition field_length (lo hi : nat) (v : string) : result string :=
  if bool_decide (String.length v < lo)%nat then
    Raise (ValidationError "ensure this value has at least the minimum of characters")
  else if bool_decide (hi < String.length v)%nat then
    Raise (ValidationError "ensure this value has at most the maximum of characters")
  else Ok v.

(** An optional field: the constraints bear on a value that is given. *)
Definition optional {A} (f : A → result A) (v : option A) : result (option A) :=
  match v with
  | None => Ok None
  | Some a => result_bind (f a) (λ a', Ok (Some a'))
  end.

(** *** [UserProfileUpdate] *)

Record UserProfileUpdate : Type := {
  pu_username : option string;
  pu_display_name : option string;
  pu_appearance : option (list (string * value))
}.

Definition prohibited : list string :=
  ["admin"; "system"; "support"; "moderator"; "damnbruh"].

(** [[a-zA-Z0-9_]+] *)
Definition word (s : string) : bool :=
  negb (bool_decide (s = EmptyString)) && all_chars is_word_char s.

Definition validate_username (v : option string) : result (option string) :=
  match v with
  | None => Ok None
  | Some s =>
      if negb (re_match_to_end word s) then
        Raise (ValidationError
                 "Username can only contain letters, numbers, and underscores")
      else if bool_decide (lower s ∈ prohibited) then
        Raise (ValidationError "Username not allowed")
      else Ok (Some s)
  end.

Definition parse_UserProfileUpdate (body : UserProfileUpdate)
    : result UserProfileUpdate :=
  result_bind (optional (field_length 3 20) (pu_username body)) (λ u,
  result_bind (validate_username u) (λ u,
  result_bind (optional (field_length 1 50) (pu_display_name body)) (λ d,
  Ok {| pu_username := u; pu_display_name := d;
        pu_appearance := pu_appearance body |}))).

(** *** [WithdrawalRequest] *)

Record WithdrawalRequest : Type := {
  wr_amount : Decimal;
  wr_destination_address : string;
  wr_token_type : string
}.

(** [0x[a-fA-F0-9]{40}] *)
Definition eth_address (s : string) : bool :=
  String.prefix "0x" s
  && bool_decide (String.length s = 42%nat)
  && all_chars is_hex_char (String.substring 2 40 s).

(** [[1-9A-HJ-NP-Za-km-z]{32,44}] *)
Definition base58_address (s : string) : bool :=
  bool_decide (32 ≤ String.length s)%nat && bool_decide (String.length s ≤ 44)%nat
  && all_chars is_base58_char s.

Definition validate_address (v : string) : result string :=
  if negb (re_match_to_end eth_address v || re_match_to_end base58_address v) then
    Raise (ValidationError "Invalid wallet address format")
  else Ok (if String.prefix "0x" v then lower v else v).

Definition validate_withdrawal_amount (v : Decimal) : result Decimal :=
  let min_withdrawal := dec 1 100 in
  let max_withdrawal := dec 1000 10 in
  if bool_decide (v < min_withdrawal)%Qc then
    Raise (ValidationError "Minimum withdrawal amount is 0.01")
  else if bool_decide (max_withdrawal < v)%Qc then
    Raise (ValidationError "Maximum withdrawal amount is 100.0")
  else Ok v.

Definition parse_WithdrawalRequest (body : WithdrawalRequest)
    : result WithdrawalRequest :=
  result_bind (field_bet_amount (wr_amount body)) (λ a,
  result_bind (validate_withdrawal_amount a) (λ a,
  result_bind (field_length 40 50 (wr_destination_address body)) (λ d,
  result_bind (validate_address d) (λ d,
  Ok {| wr_amount := a; wr_destination_address := d;
        wr_token_type := wr_token_type body |})))).

(** More response models. *)
Record UserBalance : Type := {
  ub_balance : Decimal;
  ub_currency : string;
  ub_wallet_address : value;
  ub_pending_withdrawals : Decimal
}.

Record GameHistory : Type := {
  gh_games : list doc;
  gh_total : nat;
  gh_has_more : bool
}.

Record LeaderboardEntry : Type := {
  le_rank : value;
  le_user_id : string;
  le_username : value;
  le_total_winnings : Decimal;
  le_games_played : value;
  le_win_rate : Decimal
}.

Record Leaderboard : Type := {
  lb_leaderboard : list LeaderboardEntry;
  lb_user_rank : option value;
  lb_total_players : nat
}.

End models.

(** ** database.py *)

Module database.

(** *** The document store

    What the program uses of a MongoDB collection.  The [_id] of a stored
    document is the key it is stored under. *)

Definition with_id (k : string) (d : doc) : doc := <["_id" := VStr k]> d.

(** All documents, in the order the store enumerates them. *)
Definition documents (c : collection) : list doc :=
  (λ kv, with_id kv.1 kv.2) <$> map_to_list c.

(** [find_one({"_id": k})] *)
Definition find_by_id (k : string) (c : collection) : option doc :=
  with_id k <$> c !! k.

(** [find_one({field: s})] for a string [s] *)
Definition find_one (field s : string) (c : collection) : option doc :=
  head (filter (λ d, Is_true (eq_str (get d field VNull) s)) (documents c)).

(** [insert_one(d)] where [d["_id"] = k]: the store refuses a second
    document with the same [_id]. *)
Definition insert_one (k : string) (d : doc) (c : collection) : result collection :=
  match c !! k with
  | Some _ => Raise (DuplicateKeyError k)
  | None => Ok (<[k := d]> c)
  end.

(** [update_one({"_id": k}, {"$set": upd})]: the fields of [upd] replace
    those of the stored document; nothing happens when no document has
    that [_id]. *)
Definition update_one (k : string) (upd : doc) (c : collection) : collection :=
  alter (λ d, upd ∪ d) k c.

Definition set_users (f : collection → collection) (db : MongoDB) : MongoDB :=
  mkDB (f (users db)) (game_sessions db) (transactions db) (affiliates db).
Definition set_game_sessions (f : collection → collection) (db : MongoDB) : MongoDB :=
  mkDB (users db) (f (game_sessions db)) (transactions db) (affiliates db).
Definition set_transactions (f : collection → collection) (db : MongoDB) : MongoDB :=
  mkDB (users db) (game_sessions db) (f (transactions db)) (affiliates db).
Definition set_affiliates (f : collection → collection) (db : MongoDB) : MongoDB :=
  mkDB (users db) (game_sessions db) (transactions db) (f (affiliates db)).

(** An insertion as a step of a handler. *)
Definition inserting (coll : MongoDB → collection)
    (put : (collection → collection) → MongoDB → MongoDB)
    (k : string) (d : doc) : M unit :=
  λ db, match insert_one k d (coll db) with
        | Ok c => (put (λ _, c) db, Ok tt)
        | Raise e => (db, Raise e)
        end.

(** *** User operations *)

Definition create_user (user_data : doc) (uuid : string) (now : Z) : M doc :=
  let user_data := <["_id" := VStr uuid]> user_data in
  let user_data := <["created_at" := VDate now]> user_data in
  let user_data := <["updated_at" := VDate now]> user_data in
  inserting users set_users uuid user_data ;;;
  ret (<["id" := VStr uuid]> user_data).

Definition get_user_by_privy_id (privy_user_id : string) : M (option doc) :=
  read (λ db,
    (λ user, <["id" := get user "_id" VNull]> user)
      <$> find_one "privy_user_id" privy_user_id (users db)).

(** The returned flag ([modified_count > 0]) is read by no caller. *)
Definition update_user (user_id : string) (update_data : doc) (now : Z) : M unit :=
  let update_data := <["updated_at" := VDate now]> update_data in
  write (set_users (update_one user_id update_data)).

Definition update_user_balance (user_id : string) (new_balance : Decimal) (now : Z)
    : M unit :=
  write (set_users (update_one user_id
    (dict [("balance", float new_balance); ("updated_at", VDate now)]))).

(** *** Game operations *)

Definition create_game_session (session_data : doc) (uuid : string) (now : Z) : M doc :=
  let session_data := <["_id" := VStr uuid]> session_data in
  let session_data := <["created_at" := VDate now]> session_data in
  let session_data := <["status" := VStr "active"]> session_data in
  inserting game_sessions set_game_sessions uuid session_data ;;;
  ret (<["id" := VStr uuid]> session_data).

Definition update_game_session (session_id : string) (update_data : doc) : M unit :=
  write (set_game_sessions (update_one session_id update_data)).

(** *** Transaction operations *)

Definition create_transaction (transaction_data : doc) (uuid : string) (now : Z) : M doc :=
  let transaction_data := <["_id" := VStr uuid]> transaction_data in
  let transaction_data := <["created_at" := VDate now]> transaction_data in
  let transaction_data :=
    <["status" := get transaction_data "status" (VStr "pending")]> transaction_data in
  inserting transactions set_transactions uuid transaction_data ;;;
  ret (<["id" := VStr uuid]> transaction_data).

(** *** Affiliate operations *)

Definition create_affiliate (affiliate_data : doc) (uuid : string) (now : Z) : M doc :=
  let affiliate_data := <["_id" := VStr uuid]> affiliate_data in
  let affiliate_data := <["created_at" := VDate now]> affiliate_data in
  inserting affiliates set_affiliates uuid affiliate_data ;;;
  ret (<["id" := VStr uuid]> affiliate_data).

(** *** Leaderboard operations *)

(** [timedelta(days=n)] *)
Definition days (n : Z) : Z := n * 86400000.

(** The date filter of a period: the earliest [created_at] it lets through,
    or no filter. *)
Definition date_filter (period : string) (now : Z) : option Z :=
  if bool_decide (period = "daily") then Some (now - days 1)
  else if bool_decide (period = "weekly") then Some (now - days 7)
  else if bool_decide (period = "monthly") then Some (now - days 30)
  else None.

(** [{"$match": {"created_at": {"$gte": cutoff}}}], or [{"$match": {}}]: a
    document without a date in [created_at] does not match a cutoff. *)
Definition matches (flt : option Z) (d : doc) : bool :=
  match flt with
  | None => true
  | Some cutoff =>
      match d !! "created_at" with
      | Some (VDate t) => bool_decide (cutoff ≤ t)
      | _ => false
      end
  end.

(** The sort key of a field: its number; a missing field, a null and (not
    occurring in the statistics this program writes) any other value sort
    below every number. *)
Definition sort_key (d : doc) (field : string) : option Decimal :=
  d !! field ≫= numeric.

Definition key_le (a b : option Decimal) : Prop :=
  match a, b with
  | None, _ => True
  | Some _, None => False
  | Some x, Some y => (x ≤ y)%Qc
  end.

(** [{"$sort": {"total_winnings": -1, "total_games": -1}}]: [u] may come
    before [v]. *)
Definition sort_order (u v : doc) : Prop :=
  key_le (sort_key v "total_winnings") (sort_key u "total_winnings") ∧
  (key_le (sort_key u "total_winnings") (sort_key v "total_winnings") →
   key_le (sort_key v "total_games") (sort_key u "total_games")).

#[global] Instance key_le_dec a b : Decision (key_le a b).
Proof. destruct a, b; simpl; apply _. Defined.

#[global] Instance sort_order_dec u v : Decision (sort_order u v).
Proof. unfold sort_order. apply _. Defined.

(** [{"$eq": [v, 0]}] *)
Definition eq_zero (v : option value) : bool :=
  match v ≫= numeric with
  | Some q => bool_decide (q = 0%Qc)
  | None => false
  end.

Definition nullish (v : option value) : bool :=
  match v with
  | None | Some VNull => true
  | Some _ => false
  end.

(** [{"$divide": [a, b]}]: the quotient of two numbers; null when an
    operand is null or a missing field; an error otherwise.  The quotient
    is the exact one, where the store returns the nearest double. *)
Definition divide (a b : option value) : result value :=
  match a ≫= numeric, b ≫= numeric with
  | Some x, Some y =>
      if bool_decide (y = 0%Qc) then Raise (OperationFailure "can't $divide by zero")
      else Ok (VFloat (x / y)%Qc)
  | _, _ =>
      if nullish a || nullish b then Ok VNull
      else Raise (OperationFailure "$divide only supports numeric types")
  end.

(** The [win_rate] expression of the projection. *)
Definition win_rate (u : doc) : result value :=
  if eq_zero (u !! "total_games") then Ok (VInt 0)
  else divide (u !! "total_wins") (u !! "total_games").

Definition projected_fields : list string :=
  ["_id"; "username"; "total_winnings"; "total_games"].

(** The [$project] stage on one document. *)
Definition project (u : doc) : result doc :=
  result_bind (win_rate u) (λ w,
  Ok (<["win_rate" := w]>
      (<["user_id" := get u "_id" VNull]>
       (filter (λ kv, kv.1 ∈ projected_fields) u)))).

(** [for i, user in enumerate(leaderboard): user['rank'] = i + 1] *)
Definition add_ranks (leaderboard : list doc) : list doc :=
  imap (λ i user, <["rank" := VInt (Z.of_nat i + 1)]> user) leaderboard.

(** The documents the pipeline keeps, in order, before projection. *)
Definition ranked_users (c : collection) (flt : option Z) (limit : Z) : list doc :=
  take (Z.to_nat limit)
    (merge_sort sort_order (filter (λ d, Is_true (matches flt d)) (documents c))).

Definition aggregate (c : collection) (flt : option Z) (limit : Z) : result (list doc) :=
  if bool_decide (limit ≤ 0)
  then Raise (OperationFailure "the limit must be positive")
  else result_map project (ranked_users c flt limit).

Definition get_global_leaderboard (period : string) (limit : Z) (now : Z)
    : M (list doc) :=
  leaderboard <- (λ db, (db, aggregate (users db) (date_filter period now) limit)) ;;
  ret (add_ranks leaderboard).

(** *** Lookups by identifier *)

Definition get_user_by_id (user_id : string) : M (option doc) :=
  read (λ db,
    (λ user, <["id" := get user "_id" VNull]> user) <$> find_by_id user_id (users db)).

Definition get_affiliate_by_user_id (user_id : string) : M (option doc) :=
  read (λ db,
    (λ affiliate, <["id" := get affiliate "_id" VNull]> affiliate)
      <$> find_one "user_id" user_id (affiliates db)).

Definition get_affiliate_by_code (referral_code : string) : M (option doc) :=
  read (λ db,
    (λ affiliate, <["id" := get affiliate "_id" VNull]> affiliate)
      <$> find_one "referral_code" referral_code (affiliates db)).

(** The returned flag ([modified_count > 0]) is read by no caller. *)
Definition update_transaction (transaction_id : string) (update_data : doc) : M unit :=
  write (set_transactions (update_one transaction_id update_data)).

(** *** Cursors *)

(** The sort key of [created_at]: its date; a missing field, a null and
    (not written under this name by the program) any other value sort below
    every date. *)
Definition date_key (d : doc) : option Z :=
  match d !! "created_at" with
  | Some (VDate t) => Some t
  | _ => None
  end.

Definition date_le (a b : option Z) : Prop :=
  match a, b with
  | None, _ => True
  | Some _, None => False
  | Some x, Some y => x ≤ y
  end.

(** [.sort("created_at", -1)]: [u] may come before [v]. *)
Definition newest_first (u v : doc) : Prop := date_le (date_key v) (date_key u).

#[global] Instance date_le_dec a b : Decision (date_le a b).
Proof. destruct a, b; simpl; apply _. Defined.

#[global] Instance newest_first_dec u v : Decision (newest_first u v).
Proof. unfold newest_first. apply _. Defined.

(** [.skip(offset).limit(limit)]; a limit of 0 is no limit.  Both are
    naturals: the driver refuses a negative skip before any query. *)
Definition page {A} (offset limit : nat) (l : list A) : list A :=
  let l := drop offset l in
  match limit with
  | O => l
  | S _ => take limit l
  end.

(** [find({field: s})], in the order the store enumerates. *)
Definition find_all (field s : string) (c : collection) : list doc :=
  filter (λ d, Is_true (eq_str (get d field VNull) s)) (documents c).

Definition with_alias (d : doc) : doc := <["id" := get d "_id" VNull]> d.

Definition get_user_game_history (user_id : string) (limit offset : nat)
    : M (list doc) :=
  read (λ db,
    with_alias
      <$> page offset limit
            (merge_sort newest_first (find_all "user_id" user_id (game_sessions db)))).

(** [if transaction_type:] holds of a string that is given and not empty. *)
Definition type_query (transaction_type : option string) (d : doc) : bool :=
  match transaction_type with
  | None | Some EmptyString => true
  | Some t => eq_str (get d "type" VNull) t
  end.

Definition get_user_transactions (user_id : string)
    (transaction_type : option string) (limit : nat) : M (list doc) :=
  read (λ db,
    with_alias
      <$> page 0 limit
            (merge_sort newest_first
               (filter (λ d, Is_true (type_query transaction_type d))
                  (find_all "user_id" user_id (transactions db))))).

(** [count_documents({field: s})] *)
Definition count_documents (field s : string) (c : collection) : nat :=
  length (find_all field s c).

(** The pending withdrawals of a user:
    [{"$match": {"user_id": .., "type": "withdrawal", "status": "pending"}}]. *)
Definition pending_withdrawal (user_id : string) (d : doc) : bool :=
  eq_str (get d "user_id" VNull) user_id
  && eq_str (get d "type" VNull) "withdrawal"
  && eq_str (get d "status" VNull) "pending".

(** [{"$sum": "$amount"}]: values that are not numbers count for nothing. *)
Definition amount_of (d : doc) : Decimal :=
  default 0%Qc (d !! "amount" ≫= numeric).

(** The groups of [{"$group": {"_id": None, "total": {"$sum": "$amount"}}}]
    over the matching documents: one group, or none when nothing matches. *)
Definition pending_withdrawals (user_id : string) (c : collection) : list doc :=
  match filter (λ d, Is_true (pending_withdrawal user_id d)) (documents c) with
  | [] => []
  | ds => [dict [("_id", VNull);
                 ("total", VFloat (foldr (λ d acc, (amount_of d + acc)%Qc) 0%Qc ds))]]
  end.

End database.

(** ** auth.py: the authenticated caller *)

Record AuthenticatedUser : Type := {
  user_id : string;
  app_id : string;
  email : option string;
  wallet_address : option string
}.

(** ** server.py *)

Module server.
Import config models.

Section handlers.

Variable settings : Settings.

(** The products at rank 1 are exact, where the context of [decimal] rounds
    each to 28 significant digits. *)
Definition calculate_payout (bet_amount : Decimal) (rank : Z) (total_players : Z)
    : Decimal :=
  if bool_decide (rank = 1) then
    (bet_amount * dec 18 10 * (1 - HOUSE_EDGE settings))%Qc
  else if bool_decide (rank ≤ 3) then
    bet_amount
  else
    0%Qc.

(** The string a document holds under [k] ([db_user['id']], which
    [get_user_by_privy_id] sets to the document's [_id]). *)
Definition getitem_str (d : doc) (k : string) : result string :=
  match d !! k with
  | Some (VStr s) => Ok s
  | Some _ => Raise TypeError
  | None => Raise (KeyError k)
  end.

Record UserProfile : Type := {
  up_user_id : string;
  up_email : value;
  up_username : value;
  up_display_name : value;
  up_wallet_address : value;
  up_balance : Decimal;
  up_total_games : value;
  up_total_winnings : Decimal;
  up_referral_code : value;
  up_referred_by : value;
  up_appearance : value;
  up_created_at : value
}.

(** [GET /user/profile]; [referral_code] is the code drawn by
    [generate_referral_code], [uuid_user] and [uuid_affiliate] the
    identifiers drawn for the two records when the user is new. *)
Definition get_user_profile (user : AuthenticatedUser)
    (referral_code uuid_user uuid_affiliate : string) (now : Z) : M UserProfile :=
  found <- database.get_user_by_privy_id (user_id user) ;;
  db_user <-
    match found with
    | Some db_user => ret db_user
    | None =>
        let user_data := dict [
          ("privy_user_id", VStr (user_id user));
          ("email", opt_str (email user));
          ("wallet_address", opt_str (wallet_address user));
          ("balance", VFloat 0%Qc);
          ("total_games", VInt 0);
          ("total_winnings", VFloat 0%Qc);
          ("referral_code", VStr referral_code);
          ("appearance", VDict [("color", VStr "#FCD34D");
                                ("pattern", VStr "solid");
                                ("accessory", VStr "none")])] in
        db_user <- database.create_user user_data uuid_user now ;;
        id <- lift (getitem_str db_user "id") ;;
        let affiliate_data := dict [
          ("user_id", VStr id);
          ("referral_code", VStr referral_code);
          ("commission_rate", float (DEFAULT_COMMISSION_RATE settings));
          ("total_referrals", VInt 0);
          ("total_commission", VFloat 0%Qc);
          ("pending_commission", VFloat 0%Qc);
          ("is_active", VBool true)] in
        database.create_affiliate affiliate_data uuid_affiliate now ;;;
        ret db_user
    end ;;
  id <- lift (getitem_str db_user "id") ;;
  balance <- lift (Decimal_str (get db_user "balance" (VInt 0))) ;;
  total_winnings <- lift (Decimal_str (get db_user "total_winnings" (VInt 0))) ;;
  ret {| up_user_id := id;
         up_email := get db_user "email" VNull;
         up_username := get db_user "username" VNull;
         up_display_name := get db_user "display_name" VNull;
         up_wallet_address := get db_user "wallet_address" VNull;
         up_balance := balance;
         up_total_games := get db_user "total_games" (VInt 0);
         up_total_winnings := total_winnings;
         up_referral_code := get db_user "referral_code" VNull;
         up_referred_by := get db_user "referred_by" VNull;
         up_appearance := get db_user "appearance" VNull;
         up_created_at := get db_user "created_at" (VDate now) |}.

(** The handler of [POST /games/join], on a validated request.
    [uuid_session] and [uuid_transaction] are the identifiers drawn for the
    two new records, [other_players] the mock roster drawn for the
    response. *)
Definition join_game (bet_request : BetRequest) (user : AuthenticatedUser)
    (uuid_session uuid_transaction : string) (other_players : list value)
    (now : Z) : M GameSession :=
  found <- database.get_user_by_privy_id (user_id user) ;;
  match found with
  | None => raise (HTTPException 404 "User not found")
  | Some db_user =>
      current_balance <- lift (Decimal_str (get db_user "balance" (VInt 0))) ;;
      (* Check balance *)
      if bool_decide (current_balance < bet_amount bet_request)%Qc then
        raise (HTTPException 400 "Insufficient balance")
      else
        (* Deduct bet amount *)
        let new_balance := (current_balance - bet_amount bet_request)%Qc in
        id <- lift (getitem_str db_user "id") ;;
        database.update_user_balance id new_balance now ;;;
        (* Create game session *)
        let session_data := dict [
          ("user_id", VStr id);
          ("game_type", VStr (game_type bet_request));
          ("bet_amount", float (bet_amount bet_request));
          ("appearance", from_option VDict VNull (appearance bet_request))] in
        game_session <- database.create_game_session session_data uuid_session now ;;
        (* Create transaction record *)
        session_id <- lift (getitem game_session "id") ;;
        let transaction_data := dict [
          ("user_id", VStr id);
          ("type", VStr "bet");
          ("amount", float (bet_amount bet_request));
          ("status", VStr "completed");
          ("reference_id", session_id);
          ("metadata", VDict [("game_type", VStr (game_type bet_request))])] in
        database.create_transaction transaction_data uuid_transaction now ;;;
        game_session_id <- lift (getitem_str game_session "id") ;;
        ret {| gs_game_session_id := game_session_id;
               gs_bet_amount := bet_amount bet_request;
               gs_new_balance := new_balance;
               gs_game_state := "active";
               gs_other_players := other_players |}
  end.

(** [POST /games/join]: the body is validated into a [BetRequest] before the
    handler runs. *)
Definition post_games_join (body : BetRequest) (user : AuthenticatedUser)
    (uuid_session uuid_transaction : string) (other_players : list value)
    (now : Z) : M GameSession :=
  bet_request <- lift (parse_BetRequest body) ;;
  join_game bet_request user uuid_session uuid_transaction other_players now.

(** The handler of [POST /games/end], on a validated request.
    [total_players] is the mock number of players drawn, [uuid_transaction]
    the identifier drawn for the payout transaction if one is written.
    Integers are unbounded here, where the store refuses those beyond 64
    bits. *)
Definition end_game (game_end : GameEnd) (user : AuthenticatedUser)
    (total_players : Z) (uuid_transaction : string) (now : Z) : M GameResult :=
  found <- database.get_user_by_privy_id (user_id user) ;;
  match found with
  | None => raise (HTTPException 404 "User not found")
  | Some db_user =>
      id <- lift (getitem_str db_user "id") ;;
      (* Get game session *)
      session <- read (λ db,
        database.find_by_id (game_session_id game_end) (game_sessions db)) ;;
      owner <- lift (match session with
                     | None => Ok false
                     | Some session =>
                         result_bind (getitem session "user_id") (λ o,
                         Ok (eq_str o id))
                     end) ;;
      match session, owner with
      | Some session, true =>
          (* Calculate payout *)
          stored_bet <- lift (getitem session "bet_amount") ;;
          bet_amount <- lift (Decimal_str stored_bet) ;;
          let payout := calculate_payout bet_amount (final_rank game_end) total_players in
          (* Update user balance *)
          current_balance <- lift (Decimal_str (get db_user "balance" (VInt 0))) ;;
          let new_balance := (current_balance + payout)%Qc in
          database.update_user_balance id new_balance now ;;;
          (* Update game session *)
          let session_update := dict [
            ("final_score", VInt (final_score game_end));
            ("final_rank", VInt (final_rank game_end));
            ("payout", float payout);
            ("status", VStr "completed");
            ("ended_at", VDate now)] in
          database.update_game_session (game_session_id game_end) session_update ;;;
          (* Update user stats *)
          games <- lift (add_one (get db_user "total_games" (VInt 0))) ;;
          winnings <- lift (Decimal_str (get db_user "total_winnings" (VInt 0))) ;;
          let user_update := dict [
            ("total_games", games);
            ("total_winnings", float (winnings + payout)%Qc)] in
          database.update_user id user_update now ;;;
          (* Create payout transaction if won *)
          (if bool_decide (0 < payout)%Qc then
             let transaction_data := dict [
               ("user_id", VStr id);
               ("type", VStr "payout");
               ("amount", float payout);
               ("status", VStr "completed");
               ("reference_id", VStr (game_session_id game_end));
               ("metadata", VDict [("rank", VInt (final_rank game_end));
                                   ("total_players", VInt total_players);
                                   ("score", VInt (final_score game_end))])] in
             database.create_transaction transaction_data uuid_transaction now ;;;
             ret tt
           else ret tt) ;;;
          ret {| gr_payout := payout;
                 gr_new_balance := new_balance;
                 gr_rank := final_rank game_end;
                 gr_total_players := total_players;
                 gr_game_result :=
                   if bool_decide (final_rank game_end ≤ 3) then "win" else "loss" |}
      | _, _ => raise (HTTPException 404 "Game session not found")
      end
  end.

(** [POST /games/end]: the body is validated into a [GameEnd] before the
    handler runs. *)
Definition post_games_end (body : GameEnd) (user : AuthenticatedUser)
    (total_players : Z) (uuid_transaction : string) (now : Z) : M GameResult :=
  game_end <- lift (parse_GameEnd body) ;;
  end_game game_end user total_players uuid_transaction now.

(** The handler of [PUT /user/profile], on a validated request. *)
Definition update_user_profile (profile_update : UserProfileUpdate)
    (user : AuthenticatedUser) (now : Z) : M string :=
  found <- database.get_user_by_privy_id (user_id user) ;;
  match found with
  | None => raise (HTTPException 404 "User not found")
  | Some db_user =>
      id <- lift (getitem_str db_user "id") ;;
      let update_data : doc := ∅ in
      update_data <-
        match pu_username profile_update with
        | Some username =>
            (* Check if username is already taken *)
            existing <- read (λ db, database.find_one "username" username (users db)) ;;
            match existing with
            | Some existing =>
                other <- lift (result_bind (getitem existing "_id") (λ e,
                               Ok (negb (eq_str e id)))) ;;
                if other : bool then raise (HTTPException 400 "Username already taken")
                else ret (<["username" := VStr username]> update_data)
            | None => ret (<["username" := VStr username]> update_data)
            end
        | None => ret update_data
        end ;;
      let update_data :=
        match pu_display_name profile_update with
        | Some display_name => <["display_name" := VStr display_name]> update_data
        | None => update_data
        end in
      let update_data :=
        match pu_appearance profile_update with
        | Some appearance => <["appearance" := VDict appearance]> update_data
        | None => update_data
        end in
      (if bool_decide (update_data = ∅) then ret tt
       else database.update_user id update_data now) ;;;
      ret "Profile updated successfully"
  end.

(** [GET /user/balance] *)
Definition get_user_balance (user : AuthenticatedUser) : M UserBalance :=
  found <- database.get_user_by_privy_id (user_id user) ;;
  match found with
  | None => raise (HTTPException 404 "User not found")
  | Some db_user =>
      id <- lift (getitem_str db_user "id") ;;
      (* Calculate pending withdrawals *)
      pending_withdrawals <- read (λ db,
        take 1 (database.pending_withdrawals id (transactions db))) ;;
      total <- lift (match pending_withdrawals with
                     | group :: _ => getitem group "total"
                     | [] => Ok (VInt 0)
                     end) ;;
      pending_amount <- lift (Decimal_str total) ;;
      balance <- lift (Decimal_str (get db_user "balance" (VInt 0))) ;;
      ret {| ub_balance := balance;
             ub_currency := "SOL";
             ub_wallet_address := get db_user "wallet_address" VNull;
             ub_pending_withdrawals := pending_amount |}
  end.

(** [v <= 3] on a stored value: numbers and booleans compare, anything
    else is a type error. *)
Definition le_three (v : value) : result bool :=
  match v with
  | VInt n => Ok (bool_decide (n ≤ 3))
  | VFloat q => Ok (bool_decide (q ≤ Q2Qc (inject_Z 3))%Qc)
  | VBool _ => Ok true
  | _ => Raise TypeError
  end.

(** One entry of the formatted history. *)
Definition format_game (game : doc) : result doc :=
  result_bind (getitem game "id") (λ game_id,
  result_bind (le_three (get game "final_rank" (VInt 0))) (λ won,
  Ok (dict [("game_id", game_id);
            ("game_type", get game "game_type" (VStr "skill_match"));
            ("bet_amount", get game "bet_amount" (VInt 0));
            ("payout", get game "payout" (VInt 0));
            ("score", get game "final_score" VNull);
            ("rank", get game "final_rank" VNull);
            ("result", VStr (if won : bool then "win" else "loss"));
            ("duration", VInt 0);
            ("timestamp", get game "created_at" VNull)]))).

(** The handler of [GET /games/history]; the route admits a limit from 1
    to 100 and an offset from 0. *)
Definition get_game_history (user : AuthenticatedUser) (limit offset : nat)
    : M GameHistory :=
  found <- database.get_user_by_privy_id (user_id user) ;;
  match found with
  | None => raise (HTTPException 404 "User not found")
  | Some db_user =>
      id <- lift (getitem_str db_user "id") ;;
      games <- database.get_user_game_history id limit offset ;;
      (* Get total count *)
      total <- read (λ db, database.count_documents "user_id" id (game_sessions db)) ;;
      (* Format games *)
      formatted_games <- lift (result_map format_game games) ;;
      ret {| gh_games := formatted_games;
             gh_total := total;
             gh_has_more := bool_decide (offset + limit < total)%nat |}
  end.

(** The rank of the first entry of the caller, if any. *)
Fixpoint find_user_rank (id : string) (leaderboard_data : list doc)
    : result (option value) :=
  match leaderboard_data with
  | [] => Ok None
  | entry :: rest =>
      result_bind (getitem entry "user_id") (λ entry_user,
      if eq_str entry_user id
      then result_bind (getitem entry "rank") (λ r, Ok (Some r))
      else find_user_rank id rest)
  end.

(** The arguments of one [LeaderboardEntry], evaluated in the order they
    are written.  (The checks of the response model on them are not part
    of this function.) *)
Definition format_entry (entry : doc) : result LeaderboardEntry :=
  result_bind (getitem entry "rank") (λ rank,
  result_bind (getitem_str entry "user_id") (λ entry_user,
  let username :=
    get entry "username" (VStr ("Player_" +:+ String.substring 0 8 entry_user)) in
  result_bind (Decimal_str (get entry "total_winnings" (VInt 0))) (λ total_winnings,
  let games_played := get entry "total_games" (VInt 0) in
  result_bind (Decimal_str (get entry "win_rate" (VInt 0))) (λ win_rate,
  Ok {| le_rank := rank;
        le_user_id := entry_user;
        le_username := username;
        le_total_winnings := total_winnings;
        le_games_played := games_played;
        le_win_rate := win_rate |})))).

(** The handler of [GET /leaderboard/global]; the route admits the four
    period names and a limit from 1 to 500. *)
Definition get_global_leaderboard (period : string) (limit : Z)
    (user : option AuthenticatedUser) (now : Z) : M Leaderboard :=
  leaderboard_data <- database.get_global_leaderboard period limit now ;;
  (* Get user's rank if authenticated *)
  user_rank <-
    match user with
    | None => ret None
    | Some user =>
        found <- database.get_user_by_privy_id (user_id user) ;;
        match found with
        | None => ret None
        | Some db_user =>
            id <- lift (getitem_str db_user "id") ;;
            lift (find_user_rank id leaderboard_data)
        end
    end ;;
  (* Format leaderboard *)
  formatted_leaderboard <- lift (result_map format_entry leaderboard_data) ;;
  total_players <- read (λ db, size (users db)) ;;
  ret {| lb_leaderboard := formatted_leaderboard;
         lb_user_rank := user_rank;
         lb_total_players := total_players |}.

End handlers.

End server.

(** ** The records a settlement writes

    Written out once, for the statements below. *)

Import config models.

Module records.

(** The [$set] of a balance update. *)
Definition balance_update (new_balance : Decimal) (now : Z) : doc :=
  dict [("balance", float new_balance); ("updated_at", VDate now)].

(** The session record of a join. *)
Definition session (uid : string) (bet_request : BetRequest)
    (uuid_session : string) (now : Z) : doc :=
  <["status" := VStr "active"]>
  (<["created_at" := VDate now]>
  (<["_id" := VStr uuid_session]>
  (dict [("user_id", VStr uid);
         ("game_type", VStr (game_type bet_request));
         ("bet_amount", float (bet_amount bet_request));
         ("appearance", from_option VDict VNull (appearance bet_request))]))).

(** The [bet] transaction of a join. *)
Definition bet (uid : string) (bet_request : BetRequest)
    (uuid_session uuid_transaction : string) (now : Z) : doc :=
  <["status" := VStr "completed"]>
  (<["created_at" := VDate now]>
  (<["_id" := VStr uuid_transaction]>
  (dict [("user_id", VStr uid);
         ("type", VStr "bet");
         ("amount", float (bet_amount bet_request));
         ("status", VStr "completed");
         ("reference_id", VStr uuid_session);
         ("metadata", VDict [("game_type", VStr (game_type bet_request))])]))).

(** The database after a join that went through. *)
Definition joined (db : MongoDB) (uid : string) (current_balance : Decimal)
    (bet_request : BetRequest) (uuid_session uuid_transaction : string) (now : Z)
    : MongoDB :=
  {| users :=
       database.update_one uid
         (balance_update (current_balance - bet_amount bet_request)%Qc now) (users db);
     game_sessions :=
       <[uuid_session := session uid bet_request uuid_session now]> (game_sessions db);
     transactions :=
       <[uuid_transaction := bet uid bet_request uuid_session uuid_transaction now]>
         (transactions db);
     affiliates := affiliates db |}.

(** The [$set] of a session at its end. *)
Definition session_update (game_end : GameEnd) (payout : Decimal) (now : Z) : doc :=
  dict [("final_score", VInt (final_score game_end));
        ("final_rank", VInt (final_rank game_end));
        ("payout", float payout);
        ("status", VStr "completed");
        ("ended_at", VDate now)].

(** The [$set] of the user statistics at the end of a session. *)
Definition stats_update (games : value) (winnings : Decimal) (now : Z) : doc :=
  <["updated_at" := VDate now]>
  (dict [("total_games", games); ("total_winnings", float winnings)]).

(** The [payout] transaction of an end. *)
Definition payout (uid : string) (game_end : GameEnd) (amount : Decimal)
    (total_players : Z) (uuid_transaction : string) (now : Z) : doc :=
  <["status" := VStr "completed"]>
  (<["created_at" := VDate now]>
  (<["_id" := VStr uuid_transaction]>
  (dict [("user_id", VStr uid);
         ("type", VStr "payout");
         ("amount", float amount);
         ("status", VStr "completed");
         ("reference_id", VStr (game_session_id game_end));
         ("metadata", VDict [("rank", VInt (final_rank game_end));
                             ("total_players", VInt total_players);
                             ("score", VInt (final_score game_end))])]))).

(** The database after an end, up to the payout transaction. *)
Definition settled (db : MongoDB) (uid : string) (game_end : GameEnd)
    (current_balance amount : Decimal) (games : value) (winnings : Decimal)
    (now : Z) : MongoDB :=
  {| users :=
       database.update_one uid (stats_update games (winnings + amount)%Qc now)
         (database.update_one uid
            (balance_update (current_balance + amount)%Qc now) (users db));
     game_sessions :=
       database.update_one (game_session_id game_end)
         (session_update game_end amount now) (game_sessions db);
     transactions := transactions db;
     affiliates := affiliates db |}.

End records.

(** ** The scenarios of the specification *)

Module scenario.

Definition alice : AuthenticatedUser :=
  {| user_id := "did:privy:alice"; app_id := "damnbruh";
     email := None; wallet_address := None |}.

(** The record [get_user_profile] creates for [alice], holding [balance]. *)
Definition alice_record (balance : Decimal) : doc :=
  <["updated_at" := VDate 0]>
  (<["created_at" := VDate 0]>
  (<["_id" := VStr "u-alice"]>
  (dict [("privy_user_id", VStr "did:privy:alice");
         ("email", VNull);
         ("wallet_address", VNull);
         ("balance", VFloat balance);
         ("total_games", VInt 0);
         ("total_winnings", VFloat 0%Qc);
         ("referral_code", VStr "AB12CD34");
         ("appearance", VDict [("color", VStr "#FCD34D");
                               ("pattern", VStr "solid");
                               ("accessory", VStr "none")])]))).

(** What a lookup of [alice] returns. *)
Definition alice_found (balance : Decimal) : doc :=
  <["id" := VStr "u-alice"]> (database.with_id "u-alice" (alice_record balance)).

(** A database with [alice] alone, holding [balance]. *)
Definition funded (balance : Decimal) : MongoDB :=
  {| users := {["u-alice" := alice_record balance]};
     game_sessions := ∅; transactions := ∅; affiliates := ∅ |}.

Definition bet_half : BetRequest :=
  {| bet_amount := dec 5 10; game_type := "skill_match"; appearance := None |}.

(** The database after [alice], holding 1.0, has joined with [bet_half]. *)
Definition after_join : MongoDB :=
  records.joined (funded (dec 10 10)) "u-alice" (dec 10 10) bet_half "s-1" "t-1" 1000.

Definition alice_after_join : doc :=
  <["id" := VStr "u-alice"]>
  (database.with_id "u-alice"
     (records.balance_update (dec 10 10 - dec 5 10)%Qc 1000 ∪ alice_record (dec 10 10))).

Definition session_after_join : doc :=
  database.with_id "s-1" (records.session "u-alice" bet_half "s-1" 1000).

Definition won : GameEnd :=
  {| game_session_id := "s-1"; final_score := 42; final_rank := 1 |}.

Definition fourth : GameEnd :=
  {| game_session_id := "s-1"; final_score := 7; final_rank := 4 |}.

(** [alice] ends her session as the winner, and then ends it once more. *)
Definition first_end : MongoDB * result GameResult :=
  server.end_game defaults won alice 9 "t-2" 2000 after_join.

Definition second_end : MongoDB * result GameResult :=
  server.end_game defaults won alice 12 "t-3" 3000 first_end.1.

(** The field [f] of the record stored under [k]. *)
Definition field (c : collection) (k f : string) : option value :=
  match c !! k with
  | Some d => d !! f
  | None => None
  end.

(** The balance stored for [alice]. *)
Definition alice_balance (db : MongoDB) : option Q :=
  match field (users db) "u-alice" "balance" with
  | Some v => this <$> numeric v
  | None => None
  end.

(** The transactions of type [payout] that refer to session [s-1]. *)
Definition payouts_of_session (db : MongoDB) : list string :=
  (map_to_list
     (filter (λ kt, Is_true (eq_str (get kt.2 "type" VNull) "payout"
                             && eq_str (get kt.2 "reference_id" VNull) "s-1"))
        (transactions db))).*1.

(** A bet of 0.0005, below the default [MIN_BET_AMOUNT] of 0.001. *)
Definition tiny_bet : BetRequest :=
  {| bet_amount := dec 5 10000; game_type := "skill_match"; appearance := None |}.

(** Three players for the leaderboard: [carol] has won most and never
    played a counted game, [bob] and [dave] are level on winnings. *)
Definition player (winnings : Decimal) (games wins : Z) (created : Z) : doc :=
  dict [("total_winnings", VFloat winnings); ("total_games", VInt games);
        ("total_wins", VInt wins); ("created_at", VDate created)].

Definition three_players : MongoDB :=
  {| users := {["u-bob" := player (dec 50 10) 10 4 0;
                "u-carol" := player (dec 90 10) 0 0 0;
                "u-dave" := player (dec 50 10) 20 5 0]};
     game_sessions := ∅; transactions := ∅; affiliates := ∅ |}.

Definition three_ranked : list doc :=
  match (database.get_global_leaderboard "all_time" 100 0 three_players).2 with
  | Ok lb => lb
  | Raise _ => []
  end.

(** An account created ten days before [today] that settled a game an hour
    before [today]. *)
Definition today : Z := database.days 10.

Definition veteran : MongoDB :=
  {| users := {["u-vet" := <["updated_at" := VDate (today - 3600000)]>
                             (player (dec 882 1000) 1 0 0)]};
     game_sessions := ∅; transactions := ∅; affiliates := ∅ |}.

(** Two accounts created [today]. *)
Definition newcomers : MongoDB :=
  {| users := {["u-new1" := player 0%Qc 0 0 today;
                "u-new2" := player (dec 10 10) 2 1 today]};
     game_sessions := ∅; transactions := ∅; affiliates := ∅ |}.

Definition daily_top1 : list doc :=
  match (database.get_global_leaderboard "daily" 1 today newcomers).2 with
  | Ok lb => lb
  | Raise _ => []
  end.

(** A database with no user yet and one open session recorded for the
    identifier [u-alice]; [alice] is then created under that identifier and
    ends the session as the winner. *)
Definition open_session : MongoDB :=
  {| users := ∅;
     game_sessions := {["s-0" := records.session "u-alice" bet_half "s-0" 0]};
     transactions := ∅; affiliates := ∅ |}.

Definition created : MongoDB * result server.UserProfile :=
  server.get_user_profile defaults alice "AB12CD34" "u-alice" "a-alice" 0 open_session.

Definition created_then_won : MongoDB * result GameResult :=
  server.end_game defaults
    {| game_session_id := "s-0"; final_score := 42; final_rank := 1 |}
    alice 9 "t-9" 2000 created.1.

Definition board_of_created : list doc :=
  match (database.get_global_leaderboard "all_time" 100 5000 created_then_won.1).2 with
  | Ok lb => lb
  | Raise _ => []
  end.

(** The leaderboard after the win of [alice]. *)
Definition board_after_win : list doc :=
  match (database.get_global_leaderboard "all_time" 100 5000 first_end.1).2 with
  | Ok lb => lb
  | Raise _ => []
  end.

End scenario.

(** ** Invariants of the handlers *)

(** [P] holds of the database a step leaves behind whenever it holds before,
    whatever the step returns or raises. *)
Definition preserves (P : MongoDB → Prop) {A} (m : M A) : Prop :=
  ∀ db db' r, P db → m db = (db', r) → P db'.

(** [Q] holds of whatever a step returns. *)
Definition returns {A} (Q : A → Prop) (m : M A) : Prop :=
  ∀ db db' a, m db = (db', Ok a) → Q a.

(** No user record has a [total_wins] field. *)
Definition no_total_wins (db : MongoDB) : Prop :=
  ∀ k d, users db !! k = Some d → d !! "total_wins" = None.

(** The users that pass the date filter of a period. *)
Definition in_period (period : string) (now : Z) (db : MongoDB) : list doc :=
  filter (λ d, Is_true (database.matches (database.date_filter period now) d))
    (database.documents (users db)).

(** The record stored under [uid] is the only one of the caller [p] (what
    the unique index on [privy_user_id] keeps). *)
Definition sole_record (db : MongoDB) (p uid : string) : Prop :=
  (∃ d, users db !! uid = Some d ∧ eq_str (get d "privy_user_id" VNull) p = true)
  ∧ ∀ k d, users db !! k = Some d →
           eq_str (get d "privy_user_id" VNull) p = true → k = uid.

(** The values a new user brings collide with no unique index the program
    asks the store for ([referral_code] on users, [user_id] and
    [referral_code] on affiliates): no user record holds the referral code,
    and no affiliate record holds the user identifier or the code. *)
Definition admitted_by_indexes (db : MongoDB) (rc uu : string) : Prop :=
  (∀ k d, users db !! k = Some d → d !! "referral_code" ≠ Some (VStr rc))
  ∧ (∀ k a, affiliates db !! k = Some a →
            a !! "user_id" ≠ Some (VStr uu) ∧ a !! "referral_code" ≠ Some (VStr rc)).

(** A value the response models take for an optional string. *)
Definition optional_string (v : value) : Prop := v = VNull ∨ ∃ s, v = VStr s.

(** The fields of a user record that the profile shows hold what the
    response model takes as it is. *)
Definition profile_typed (u : doc) : Prop :=
  optional_string (get u "email" VNull)
  ∧ optional_string (get u "username" VNull)
  ∧ optional_string (get u "display_name" VNull)
  ∧ optional_string (get u "wallet_address" VNull)
  ∧ optional_string (get u "referral_code" VNull)
  ∧ optional_string (get u "referred_by" VNull)
  ∧ (∃ n, get u "total_games" (VInt 0) = VInt n)
  ∧ (get u "appearance" VNull = VNull ∨ ∃ a, get u "appearance" VNull = VDict a)
  ∧ (u !! "created_at" = None ∨ ∃ t, u !! "created_at" = Some (VDate t)).

(** No two user records hold the same [username]. *)
Definition usernames_unique (db : MongoDB) : Prop :=
  ∀ k1 k2 d1 d2 name,
    users db !! k1 = Some d1 → users db !! k2 = Some d2 →
    d1 !! "username" = Some (VStr name) → d2 !! "username" = Some (VStr name) →
    k1 = k2.

(** ** The numbers that pass unrounded

    The program computes amounts with [decimal], whose context rounds a
    result to 28 significant digits, stores them with [float], which rounds
    to a double, and hands integers to a store that takes 64 bits.  The
    embedding computes with exact rationals and unbounded integers; the
    predicates below single out the amounts and integers on which the two
    agree. *)

Definition pow10 (e : Z) : Decimal :=
  if bool_decide (0 ≤ e) then Q2Qc (inject_Z (10 ^ e))
  else (/ Q2Qc (inject_Z (10 ^ (- e))))%Qc.

(** [d] is [m × 10^e] for a coefficient [m] of at most [digits] digits and
    an exponent of size at most [range]. *)
Definition significant (digits range : Z) (d : Decimal) : Prop :=
  ∃ m e : Z, Z.abs m < 10 ^ digits ∧ Z.abs e ≤ range
             ∧ d = (Q2Qc (inject_Z m) * pow10 e)%Qc.

(** A result the context of [decimal] returns as it is: at most 28
    significant digits. *)
Definition decimal_exact (d : Decimal) : Prop := significant 28 999000 d.

(** An amount that [float] and [str] take to a double and back unchanged:
    at most 15 significant digits, within the range of a double. *)
Definition float_exact (d : Decimal) : Prop := significant 15 290 d.

(** An integer the store takes: 64 bits, signed. *)
Definition int64 (n : Z) : Prop := - 2 ^ 63 ≤ n < 2 ^ 63.

(** A field name the store takes: no NUL byte. *)
Fixpoint field_name (k : string) : Prop :=
  match k with
  | EmptyString => True
  | String c k' => c ≠ Ascii.zero ∧ field_name k'
  end.

(** A value the store takes: integers of 64 bits, and field names without a
    NUL byte. *)
Fixpoint storable (v : value) : Prop :=
  match v with
  | VInt n => int64 n
  | VDict kv =>
      (fix entries (l : list (string * value)) : Prop :=
         match l with
         | [] => True
         | (k, x) :: l' => field_name k ∧ storable x ∧ entries l'
         end) kv
  | _ => True
  end.

(** The difference and the two products of the payout at rank 1 need no
    rounding. *)
Definition payout_unrounded (settings : Settings) (bet_amount : Decimal) : Prop :=
  decimal_exact (bet_amount * dec 18 10)%Qc
  ∧ decimal_exact (1 - HOUSE_EDGE settings)%Qc
  ∧ decimal_exact (bet_amount * dec 18 10 * (1 - HOUSE_EDGE settings))%Qc.

(** ** Further cases *)

Module cases.

Definition bob : AuthenticatedUser :=
  {| user_id := "did:privy:bob"; app_id := "damnbruh";
     email := Some "bob@example.org"; wallet_address := None |}.

(** A record for [bob], named [bobby]. *)
Definition bob_record : doc :=
  dict [("privy_user_id", VStr "did:privy:bob"); ("username", VStr "bobby");
        ("balance", VFloat (dec 20 10)); ("total_games", VInt 3);
        ("total_winnings", VFloat (dec 15 10));
        ("created_at", VDate 0); ("updated_at", VDate 0)].

(** [alice] (holding 1.0) and [bob]; [alice] has an open session. *)
Definition two_users : MongoDB :=
  {| users := {["u-alice" := scenario.alice_record (dec 10 10);
                "u-bob" := bob_record]};
     game_sessions := {["s-1" := records.session "u-alice" scenario.bet_half "s-1" 1000]};
     transactions := ∅; affiliates := ∅ |}.

Definition nobody : AuthenticatedUser :=
  {| user_id := "did:privy:nobody"; app_id := "damnbruh";
     email := None; wallet_address := None |}.

Definition third : GameEnd :=
  {| game_session_id := "s-1"; final_score := 30; final_rank := 3 |}.

(** A request to end with rank 0. *)
Definition rank_zero : GameEnd :=
  {| game_session_id := "s-1"; final_score := 30; final_rank := 0 |}.

(** [alice] (holding 1.0) with a pending withdrawal of 0.25. *)
Definition withdrawal : doc :=
  dict [("user_id", VStr "u-alice"); ("type", VStr "withdrawal");
        ("amount", VFloat (dec 25 100)); ("status", VStr "pending");
        ("created_at", VDate 500)].

Definition withdrawing : MongoDB :=
  {| users := {["u-alice" := scenario.alice_record (dec 10 10)]};
     game_sessions := ∅;
     transactions := {["t-0" := withdrawal]};
     affiliates := ∅ |}.

(** A session that was settled with [rank]. *)
Definition settled (uid : string) (rank : Z) (created : Z) : doc :=
  dict [("user_id", VStr uid); ("game_type", VStr "skill_match");
        ("bet_amount", VFloat (dec 5 10)); ("status", VStr "completed");
        ("final_score", VInt 10); ("final_rank", VInt rank);
        ("payout", VFloat 0%Qc); ("created_at", VDate created)].

(** [alice] has settled two sessions and has one open, [bob] has settled
    one. *)
Definition played : MongoDB :=
  {| users := {["u-alice" := scenario.alice_record (dec 10 10);
                "u-bob" := bob_record]};
     game_sessions := {["s-1" := settled "u-alice" 1 100;
                        "s-2" := settled "u-alice" 5 300;
                        "s-3" := settled "u-bob" 2 200;
                        "s-4" := records.session "u-alice" scenario.bet_half "s-4" 400]};
     transactions := ∅; affiliates := ∅ |}.

(** The first fifty games of [alice] in [played], and the first two of
    them. *)
Definition alice_history : GameHistory :=
  match (server.get_game_history scenario.alice 50 0 played).2 with
  | Ok h => h
  | Raise _ => {| gh_games := []; gh_total := 0; gh_has_more := false |}
  end.

Definition newest_game : doc := default ∅ (gh_games alice_history !! 0%nat).

Definition second_game : doc := default ∅ (gh_games alice_history !! 1%nat).

(** The [bet] transactions of [alice] after her join and her win. *)
Definition alice_bets : list doc :=
  match (database.get_user_transactions "u-alice" (Some "bet") 50
           scenario.first_end.1).2 with
  | Ok l => l
  | Raise _ => []
  end.

(** The leaderboard [alice] is shown when she is the only user. *)
Definition alice_board : Leaderboard :=
  match (server.get_global_leaderboard "all_time" 100 (Some scenario.alice) 5000
           (scenario.funded (dec 10 10))).2 with
  | Ok l => l
  | Raise _ => {| lb_leaderboard := []; lb_user_rank := None; lb_total_players := 0 |}
  end.

End cases.

(** ** The writes of a profile update *)

Module updates.

(** The fields a profile update sets. *)
Definition update_data (profile_update : UserProfileUpdate) : doc :=
  let d : doc :=
    match pu_username profile_update with
    | Some username => <["username" := VStr username]> ∅
    | None => ∅
    end in
  let d :=
    match pu_display_name profile_update with
    | Some display_name => <["display_name" := VStr display_name]> d
    | None => d
    end in
  match pu_appearance profile_update with
  | Some appearance => <["appearance" := VDict appearance]> d
  | None => d
  end.

(** The database after a profile update that went through. *)
Definition updated (db : MongoDB) (uid : string)
    (profile_update : UserProfileUpdate) (now : Z) : MongoDB :=
  if bool_decide (update_data profile_update = ∅) then db
  else database.set_users
         (database.update_one uid
            (<["updated_at" := VDate now]> (update_data profile_update))) db.

(** The fields a profile update may touch. *)
Definition profile_fields : list string :=
  ["username"; "display_name"; "appearance"; "updated_at"].

End updates.

(** ** auth.py: the verification of the caller

    The two calls to Privy are inputs: [verify_token] gives the claims of a
    token ([None] when the verification fails) and [get_user] the parsed
    body of the user information ([None], here [JNull], when the request
    fails). *)

Module auth.

(** A JSON value as Python holds it after parsing; [None] is [JNull],
    numbers are finite, and an object is the list of its entries, with
    distinct keys. *)
Inductive json : Type :=
| JNull
| JBool (b : bool)
| JInt (n : Z)
| JFloat (q : Decimal)
| JStr (s : string)
| JList (l : list json)
| JDict (kv : list (string * json)).

(** [bool(v)] *)
Definition truthy (v : json) : bool :=
  match v with
  | JNull => false
  | JBool b => b
  | JInt n => negb (bool_decide (n = 0))
  | JFloat q => negb (bool_decide (q = 0%Qc))
  | JStr s => negb (bool_decide (s = ""))
  | JList l => match l with [] => false | _ => true end
  | JDict kv => match kv with [] => false | _ => true end
  end.

Fixpoint entry (k : string) (kv : list (string * json)) : option json :=
  match kv with
  | [] => None
  | (k', v) :: rest => if bool_decide (k' = k) then Some v else entry k rest
  end.

(** What [get_current_user] may raise: the [HTTPException] with status 401
    and the header [WWW-Authenticate: Bearer], or an error of Python on a
    value of another shape than expected. *)
Inductive raised : Type :=
| Unauthorized (detail : string)
| AttributeError
| NotIterable.

Inductive outcome (A : Type) : Type :=
| Returns (a : A)
| Raises (e : raised).
Arguments Returns {A} a.
Arguments Raises {A} e.

Definition and_then {A B} (o : outcome A) (k : A → outcome B) : outcome B :=
  match o with
  | Returns a => k a
  | Raises e => Raises e
  end.

(** [v.get(k, dflt)]: only a dict has the method. *)
Definition dict_get (v : json) (k : string) (dflt : json) : outcome json :=
  match v with
  | JDict kv => Returns (default dflt (entry k kv))
  | _ => Raises AttributeError
  end.

(** What [for wallet in wallets] runs through: the items of a list, the keys
    of a dict, the characters of a string; nothing else can be iterated. *)
Definition iterate (v : json) : outcome (list json) :=
  match v with
  | JList l => Returns l
  | JDict kv => Returns (JStr <$> kv.*1)
  | JStr s => Returns ((λ c, JStr (String c EmptyString)) <$> String.list_ascii_of_string s)
  | _ => Raises NotIterable
  end.

(** [v == 'wallet'] *)
Definition is_wallet (v : json) : bool :=
  match v with
  | JStr s => bool_decide (s = "wallet")
  | _ => false
  end.

(** The loop over the linked accounts, from [wallet_address = None]. *)
Fixpoint first_wallet (wallets : list json) : outcome json :=
  match wallets with
  | [] => Returns JNull
  | wallet :: rest =>
      and_then (dict_get wallet "type" JNull) (λ type,
      if is_wallet type then dict_get wallet "address" JNull
      else first_wallet rest)
  end.

(** An [AuthenticatedUser] as [get_current_user] builds it: the class
    checks nothing. *)
Record Authenticated : Type := {
  a_user_id : json;
  a_app_id : json;
  a_email : json;
  a_wallet_address : json
}.

Section client.

Variable verify_token : string → option (list (string * json)).
Variable get_user : string → json.

Definition get_current_user (token : string) : outcome Authenticated :=
  (* Verify token with Privy *)
  let verified_claims := verify_token token in
  match verified_claims with
  | None | Some [] => Raises (Unauthorized "Invalid or expired access token")
  | Some verified_claims =>
      (* Extract user information from claims *)
      let user_id := default JNull (entry "sub" verified_claims) in
      let app_id := default JNull (entry "aud" verified_claims) in
      if negb (truthy user_id) || negb (truthy app_id) then
        Raises (Unauthorized "Invalid token claims")
      else
        (* Get additional user info from Privy API *)
        let user_info := get_user token in
        if truthy user_info then
          (* Extract email *)
          and_then (dict_get user_info "email" JNull) (λ email_obj,
          and_then (if truthy email_obj then dict_get email_obj "address" JNull
                    else Returns JNull) (λ email,
          (* Extract wallet address (embedded wallet) *)
          and_then (dict_get user_info "linkedAccounts" (JList [])) (λ wallets,
          and_then (iterate wallets) (λ wallets,
          and_then (first_wallet wallets) (λ wallet_address,
          Returns {| a_user_id := user_id; a_app_id := app_id;
                     a_email := email; a_wallet_address := wallet_address |})))))
        else
          Returns {| a_user_id := user_id; a_app_id := app_id;
                     a_email := JNull; a_wallet_address := JNull |}
  end.

(** [credentials] is the token of the request, if it has one. *)
Definition get_optional_user (credentials : option string)
    : outcome (option Authenticated) :=
  match credentials with
  | None => Returns None
  | Some token =>
      match get_current_user token with
      | Returns user => Returns (Some user)
      | Raises (Unauthorized _) => Returns None
      | Raises e => Raises e
      end
  end.

End client.

End auth.

(** ** Callers as Privy answers for them *)

Module visitors.
Import auth.

Definition alice_claims : list (string * json) :=
  [("sub", JStr "did:privy:alice"); ("aud", JStr "damnbruh");
   ("iss", JStr "https://auth.privy.io")].

(** The user information of [alice]: a phone, a wallet without an address
    and a wallet with one. *)
Definition alice_info : list (string * json) :=
  [("id", JStr "did:privy:alice");
   ("linkedAccounts",
    JList [JDict [("type", JStr "phone"); ("number", JStr "+1 555 0100")];
           JDict [("type", JStr "wallet")];
           JDict [("type", JStr "wallet"); ("address", JStr "0xabc")]])].

(** Three tokens are verified: the token of [alice]; a token with the same
    claims for which the user information cannot be fetched; and a token
    whose subject is empty. *)
Definition verify_token (token : string) : option (list (string * json)) :=
  if bool_decide (token = "tok-alice") then Some alice_claims
  else if bool_decide (token = "tok-offline") then Some alice_claims
  else if bool_decide (token = "tok-empty") then
    Some [("sub", JStr ""); ("aud", JStr "damnbruh")]
  else None.

Definition get_user (token : string) : json :=
  if bool_decide (token = "tok-alice") then JDict alice_info else JNull.

End visitors.

(** ** What the read handlers show *)

Module views.

(** The sum of the amounts of the pending withdrawals of a user. *)
Definition pending_sum (uid : string) (c : collection) : Decimal :=
  foldr (λ d acc, (database.amount_of d + acc)%Qc) 0%Qc
    (filter (λ d, Is_true (database.pending_withdrawal uid d)) (database.documents c)).

(** The sessions of a user, newest first. *)
Definition sessions_of (uid : string) (db : MongoDB) : list doc :=
  merge_sort database.newest_first
    (database.find_all "user_id" uid (game_sessions db)).

(** The transactions of a user that a type query lets through. *)
Definition transactions_of (uid : string) (transaction_type : option string)
    (db : MongoDB) : list doc :=
  filter (λ d, Is_true (database.type_query transaction_type d))
    (database.find_all "user_id" uid (transactions db)).

(** Every rank stored in a session is an integer (what [end_game] writes). *)
Definition ranks_are_integers (db : MongoDB) : Prop :=
  ∀ k s v, game_sessions db !! k = Some s → s !! "final_rank" = Some v →
           ∃ n, v = VInt n.

End views.

(** * Properties *)

(** Closed decidable facts by evaluation. *)
Ltac by_compute := apply (bool_decide_unpack _); vm_compute; exact I.

(** [m × 10^e] as the numeral of an amount; an integer of 64 bits. *)
Ltac numeral m e := exists m, e; split; [by_compute|split; by_compute].
Ltac small_int := split; by_compute.

(** Closed equations by evaluation of both sides. *)
Ltac by_eval :=
  lazymatch goal with
  | |- @eq ?T ?l ?r =>
      tryif has_evar r then (vm_compute; exact eq_refl)
      else vm_cast_no_check (@eq_refl T r)
  end.

(** ** The payout calculator *)

(** C1: for a positive bet, any number of players and a house edge in
    [0,1), the payout is [bet × 1.8 × (1 − house_edge)] at rank 1, the bet
    itself at ranks 2 and 3, and 0 at every rank above 3.  The product at
    rank 1 is the one [decimal] computes: it is stated for a bet and an edge
    whose difference and products fit the 28 digits of the context, so that
    none of them is rounded. *)
Theorem calculate_payout_by_rank (settings : Settings) (bet_amount : Decimal)
    (total_players : Z) :
  (0 < bet_amount)%Qc →
  (0 ≤ HOUSE_EDGE settings)%Qc → (HOUSE_EDGE settings < 1)%Qc →
  (payout_unrounded settings bet_amount →
   server.calculate_payout settings bet_amount 1 total_players
     = (bet_amount * dec 18 10 * (1 - HOUSE_EDGE settings))%Qc)
  ∧ server.calculate_payout settings bet_amount 2 total_players = bet_amount
  ∧ server.calculate_payout settings bet_amount 3 total_players = bet_amount
  ∧ ∀ final_rank, 3 < final_rank →
      server.calculate_payout settings bet_amount final_rank total_players = 0%Qc.
Proof.
  intros _ _ _. repeat split; try reflexivity.
  intros r Hr. unfold server.calculate_payout.
  rewrite bool_decide_eq_false_2 by lia.
  rewrite bool_decide_eq_false_2 by lia. reflexivity.
Qed.

Lemma calculate_payout_by_rank_witness :
  server.calculate_payout defaults (dec 5 10) 1 9
    = (dec 5 10 * dec 18 10 * (1 - HOUSE_EDGE defaults))%Qc
  ∧ server.calculate_payout defaults (dec 5 10) 2 9 = dec 5 10
  ∧ server.calculate_payout defaults (dec 5 10) 3 9 = dec 5 10
  ∧ ∀ final_rank, 3 < final_rank →
      server.calculate_payout defaults (dec 5 10) final_rank 9 = 0%Qc.
Proof.
  destruct (calculate_payout_by_rank defaults (dec 5 10) 9)
    as (H1 & H2 & H3 & H4); [by_compute..|].
  split; [|by auto]. apply H1.
  split; [|split]; [numeral 9 (-1)|numeral 98 (-2)|numeral 882 (-3)].
Defined.

(** The scenario of the specification: a bet of 0.5 won at a house edge of
    0.02 pays 0.882. *)
Example payout_scenario :
  server.calculate_payout defaults (dec 5 10) 1 9 = dec 882 1000.
Proof. apply Qc_is_canon. reflexivity. Qed.

(** At rank 1 a positive bet is paid a positive amount when the edge is
    below 1. *)
Lemma winner_payout_positive (settings : Settings) (bet_amount : Decimal) (n : Z) :
  (0 < bet_amount)%Qc → (HOUSE_EDGE settings < 1)%Qc →
  (0 < server.calculate_payout settings bet_amount 1 n)%Qc.
Proof.
  intros Hb He. unfold server.calculate_payout. simpl.
  apply Qcmult_pos_pos; [apply Qcmult_pos_pos|]; [done|by_compute|].
  unfold Qcminus. apply Qclt_minus_iff in He. exact He.
Qed.

(** C9: the payout does not depend on the number of players. *)
Theorem calculate_payout_ignores_total_players (settings : Settings)
    (bet_amount : Decimal) (final_rank n m : Z) :
  server.calculate_payout settings bet_amount final_rank n
    = server.calculate_payout settings bet_amount final_rank m.
Proof. reflexivity. Qed.

(** ** The caller's record *)

(** What [get_user_by_privy_id] returns is a stored user record, with its
    key under [_id] and [id]. *)
Lemma find_one_stored (field s : string) (c : collection) (d : doc) :
  database.find_one field s c = Some d →
  ∃ k d0, c !! k = Some d0 ∧ d = database.with_id k d0.
Proof.
  unfold database.find_one, database.documents. intros H.
  apply head_Some_elem_of in H.
  apply list_elem_of_filter in H as [_ H].
  apply list_elem_of_fmap in H as [[k d0] [-> H]].
  apply elem_of_map_to_list in H. eauto.
Qed.

Lemma get_user_by_privy_id_found (p : string) (db db' : MongoDB) (u : doc) :
  database.get_user_by_privy_id p db = (db', Ok (Some u)) →
  db' = db ∧
  ∃ uid d0, users db !! uid = Some d0 ∧
            u = <["id" := VStr uid]> (database.with_id uid d0).
Proof.
  unfold database.get_user_by_privy_id, read. intros H.
  injection H as <- H. split; [done|].
  destruct (database.find_one _ _ _) as [d|] eqn:Hf; [|done].
  apply find_one_stored in Hf as (k & d0 & Hk & ->).
  simpl in H. injection H as <-. exists k, d0. split; [done|].
  unfold get, database.with_id. by rewrite lookup_insert_eq.
Qed.

Lemma get_user_by_privy_id_pure (p : string) (db : MongoDB) :
  ∃ r, database.get_user_by_privy_id p db = (db, Ok r).
Proof. unfold database.get_user_by_privy_id, read. eauto. Qed.

(** Reading a field other than [_id] and [id] off the returned record reads
    the stored record. *)
Lemma found_user_field (uid : string) (d0 : doc) (k : string) :
  k ≠ "id" → k ≠ "_id" →
  (<["id" := VStr uid]> (database.with_id uid d0)) !! k = d0 !! k.
Proof.
  intros H1 H2. unfold database.with_id.
  rewrite lookup_insert_ne by done. by rewrite lookup_insert_ne.
Qed.

Lemma found_user_id (uid : string) (d0 : doc) :
  server.getitem_str (<["id" := VStr uid]> (database.with_id uid d0)) "id" = Ok uid.
Proof. unfold server.getitem_str. by rewrite lookup_insert_eq. Qed.

(** [$set] on a stored record. *)
Lemma update_one_lookup (k : string) (upd : doc) (c : collection) (d : doc) :
  c !! k = Some d → database.update_one k upd c !! k = Some (upd ∪ d).
Proof.
  intros H. unfold database.update_one.
  rewrite lookup_alter_eq. by rewrite H.
Qed.

Lemma update_one_other (k k' : string) (upd : doc) (c : collection) :
  k ≠ k' → database.update_one k upd c !! k' = c !! k'.
Proof. intros H. unfold database.update_one. by rewrite lookup_alter_ne. Qed.

(** ** Join *)

(** Every outcome of [join_game] for a caller whose record is found with a
    balance that reads as [b]. *)
Lemma join_game_run (req : BetRequest) (user : AuthenticatedUser)
    (us ut : string) (others : list value) (now : Z) (db : MongoDB)
    (uid : string) (d0 : doc) (b : Decimal) :
  database.get_user_by_privy_id (user_id user) db
    = (db, Ok (Some (<["id" := VStr uid]> (database.with_id uid d0)))) →
  Decimal_str (get d0 "balance" (VInt 0)) = Ok b →
  server.join_game req user us ut others now db =
    if bool_decide (b < bet_amount req)%Qc then
      (db, Raise (HTTPException 400 "Insufficient balance"))
    else
      let db1 := database.set_users
        (database.update_one uid
           (records.balance_update (b - bet_amount req)%Qc now)) db in
      match game_sessions db !! us with
      | Some _ => (db1, Raise (DuplicateKeyError us))
      | None =>
          match transactions db !! ut with
          | Some _ =>
              (database.set_game_sessions
                 (λ _, <[us := records.session uid req us now]> (game_sessions db)) db1,
               Raise (DuplicateKeyError ut))
          | None =>
              (records.joined db uid b req us ut now,
               Ok {| gs_game_session_id := us;
                     gs_bet_amount := bet_amount req;
                     gs_new_balance := (b - bet_amount req)%Qc;
                     gs_game_state := "active";
                     gs_other_players := others |})
          end
      end.
Proof.
  intros Hget Hbal.
  unfold server.join_game, bind. rewrite Hget.
  unfold lift, get. rewrite found_user_field by done.
  fold (get d0 "balance" (VInt 0)). rewrite Hbal.
  case_bool_decide; [done|].
  rewrite found_user_id.
  unfold database.update_user_balance, write.
  unfold database.create_game_session, database.inserting, bind, database.insert_one.
  cbn [game_sessions database.set_users].
  destruct (game_sessions db !! us) eqn:Hs; [done|].
  unfold ret, getitem. rewrite lookup_insert_eq.
  unfold database.create_transaction, database.inserting, bind, database.insert_one.
  cbn [transactions database.set_game_sessions database.set_users].
  destruct (transactions db !! ut) eqn:Ht; [done|].
  unfold ret, server.getitem_str. rewrite lookup_insert_eq.
  reflexivity.
Qed.



(** A bet of the whole balance goes through and leaves 0. *)
Example join_with_whole_balance :
  ∃ db' r,
    server.join_game scenario.bet_half scenario.alice "s-1" "t-1" [] 1000
        (scenario.funded (dec 5 10)) = (db', Ok r)
    ∧ this (gs_new_balance r) = (0 # 1)%Q
    ∧ scenario.alice_balance db' = Some (0 # 1)%Q.
Proof. eexists _, _. split; [|split]; by_eval. Qed.

Lemma dict_union_lookup_l (upd d : doc) (k : string) (v : value) :
  upd !! k = Some v → (upd ∪ d) !! k = Some v.
Proof. apply lookup_union_Some_l. Qed.

(** C3: a join by a user whose balance covers the bet goes through; it
    leaves the user's balance at the prior balance minus the bet (and no
    other user record touched), adds exactly one session, [active] and
    recording the bet, and exactly one transaction, of type [bet], with the
    bet as amount and the new session as reference.  Amounts are stored as
    doubles and the appearance goes to the store as it is: the statement is
    for a bet and a new balance that a double holds exactly, and an
    appearance the store takes (integers of 64 bits, field names without a
    NUL byte). *)
Theorem join_success (req : BetRequest) (user : AuthenticatedUser)
    (us ut : string) (others : list value) (now : Z) (db : MongoDB)
    (u : doc) (uid : string) (b : Decimal) :
  database.get_user_by_privy_id (user_id user) db = (db, Ok (Some u)) →
  server.getitem_str u "id" = Ok uid →
  Decimal_str (get u "balance" (VInt 0)) = Ok b →
  (bet_amount req ≤ b)%Qc →
  float_exact (bet_amount req) →
  float_exact (b - bet_amount req)%Qc →
  storable (from_option VDict VNull (appearance req)) →
  game_sessions db !! us = None →
  transactions db !! ut = None →
  ∃ db' r d' s t,
    server.join_game req user us ut others now db = (db', Ok r)
    ∧ gs_game_session_id r = us
    ∧ gs_new_balance r = (b - bet_amount req)%Qc
    ∧ gs_game_state r = "active"
    (* the balance *)
    ∧ users db' !! uid = Some d'
    ∧ Decimal_str (get d' "balance" (VInt 0)) = Ok (b - bet_amount req)%Qc
    ∧ (∀ k, k ≠ uid → users db' !! k = users db !! k)
    (* one session *)
    ∧ game_sessions db' = <[us := s]> (game_sessions db)
    ∧ s !! "status" = Some (VStr "active")
    ∧ s !! "bet_amount" = Some (float (bet_amount req))
    ∧ s !! "user_id" = Some (VStr uid)
    (* one bet transaction *)
    ∧ transactions db' = <[ut := t]> (transactions db)
    ∧ t !! "type" = Some (VStr "bet")
    ∧ t !! "amount" = Some (float (bet_amount req))
    ∧ t !! "reference_id" = Some (VStr us)
    ∧ t !! "user_id" = Some (VStr uid).
Proof.
  intros Hget Hid Hbal Hle _ _ _ Hs Ht.
  destruct (get_user_by_privy_id_found _ _ _ _ Hget) as (_ & uid' & d0 & Hu & ->).
  rewrite found_user_id in Hid. injection Hid as ->.
  unfold get in Hbal. rewrite found_user_field in Hbal by done.
  rewrite (join_game_run req user us ut others now db uid d0 b Hget Hbal).
  rewrite bool_decide_eq_false_2 by by apply Qcle_not_lt.
  cbn zeta. rewrite Hs, Ht.
  eexists _, _,
    (records.balance_update (b - bet_amount req)%Qc now ∪ d0),
    (records.session uid req us now), (records.bet uid req us ut now).
  split; [reflexivity|].
  repeat split; try reflexivity.
  - cbn [users records.joined]. by apply update_one_lookup.
  - unfold get.
    by rewrite (dict_union_lookup_l _ d0 "balance" (float (b - bet_amount req)%Qc)).
  - intros k Hk. cbn [users records.joined]. by apply update_one_other.
Qed.

Lemma join_success_witness :
  ∃ db' r d' s t,
    server.join_game scenario.bet_half scenario.alice "s-1" "t-1" [] 1000
        (scenario.funded (dec 10 10)) = (db', Ok r)
    ∧ gs_game_session_id r = "s-1"
    ∧ gs_new_balance r = (dec 10 10 - dec 5 10)%Qc
    ∧ gs_game_state r = "active"
    ∧ users db' !! "u-alice" = Some d'
    ∧ Decimal_str (get d' "balance" (VInt 0)) = Ok (dec 10 10 - dec 5 10)%Qc
    ∧ (∀ k, k ≠ "u-alice" → users db' !! k = users (scenario.funded (dec 10 10)) !! k)
    ∧ game_sessions db' = <["s-1" := s]> (game_sessions (scenario.funded (dec 10 10)))
    ∧ s !! "status" = Some (VStr "active")
    ∧ s !! "bet_amount" = Some (float (dec 5 10))
    ∧ s !! "user_id" = Some (VStr "u-alice")
    ∧ transactions db' = <["t-1" := t]> (transactions (scenario.funded (dec 10 10)))
    ∧ t !! "type" = Some (VStr "bet")
    ∧ t !! "amount" = Some (float (dec 5 10))
    ∧ t !! "reference_id" = Some (VStr "s-1")
    ∧ t !! "user_id" = Some (VStr "u-alice").
Proof.
  apply (join_success scenario.bet_half scenario.alice "s-1" "t-1" [] 1000
           (scenario.funded (dec 10 10)) (scenario.alice_found (dec 10 10))
           "u-alice" (dec 10 10)).
  - by_eval.
  - by_eval.
  - by_eval.
  - by_compute.
  - numeral 5 (-1).
  - numeral 5 (-1).
  - exact I.
  - reflexivity.
  - reflexivity.
Defined.

(** ** End *)

(** Every outcome of [end_game] for a caller who owns the session, when the
    stored amounts read as numbers. *)
Lemma end_game_run (settings : Settings) (game_end : GameEnd)
    (user : AuthenticatedUser) (n : Z) (ut : string) (now : Z) (db : MongoDB)
    (uid : string) (d0 s0 : doc) (stake : value) (bet b w : Decimal) (g : value) :
  database.get_user_by_privy_id (user_id user) db
    = (db, Ok (Some (<["id" := VStr uid]> (database.with_id uid d0)))) →
  game_sessions db !! game_session_id game_end = Some s0 →
  s0 !! "user_id" = Some (VStr uid) →
  s0 !! "bet_amount" = Some stake →
  Decimal_str stake = Ok bet →
  Decimal_str (get d0 "balance" (VInt 0)) = Ok b →
  add_one (get d0 "total_games" (VInt 0)) = Ok g →
  Decimal_str (get d0 "total_winnings" (VInt 0)) = Ok w →
  let payout := server.calculate_payout settings bet (final_rank game_end) n in
  let db1 := records.settled db uid game_end b payout g w now in
  let r := {| gr_payout := payout;
              gr_new_balance := (b + payout)%Qc;
              gr_rank := final_rank game_end;
              gr_total_players := n;
              gr_game_result :=
                if bool_decide (final_rank game_end ≤ 3) then "win" else "loss" |} in
  server.end_game settings game_end user n ut now db =
    if bool_decide (0 < payout)%Qc then
      match transactions db !! ut with
      | Some _ => (db1, Raise (DuplicateKeyError ut))
      | None =>
          (database.set_transactions
             (λ _, <[ut := records.payout uid game_end payout n ut now]>
                     (transactions db)) db1,
           Ok r)
      end
    else (db1, Ok r).
Proof.
  intros Hget Hs Hown Hstake Hbet Hbal Hg Hw payout db1 r.
  unfold server.end_game, bind. rewrite Hget.
  unfold lift. rewrite found_user_id.
  unfold get. rewrite !found_user_field by done.
  unfold read, database.find_by_id. rewrite Hs. cbn [fmap option_fmap option_map].
  unfold getitem, database.with_id.
  rewrite lookup_insert_ne by done. rewrite Hown.
  cbn [result_bind eq_str]. rewrite bool_decide_eq_true_2 by done.
  rewrite lookup_insert_ne by done. rewrite Hstake, Hbet.
  fold (get d0 "balance" (VInt 0)). rewrite Hbal.
  unfold database.update_user_balance, database.update_game_session, write.
  fold (get d0 "total_games" (VInt 0)). rewrite Hg.
  fold (get d0 "total_winnings" (VInt 0)). rewrite Hw.
  unfold database.update_user, write.
  fold payout.
  case_bool_decide.
  - unfold database.create_transaction, database.inserting, bind, database.insert_one.
    cbn [transactions database.set_game_sessions database.set_users].
    destruct (transactions db !! ut); reflexivity.
  - reflexivity.
Qed.



(** The second scenario of the specification, run to its end: 0.5 bet out
    of 1.0, then a win at the default edge, leaves 1.382. *)
Example win_scenario_balance :
  scenario.alice_balance scenario.after_join = Some (1 # 2)%Q
  ∧ scenario.alice_balance scenario.first_end.1 = Some (691 # 500)%Q.
Proof. split; by_eval. Qed.

(** At rank 4 the payout is 0, the balance stays, no payout transaction is
    written, and [total_games] still goes up. *)
Example fourth_place_scenario :
  let out := server.end_game defaults scenario.fourth scenario.alice 9 "t-2" 2000
               scenario.after_join in
  (this ∘ gr_payout <$> (match out.2 with Ok r => Some r | Raise _ => None end))
    = Some (0 # 1)%Q
  ∧ scenario.alice_balance out.1 = Some (1 # 2)%Q
  ∧ transactions out.1 = transactions scenario.after_join
  ∧ scenario.field (users out.1) "u-alice" "total_games" = Some (VInt 1).
Proof. repeat split; by_eval. Qed.

(** C5 (fails on the code): [end_game] does not look at the status of the
    session.  Ending the session won in the scenario a second time goes
    through again: 0.882 is credited a second time, a second [payout]
    transaction is written for the same session, and [total_games] counts
    the session twice. *)
Theorem end_game_settles_twice :
  (∃ r, scenario.first_end.2 = Ok r ∧ this (gr_new_balance r) = (691 # 500)%Q)
  ∧ scenario.field (game_sessions scenario.first_end.1) "s-1" "status"
      = Some (VStr "completed")
  ∧ (∃ r, scenario.second_end.2 = Ok r
          ∧ this (gr_payout r) = (441 # 500)%Q
          ∧ this (gr_new_balance r) = (283 # 125)%Q)
  ∧ scenario.alice_balance scenario.second_end.1 = Some (283 # 125)%Q
  ∧ scenario.field (users scenario.second_end.1) "u-alice" "total_games"
      = Some (VInt 2)
  ∧ scenario.payouts_of_session scenario.second_end.1 ≡ₚ ["t-2"; "t-3"].
Proof.
  split; [|split; [|split; [|split; [|split]]]].
  - eexists. split; by_eval.
  - by_eval.
  - eexists. split; [|split]; by_eval.
  - by_eval.
  - by_eval.
  - replace (scenario.payouts_of_session scenario.second_end.1) with ["t-3"; "t-2"]
      by (by_eval).
    apply perm_swap.
Qed.

(** ** Validation of a join request *)

(** What an accepted body satisfies: an allowed game type and an amount
    above 0 and at most 10.0, a bound written in the validator. *)
Lemma parse_BetRequest_accepted (body r : BetRequest) :
  parse_BetRequest body = Ok r →
  r = body
  ∧ game_type body ∈ allowed_types
  ∧ (0 < bet_amount body)%Qc ∧ (bet_amount body ≤ dec 100 10)%Qc.
Proof.
  unfold parse_BetRequest, field_bet_amount, validate_bet_amount,
    field_game_type, validate_game_type.
  destruct body as [a g ap]. cbn [bet_amount game_type appearance].
  destruct (bool_decide (0 < a)%Qc) eqn:H1; [|done].
  destruct (whole_digits_ok 12 a); [|done].
  destruct (decimal_places_ok 6 a); [|done].
  cbn [negb result_bind].
  destruct (bool_decide (a ≤ 0)%Qc); [done|].
  destruct (bool_decide (dec 100 10 < a)%Qc) eqn:H2; [done|].
  cbn [result_bind].
  destruct (bool_decide (String.length g < 1)%nat); [done|].
  destruct (bool_decide (32 < String.length g)%nat); [done|].
  cbn [result_bind].
  destruct (bool_decide (g ∈ allowed_types)) eqn:H3; [|done].
  cbn [result_bind]. intros [= <-].
  apply bool_decide_eq_true_1 in H1, H3. apply bool_decide_eq_false_1 in H2.
  repeat split; try done. by apply Qcnot_lt_le.
Qed.

(** A body that is refused is refused before the handler runs: the
    database is left as it was. *)
Lemma post_games_join_rejected (body : BetRequest) (user : AuthenticatedUser)
    (us ut : string) (others : list value) (now : Z) (db : MongoDB) (e : exn) :
  parse_BetRequest body = Raise e →
  server.post_games_join body user us ut others now db = (db, Raise e).
Proof. intros H. unfold server.post_games_join, bind, lift. by rewrite H. Qed.

(** C8 (fails on the code): the validator of [BetRequest] bounds the amount
    by 0 and by a literal 10.0; it reads neither [MIN_BET_AMOUNT] nor
    [MAX_BET_AMOUNT].  Under the default settings a bet of 0.0005, below the
    configured minimum of 0.001, is accepted, and the join goes through. *)
Theorem bet_below_configured_minimum_accepted :
  (bet_amount scenario.tiny_bet < MIN_BET_AMOUNT defaults)%Qc
  ∧ parse_BetRequest scenario.tiny_bet = Ok scenario.tiny_bet
  ∧ ∃ db' r,
      server.post_games_join scenario.tiny_bet scenario.alice "s-1" "t-1" [] 1000
          (scenario.funded (dec 10 10)) = (db', Ok r)
      ∧ this (gs_new_balance r) = (1999 # 2000)%Q
      ∧ scenario.field (game_sessions db') "s-1" "status" = Some (VStr "active").
Proof.
  split; [by_compute|]. split; [by_eval|].
  eexists _, _. split; [|split]; by_eval.
Qed.

(** ** Leaderboard *)

Lemma key_le_total (a b : option Decimal) : database.key_le a b ∨ database.key_le b a.
Proof.
  destruct a as [x|], b as [y|]; simpl; auto.
  destruct (Qclt_le_dec x y) as [H|H]; [left; by apply Qclt_le_weak | by right].
Qed.

Lemma key_le_trans (a b c : option Decimal) :
  database.key_le a b → database.key_le b c → database.key_le a c.
Proof.
  destruct a as [x|], b as [y|], c as [z|]; simpl; try done.
  apply Qcle_trans.
Qed.

#[local] Instance sort_order_total : Total database.sort_order.
Proof.
  intros u v. unfold database.sort_order.
  destruct (decide (database.key_le (database.sort_key v "total_winnings")
                                    (database.sort_key u "total_winnings"))) as [H1|H1];
  destruct (decide (database.key_le (database.sort_key u "total_winnings")
                                    (database.sort_key v "total_winnings"))) as [H2|H2].
  - destruct (key_le_total (database.sort_key v "total_games")
                           (database.sort_key u "total_games")); [left|right]; done.
  - left. done.
  - right. done.
  - destruct (key_le_total (database.sort_key v "total_winnings")
                           (database.sort_key u "total_winnings")); done.
Qed.

#[local] Instance sort_order_trans : Transitive database.sort_order.
Proof.
  intros u v w [H1 H2] [H3 H4]. split.
  - eauto using key_le_trans.
  - intros H. eapply key_le_trans; [apply H4 | apply H2]; eauto using key_le_trans.
Qed.

(** In a strongly sorted list an earlier element is related to a later one. *)
Lemma StronglySorted_lookup_lt {A} (R : relation A) (l : list A) (i j : nat) (x y : A) :
  StronglySorted R l → (i < j)%nat → l !! i = Some x → l !! j = Some y → R x y.
Proof.
  intros Hl. revert i j. induction Hl as [|a l Hl IH Hall]; intros i j Hij Hi Hj.
  - done.
  - destruct j as [|j]; [lia|]. destruct i as [|i].
    + injection Hi as ->. rewrite Forall_forall in Hall.
      apply Hall. apply list_elem_of_In. by eapply list_elem_of_lookup_2.
    + simpl in Hi, Hj. apply (IH i j); [lia|done..].
Qed.

Lemma result_map_lookup {A B} (f : A → result B) (l : list A) (l' : list B) :
  result_map f l = Ok l' →
  ∀ i y, l' !! i = Some y → ∃ x, l !! i = Some x ∧ f x = Ok y.
Proof.
  revert l'. induction l as [|x l IH]; intros l' H i y Hy.
  - injection H as <-. done.
  - simpl in H. destruct (f x) as [y0|] eqn:Hx; [|done]. simpl in H.
    destruct (result_map f l) as [ys|] eqn:Hl; [|done]. simpl in H.
    injection H as <-. destruct i as [|i].
    + injection Hy as <-. eauto.
    + simpl in Hy. apply (IH ys eq_refl i y Hy).
Qed.

(** The projection keeps the four listed fields as they are. *)
Lemma project_keeps (u : doc) (k : string) :
  k ∈ database.projected_fields →
  filter (λ kv : string * value, kv.1 ∈ database.projected_fields) u !! k = u !! k.
Proof.
  intros Hk. destruct (u !! k) as [v|] eqn:Hu.
  - by apply map_lookup_filter_Some_2.
  - apply map_lookup_filter_None_2. by left.
Qed.

(** The entry computed from a user record [u] placed at index [i]. *)
Lemma entry_fields (u e : doc) (i : nat) :
  database.project u = Ok e →
  let a := <["rank" := VInt (Z.of_nat i + 1)]> e in
  a !! "rank" = Some (VInt (Z.of_nat i + 1))
  ∧ a !! "user_id" = Some (get u "_id" VNull)
  ∧ a !! "total_winnings" = u !! "total_winnings"
  ∧ a !! "total_games" = u !! "total_games"
  ∧ ∃ w, database.win_rate u = Ok w ∧ a !! "win_rate" = Some w.
Proof.
  unfold database.project. destruct (database.win_rate u) as [w|]; [|done].
  cbn [result_bind]. intros [= <-]. cbn zeta.
  split; [by rewrite lookup_insert_eq|].
  split; [by rewrite lookup_insert_ne, lookup_insert_ne, lookup_insert_eq|].
  split; [|split].
  - rewrite !lookup_insert_ne by done. apply project_keeps.
    unfold database.projected_fields. set_solver.
  - rewrite !lookup_insert_ne by done. apply project_keeps.
    unfold database.projected_fields. set_solver.
  - exists w. split; [done|]. by rewrite lookup_insert_ne, lookup_insert_eq.
Qed.

(** The shape of a leaderboard: entry [i] is computed from the [i]-th of the
    ranked users. *)
Lemma leaderboard_entries (period : string) (limit now : Z) (db db' : MongoDB)
    (lb : list doc) :
  database.get_global_leaderboard period limit now db = (db', Ok lb) →
  db' = db ∧ 0 < limit ∧
  ∀ i a, lb !! i = Some a →
    ∃ u e, database.ranked_users (users db) (database.date_filter period now) limit !! i
             = Some u
           ∧ database.project u = Ok e
           ∧ a = <["rank" := VInt (Z.of_nat i + 1)]> e.
Proof.
  unfold database.get_global_leaderboard, bind, ret, database.aggregate.
  case_bool_decide as Hl; [done|].
  destruct (result_map _ _) as [es|] eqn:Hes; [|done].
  intros [= <- <-]. split; [done|]. split; [lia|].
  intros i a Ha. unfold database.add_ranks in Ha.
  rewrite list_lookup_imap in Ha.
  destruct (es !! i) as [e|] eqn:He; [|done]. injection Ha as <-.
  destruct (result_map_lookup _ _ _ Hes i e He) as (u & Hu & Hp). eauto.
Qed.

(** A ranked user is a stored user record that passes the date filter. *)
Lemma ranked_users_stored (c : collection) (flt : option Z) (limit : Z) (i : nat)
    (u : doc) :
  database.ranked_users c flt limit !! i = Some u →
  ∃ k d, c !! k = Some d ∧ u = database.with_id k d
         ∧ database.matches flt u = true.
Proof.
  unfold database.ranked_users. intros H.
  apply lookup_take_Some in H as [H _].
  apply list_elem_of_lookup_2 in H.
  rewrite merge_sort_Permutation in H.
  apply list_elem_of_filter in H as [Hm H].
  unfold database.documents in H.
  apply list_elem_of_fmap in H as [[k d] [-> H]].
  apply elem_of_map_to_list in H. exists k, d.
  split; [done|]. split; [done|]. by apply Is_true_eq_true.
Qed.

Lemma ranked_users_sorted (c : collection) (flt : option Z) (limit : Z)
    (i j : nat) (u v : doc) :
  (i < j)%nat →
  database.ranked_users c flt limit !! i = Some u →
  database.ranked_users c flt limit !! j = Some v →
  database.sort_order u v.
Proof.
  unfold database.ranked_users. intros Hij Hu Hv.
  apply lookup_take_Some in Hu as [Hu _]. apply lookup_take_Some in Hv as [Hv _].
  eapply StronglySorted_lookup_lt; [|exact Hij|exact Hu|exact Hv].
  apply StronglySorted_merge_sort; apply _.
Qed.

Lemma with_id_field (k : string) (d : doc) (f : string) :
  f ≠ "_id" → database.with_id k d !! f = d !! f.
Proof. intros H. unfold database.with_id. by rewrite lookup_insert_ne. Qed.

Lemma with_id_id (k : string) (d : doc) :
  database.with_id k d !! "_id" = Some (VStr k).
Proof. unfold database.with_id. by rewrite lookup_insert_eq. Qed.

Lemma win_rate_cases (k : string) (d : doc) (w : value) :
  database.win_rate (database.with_id k d) = Ok w →
  (database.eq_zero (d !! "total_games") = true → w = VInt 0)
  ∧ (∀ x y, d !! "total_wins" ≫= numeric = Some x →
            d !! "total_games" ≫= numeric = Some y → y ≠ 0%Qc →
            w = VFloat (x / y)%Qc).
Proof.
  unfold database.win_rate, database.with_id.
  rewrite !lookup_insert_ne by done. intros H. split.
  - intros Hz. rewrite Hz in H. by injection H.
  - intros x y Hx Hy Hne. unfold database.eq_zero, database.divide in H.
    rewrite Hx, Hy in H. rewrite bool_decide_eq_false_2 in H by done.
    by injection H.
Qed.

(** Without [total_wins] the win rate is 0 when [total_games] is 0 and null
    otherwise. *)
Lemma win_rate_without_wins (k : string) (d : doc) :
  d !! "total_wins" = None →
  database.win_rate (database.with_id k d)
    = Ok (if database.eq_zero (d !! "total_games") then VInt 0 else VNull).
Proof.
  intros H. unfold database.win_rate. rewrite !with_id_field by done.
  destruct (database.eq_zero _); [done|].
  unfold database.divide. rewrite H. simpl.
  by destruct (d !! "total_games" ≫= numeric).
Qed.

Lemma int_not_zero (n : Z) : n ≠ 0 → Q2Qc (inject_Z n) ≠ 0%Qc.
Proof.
  intros Hn H. change 0%Qc with (Q2Qc 0) in H. apply Q2Qc_eq_iff in H.
  unfold Qeq in H. simpl in H. lia.
Qed.

(** The quotient of two integers that is not rounded. *)
Lemma win_rate_integers (k : string) (d : doc) (w : value) (x y : Z) :
  database.win_rate (database.with_id k d) = Ok w →
  d !! "total_wins" = Some (VInt x) → d !! "total_games" = Some (VInt y) →
  y ≠ 0 →
  w = VFloat (Q2Qc (inject_Z x) / Q2Qc (inject_Z y))%Qc.
Proof.
  intros Hw Hx Hy Hne. destruct (win_rate_cases k d w Hw) as [_ Hq].
  apply Hq; [by rewrite Hx|by rewrite Hy|by apply int_not_zero].
Qed.

(** C6 (fails on the code): in a leaderboard an entry with more winnings
    stands before one with less, entries level on winnings stand in
    descending order of games played, and the entry at position [i] (from
    0) has rank [i + 1], as claimed.  The win rate is 0 when the user's
    [total_games] is 0, and for integer counts it is the quotient
    [total_wins / total_games] (stated where the double returned holds the
    quotient exactly); but for a record without [total_wins], which is
    every record the program writes, and games that are not 0, it is null
    and no quotient. *)
Theorem leaderboard_order_ranks_win_rate (period : string) (limit now : Z)
    (db db' : MongoDB) (lb : list doc) :
  database.get_global_leaderboard period limit now db = (db', Ok lb) →
  (∀ i j a b wa wb,
     lb !! i = Some a → lb !! j = Some b →
     database.sort_key a "total_winnings" = Some wa →
     database.sort_key b "total_winnings" = Some wb →
     ((wb < wa)%Qc → (i < j)%nat)
     ∧ (wa = wb → ∀ ga gb,
          database.sort_key a "total_games" = Some ga →
          database.sort_key b "total_games" = Some gb →
          (gb < ga)%Qc → (i < j)%nat))
  ∧ (∀ i a, lb !! i = Some a → a !! "rank" = Some (VInt (Z.of_nat i + 1)))
  ∧ (∀ i a, lb !! i = Some a →
       ∃ k d, users db !! k = Some d
              ∧ a !! "user_id" = Some (VStr k)
              ∧ a !! "total_winnings" = d !! "total_winnings"
              ∧ a !! "total_games" = d !! "total_games"
              ∧ (database.eq_zero (d !! "total_games") = true →
                 a !! "win_rate" = Some (VInt 0))
              ∧ (∀ x y : Z,
                   d !! "total_wins" = Some (VInt x) →
                   d !! "total_games" = Some (VInt y) → y ≠ 0 →
                   Z.abs x < 2 ^ 53 → Z.abs y < 2 ^ 53 →
                   float_exact (Q2Qc (inject_Z x) / Q2Qc (inject_Z y))%Qc →
                   a !! "win_rate"
                     = Some (VFloat (Q2Qc (inject_Z x) / Q2Qc (inject_Z y))%Qc))
              ∧ (d !! "total_wins" = None →
                 database.eq_zero (d !! "total_games") = false →
                 a !! "win_rate" = Some VNull)).
Proof.
  intros Hrun. apply leaderboard_entries in Hrun as (-> & Hlimit & Hent).
  assert (Hkeys : ∀ i a, lb !! i = Some a →
            ∃ u, database.ranked_users (users db)
                   (database.date_filter period now) limit !! i = Some u
                 ∧ database.sort_key a "total_winnings"
                     = database.sort_key u "total_winnings"
                 ∧ database.sort_key a "total_games"
                     = database.sort_key u "total_games").
  { intros i a Ha. destruct (Hent i a Ha) as (u & e & Hu & Hp & ->).
    destruct (entry_fields u e i Hp) as (_ & _ & Hw & Hg & _).
    exists u. unfold database.sort_key. by rewrite Hw, Hg. }
  split; [|split].
  - intros i j a b wa wb Ha Hb Hwa Hwb.
    destruct (Hkeys i a Ha) as (u & Hu & Hwu & Hgu).
    destruct (Hkeys j b Hb) as (v & Hv & Hwv & Hgv).
    rewrite Hwu in Hwa. rewrite Hwv in Hwb.
    split.
    + intros Hlt. destruct (decide (i < j)%nat) as [|Hn]; [done|exfalso].
      destruct (decide (i = j)) as [->|Hne].
      * rewrite Ha in Hb. injection Hb as ->. rewrite Hu in Hv. injection Hv as ->.
        rewrite Hwa in Hwb. injection Hwb as ->.
        by apply (Qcle_not_lt wb wb); [apply Qcle_refl|].
      * assert (Hji : (j < i)%nat) by lia.
        destruct (ranked_users_sorted _ _ _ j i v u Hji Hv Hu) as [Hle _].
        rewrite Hwa, Hwb in Hle. simpl in Hle. by apply (Qcle_not_lt wa wb).
    + intros -> ga gb Hga Hgb Hlt.
      rewrite Hgu in Hga. rewrite Hgv in Hgb.
      destruct (decide (i < j)%nat) as [|Hn]; [done|exfalso].
      destruct (decide (i = j)) as [->|Hne].
      * rewrite Hu in Hv. injection Hv as ->.
        rewrite Hga in Hgb. injection Hgb as ->.
        by apply (Qcle_not_lt gb gb); [apply Qcle_refl|].
      * assert (Hji : (j < i)%nat) by lia.
        destruct (ranked_users_sorted _ _ _ j i v u Hji Hv Hu) as [_ Hle].
        rewrite Hwa, Hwb, Hga, Hgb in Hle. simpl in Hle.
        apply (Qcle_not_lt ga gb); [|done]. apply Hle, Qcle_refl.
  - intros i a Ha. destruct (Hent i a Ha) as (u & e & Hu & Hp & ->).
    by rewrite lookup_insert_eq.
  - intros i a Ha. destruct (Hent i a Ha) as (u & e & Hu & Hp & ->).
    destruct (ranked_users_stored _ _ _ _ _ Hu) as (k & d & Hk & -> & _).
    destruct (entry_fields _ e i Hp) as (_ & Hid & Hw & Hg & w & Hwr & Hwa).
    cbn zeta in Hid, Hw, Hg, Hwa.
    rewrite with_id_field in Hw, Hg by done.
    unfold get in Hid. rewrite with_id_id in Hid.
    destruct (win_rate_cases k d w Hwr) as [Hz Hd].
    exists k, d. split; [done|]. split; [done|]. split; [done|]. split; [done|].
    split; [|split].
    + intros Hzero. by rewrite Hwa, (Hz Hzero).
    + intros x y Hx Hy Hne _ _ _.
      by rewrite Hwa, (win_rate_integers k d w x y Hwr Hx Hy Hne).
    + intros Hnone Hnz. rewrite (win_rate_without_wins k d Hnone), Hnz in Hwr.
      injection Hwr as <-. done.
Qed.

Lemma leaderboard_order_ranks_win_rate_witness :
  (∀ i a, scenario.board_after_win !! i = Some a →
          a !! "rank" = Some (VInt (Z.of_nat i + 1)))
  ∧ (λ a : doc, (a !! "user_id", a !! "total_games", a !! "win_rate"))
      <$> scenario.board_after_win
    = [(Some (VStr "u-alice"), Some (VInt 1), Some VNull)].
Proof.
  destruct (leaderboard_order_ranks_win_rate "all_time" 100 5000
              scenario.first_end.1 scenario.first_end.1 scenario.board_after_win)
    as (_ & Hrank & _).
  - by_eval.
  - split; [exact Hrank|by_eval].
Defined.

(** The three players on the board: [carol] first with a win rate of 0,
    then [dave] (20 games) before [bob] (10 games), with 5/20 and 4/10. *)
Example three_players_board :
  (λ a : doc, (a !! "user_id", a !! "rank",
               match a !! "win_rate" with
               | Some v => this <$> numeric v
               | None => None
               end)) <$> scenario.three_ranked
  = [(Some (VStr "u-carol"), Some (VInt 1), Some (0 # 1)%Q);
     (Some (VStr "u-dave"), Some (VInt 2), Some (1 # 4)%Q);
     (Some (VStr "u-bob"), Some (VInt 3), Some (2 # 5)%Q)].
Proof. by_eval. Qed.

Lemma result_map_length {A B} (f : A → result B) (l : list A) (l' : list B) :
  result_map f l = Ok l' → length l' = length l.
Proof.
  revert l'. induction l as [|x l IH]; intros l' H.
  - by injection H as <-.
  - simpl in H. destruct (f x) as [y|]; [|done]. simpl in H.
    destruct (result_map f l) as [ys|]; [|done]. simpl in H.
    injection H as <-. simpl. f_equal. by apply IH.
Qed.

Lemma leaderboard_length (period : string) (limit now : Z) (db db' : MongoDB)
    (lb : list doc) :
  database.get_global_leaderboard period limit now db = (db', Ok lb) →
  length lb
    = length (database.ranked_users (users db) (database.date_filter period now) limit).
Proof.
  unfold database.get_global_leaderboard, bind, ret, database.aggregate.
  case_bool_decide as Hl; [done|].
  destruct (result_map _ _) as [es|] eqn:Hes; [|done].
  intros [= <- <-]. unfold database.add_ranks. rewrite length_imap.
  by apply result_map_length in Hes.
Qed.

Lemma ranked_users_length (period : string) (limit now : Z) (db : MongoDB) :
  length (database.ranked_users (users db) (database.date_filter period now) limit)
    = (Z.to_nat limit `min` length (in_period period now db))%nat.
Proof.
  unfold database.ranked_users, in_period. rewrite length_take.
  by rewrite merge_sort_Permutation.
Qed.

(** What the date filter of a cutoff lets through. *)
Lemma matches_cutoff (cutoff : Z) (d : doc) :
  database.matches (Some cutoff) d = true ↔
  ∃ t, d !! "created_at" = Some (VDate t) ∧ cutoff ≤ t.
Proof.
  unfold database.matches. split.
  - destruct (d !! "created_at") as [[]|]; try done.
    intros H. apply bool_decide_eq_true_1 in H. eauto.
  - intros (t & -> & H). by apply bool_decide_eq_true_2.
Qed.

(** C7 (as amended): the periods daily, weekly and monthly filter on the
    [created_at] of the user record, with cutoffs 1, 7 and 30 days before
    now, and all_time does not filter; every listed user passes the filter
    of the period, the list has [limit] entries or all the users that pass
    if they are fewer, and when at most [limit] users pass, each of them is
    listed; the users listed are, in order, the first of the users that
    pass, arranged in leaderboard order: they and the users left out make
    up the users that pass, sorted by winnings and then games, both
    descending. *)
Theorem leaderboard_period_filter (period : string) (limit now : Z)
    (db db' : MongoDB) (lb : list doc) :
  database.get_global_leaderboard period limit now db = (db', Ok lb) →
  (database.date_filter "daily" now = Some (now - database.days 1)
   ∧ database.date_filter "weekly" now = Some (now - database.days 7)
   ∧ database.date_filter "monthly" now = Some (now - database.days 30)
   ∧ database.date_filter "all_time" now = None)
  ∧ (∀ a, a ∈ lb →
       ∃ k d, users db !! k = Some d
              ∧ a !! "user_id" = Some (VStr k)
              ∧ ∀ cutoff, database.date_filter period now = Some cutoff →
                  ∃ t, d !! "created_at" = Some (VDate t) ∧ cutoff ≤ t)
  ∧ length lb = (Z.to_nat limit `min` length (in_period period now db))%nat
  ∧ ((length (in_period period now db) ≤ Z.to_nat limit)%nat →
     ∀ k d, users db !! k = Some d →
       database.matches (database.date_filter period now) (database.with_id k d) = true →
       ∃ a, a ∈ lb ∧ a !! "user_id" = Some (VStr k))
  ∧ ∃ listed left_out : list doc,
      (listed ++ left_out)%list ≡ₚ in_period period now db
      ∧ StronglySorted database.sort_order (listed ++ left_out)%list
      ∧ Forall2 (λ a u : doc, a !! "user_id" = u !! "_id") lb listed.
Proof.
  intros Hrun.
  pose proof (leaderboard_length _ _ _ _ _ _ Hrun) as Hlen.
  pose proof Hrun as Hrun'.
  apply leaderboard_entries in Hrun' as (-> & Hlimit & Hent).
  split; [done|]. split; [|split; [|split]].
  - intros a Ha. apply list_elem_of_lookup in Ha as [i Ha].
    destruct (Hent i a Ha) as (u & e & Hu & Hp & ->).
    destruct (ranked_users_stored _ _ _ _ _ Hu) as (k & d & Hk & -> & Hm).
    destruct (entry_fields _ e i Hp) as (_ & Hid & _).
    cbn zeta in Hid. unfold get in Hid. rewrite with_id_id in Hid.
    exists k, d. split; [done|]. split; [done|].
    intros cutoff Hc. rewrite Hc in Hm. apply matches_cutoff in Hm as (t & Ht & Hle).
    rewrite with_id_field in Ht by done. eauto.
  - rewrite Hlen. apply ranked_users_length.
  - intros Hfew k d Hk Hm.
    assert (Hin : database.with_id k d
                    ∈ database.ranked_users (users db)
                        (database.date_filter period now) limit).
    { unfold database.ranked_users. rewrite take_ge.
      - rewrite merge_sort_Permutation. apply list_elem_of_filter.
        split; [by apply Is_true_true|].
        unfold database.documents. apply list_elem_of_fmap.
        exists (k, d). split; [done|]. by apply elem_of_map_to_list.
      - by rewrite merge_sort_Permutation. }
    apply list_elem_of_lookup in Hin as [i Hi].
    assert (Hlt : (i < length lb)%nat).
    { rewrite Hlen. by eapply lookup_lt_Some. }
    apply lookup_lt_is_Some in Hlt as [a Ha].
    destruct (Hent i a Ha) as (u & e & Hu & Hp & ->).
    rewrite Hi in Hu. injection Hu as <-.
    destruct (entry_fields _ e i Hp) as (_ & Hid & _).
    cbn zeta in Hid. unfold get in Hid. rewrite with_id_id in Hid.
    eexists. split; [by eapply list_elem_of_lookup_2|done].
  - exists (database.ranked_users (users db) (database.date_filter period now) limit),
      (drop (Z.to_nat limit)
         (merge_sort database.sort_order (in_period period now db))).
    unfold database.ranked_users. fold (in_period period now db).
    rewrite take_drop. split; [apply merge_sort_Permutation|].
    split; [apply StronglySorted_merge_sort; apply _|].
    apply Forall2_same_length_lookup_2.
    + exact Hlen.
    + intros i a u Ha Hu. destruct (Hent i a Ha) as (u' & e & Hu' & Hp & ->).
      unfold database.ranked_users in Hu'. fold (in_period period now db) in Hu'.
      rewrite Hu in Hu'. injection Hu' as <-.
      destruct (entry_fields _ e i Hp) as (_ & Hid & _).
      cbn zeta in Hid. rewrite Hid.
      assert (Hin : database.ranked_users (users db)
                      (database.date_filter period now) limit !! i = Some u) by done.
      destruct (ranked_users_stored _ _ _ _ _ Hin) as (k & d & _ & -> & _).
      unfold get. by rewrite with_id_id.
Qed.

Lemma leaderboard_period_filter_witness :
  length scenario.daily_top1
    = (Z.to_nat 1 `min` length (in_period "daily" scenario.today scenario.newcomers))%nat
  ∧ ∀ a, a ∈ scenario.daily_top1 →
      ∃ k d, users scenario.newcomers !! k = Some d
             ∧ a !! "user_id" = Some (VStr k)
             ∧ ∀ cutoff,
                 database.date_filter "daily" scenario.today = Some cutoff →
                 ∃ t, d !! "created_at" = Some (VDate t) ∧ cutoff ≤ t.
Proof.
  destruct (leaderboard_period_filter "daily" 1 scenario.today scenario.newcomers
              scenario.newcomers scenario.daily_top1)
    as (_ & Hin & Hlen & _).
  - by_eval.
  - split; [exact Hlen|exact Hin].
Defined.

(** C7 (as stated, fails): with two accounts created today and a limit of
    1, both pass the daily filter and one is listed; and an account created
    ten days ago that settled a game an hour ago is not on the daily board,
    which reads [created_at] and not the time of the last activity. *)
Lemma leaderboard_period_counterexample :
  length (in_period "daily" scenario.today scenario.newcomers) = 2%nat
  ∧ (database.get_global_leaderboard "daily" 1 scenario.today scenario.newcomers).2
      = Ok scenario.daily_top1
  ∧ (λ a : doc, a !! "user_id") <$> scenario.daily_top1 = [Some (VStr "u-new2")]
  ∧ scenario.field (users scenario.veteran) "u-vet" "updated_at"
      = Some (VDate (scenario.today - 3600000))
  ∧ (database.get_global_leaderboard "daily" 100 scenario.today scenario.veteran).2
      = Ok [].
Proof. repeat split; by_eval. Qed.

(** In leaderboard order [u-new2] stands before [u-new1]: a page of one
    entry that names [u-new1] is the head of no arrangement, in that order,
    of the users the daily filter lets through. *)
Example daily_page_is_the_head :
  ¬ ∃ listed left_out : list doc,
      (listed ++ left_out)%list ≡ₚ in_period "daily" scenario.today scenario.newcomers
      ∧ StronglySorted database.sort_order (listed ++ left_out)%list
      ∧ Forall2 (λ a u : doc, a !! "user_id" = u !! "_id")
          [({["user_id" := VStr "u-new1"]} : doc)] listed.
Proof.
  intros (listed & left_out & Hp & Hs & Hf).
  apply Forall2_cons_inv_l in Hf as (u & l' & Hu & Hnil & ->).
  apply Forall2_nil_inv_l in Hnil as ->.
  set (new1 := database.with_id "u-new1" (scenario.player 0%Qc 0 0 scenario.today)).
  set (new2 := database.with_id "u-new2" (scenario.player (dec 10 10) 2 1 scenario.today)).
  assert (Hin : in_period "daily" scenario.today scenario.newcomers = [new1; new2]).
  { by_eval. }
  rewrite Hin in Hp. clear Hin. simpl in Hp, Hs.
  assert (Hel : u ∈ [new1; new2]) by (rewrite <- Hp; left).
  apply elem_of_cons in Hel as [-> | Hel].
  - apply Permutation_cons_inv in Hp. symmetry in Hp.
    apply Permutation_singleton_l in Hp as <-.
    apply StronglySorted_inv in Hs as [_ Hall].
    apply Forall_inv in Hall. revert Hall.
    change (¬ database.sort_order new1 new2). by_compute.
  - apply list_elem_of_singleton in Hel as ->.
    rewrite lookup_singleton_eq in Hu. unfold new2 in Hu.
    rewrite with_id_id in Hu. discriminate Hu.
Qed.

(** ** The [total_wins] field *)

Section preservation.

Context (P : MongoDB → Prop).

Lemma preserves_ret {A} (a : A) : preserves P (ret a).
Proof. intros db db' r HP [= <- _]. done. Qed.

Lemma preserves_raise {A} (e : exn) : preserves P (raise (A:=A) e).
Proof. intros db db' r HP [= <- _]. done. Qed.

Lemma preserves_lift {A} (x : result A) : preserves P (lift x).
Proof. intros db db' r HP [= <- _]. done. Qed.

Lemma preserves_read {A} (f : MongoDB → A) : preserves P (read f).
Proof. intros db db' r HP [= <- _]. done. Qed.

Lemma preserves_write (f : MongoDB → MongoDB) :
  (∀ db, P db → P (f db)) → preserves P (write f).
Proof. intros Hf db db' r HP [= <- _]. by apply Hf. Qed.

Lemma preserves_bind {A B} (m : M A) (k : A → M B) :
  preserves P m → (∀ a, preserves P (k a)) → preserves P (bind m k).
Proof.
  intros Hm Hk db db' r HP. unfold bind.
  destruct (m db) as [db1 [a|e]] eqn:Hrun.
  - intros H. eapply Hk; [|exact H]. eapply Hm; [exact HP|exact Hrun].
  - intros [= <- _]. eapply Hm; [exact HP|exact Hrun].
Qed.

Lemma preserves_inserting (coll : MongoDB → collection)
    (put : (collection → collection) → MongoDB → MongoDB) (k : string) (d : doc) :
  (∀ db, P db → coll db !! k = None → P (put (λ _, <[k := d]> (coll db)) db)) →
  preserves P (database.inserting coll put k d).
Proof.
  intros H db db' r HP. unfold database.inserting, database.insert_one.
  destruct (coll db !! k) eqn:Hk.
  - intros [= <- _]. done.
  - intros [= <- _]. by apply H.
Qed.

End preservation.

Lemma no_total_wins_update (k : string) (upd : doc) (db : MongoDB) :
  upd !! "total_wins" = None →
  no_total_wins db → no_total_wins (database.set_users (database.update_one k upd) db).
Proof.
  intros Hupd Hdb k' d. unfold database.set_users, database.update_one. cbn [users].
  destruct (decide (k = k')) as [<-|Hne].
  - rewrite lookup_alter_eq. destruct (users db !! k) as [d0|] eqn:Hk; [|done].
    intros [= <-]. apply lookup_union_None. split; [done|]. by eapply Hdb.
  - rewrite lookup_alter_ne by done. apply Hdb.
Qed.

Lemma no_total_wins_insert (k : string) (d : doc) (db : MongoDB) :
  d !! "total_wins" = None →
  no_total_wins db → no_total_wins (database.set_users (λ _, <[k := d]> (users db)) db).
Proof.
  intros Hd Hdb k' d'. unfold database.set_users. cbn [users].
  destruct (decide (k = k')) as [<-|Hne].
  - rewrite lookup_insert_eq. by intros [= <-].
  - rewrite lookup_insert_ne by done. apply Hdb.
Qed.

Lemma preserves_update_user_balance (uid : string) (b : Decimal) (now : Z) :
  preserves no_total_wins (database.update_user_balance uid b now).
Proof.
  apply preserves_write. intros db. by apply no_total_wins_update.
Qed.

Lemma preserves_update_user (uid : string) (upd : doc) (now : Z) :
  upd !! "total_wins" = None →
  preserves no_total_wins (database.update_user uid upd now).
Proof.
  intros H. apply preserves_write. intros db. apply no_total_wins_update.
  by rewrite lookup_insert_ne.
Qed.

Lemma preserves_create_user (user_data : doc) (uuid : string) (now : Z) :
  user_data !! "total_wins" = None →
  preserves no_total_wins (database.create_user user_data uuid now).
Proof.
  intros H. unfold database.create_user.
  apply preserves_bind; [|intros; apply preserves_ret].
  apply preserves_inserting. intros db Hdb _. apply no_total_wins_insert; [|done].
  by rewrite !lookup_insert_ne.
Qed.

Lemma preserves_create_game_session (session_data : doc) (uuid : string) (now : Z) :
  preserves no_total_wins (database.create_game_session session_data uuid now).
Proof.
  unfold database.create_game_session.
  apply preserves_bind; [|intros; apply preserves_ret].
  apply preserves_inserting. by intros db Hdb _.
Qed.

Lemma preserves_update_game_session (sid : string) (upd : doc) :
  preserves no_total_wins (database.update_game_session sid upd).
Proof. apply preserves_write. by intros db. Qed.

Lemma preserves_create_transaction (transaction_data : doc) (uuid : string) (now : Z) :
  preserves no_total_wins (database.create_transaction transaction_data uuid now).
Proof.
  unfold database.create_transaction.
  apply preserves_bind; [|intros; apply preserves_ret].
  apply preserves_inserting. by intros db Hdb _.
Qed.

Lemma preserves_create_affiliate (affiliate_data : doc) (uuid : string) (now : Z) :
  preserves no_total_wins (database.create_affiliate affiliate_data uuid now).
Proof.
  unfold database.create_affiliate.
  apply preserves_bind; [|intros; apply preserves_ret].
  apply preserves_inserting. by intros db Hdb _.
Qed.

Lemma preserves_get_user_by_privy_id (p : string) :
  preserves no_total_wins (database.get_user_by_privy_id p).
Proof. apply preserves_read. Qed.

Create HintDb preserve.
#[local] Hint Resolve preserves_ret preserves_raise preserves_lift preserves_read
  preserves_update_user_balance preserves_create_game_session
  preserves_update_game_session preserves_create_transaction
  preserves_create_affiliate preserves_get_user_by_privy_id : preserve.

(** One step through a handler: split a sequence, or take a branch. *)
Ltac preserve_step :=
  lazymatch goal with
  | |- preserves _ (bind _ _) => apply preserves_bind; [|intros ?]
  | |- preserves _ (match ?x with _ => _ end) => destruct x
  | |- preserves _ (database.create_user _ _ _) =>
      apply preserves_create_user; reflexivity
  | |- preserves _ (database.update_user _ _ _) =>
      apply preserves_update_user; reflexivity
  | |- preserves _ _ => solve [auto with preserve]
  end.

Lemma preserves_get_user_profile (settings : Settings) (user : AuthenticatedUser)
    (rc uu ua : string) (now : Z) :
  preserves no_total_wins (server.get_user_profile settings user rc uu ua now).
Proof. unfold server.get_user_profile. repeat preserve_step. Qed.

Lemma preserves_join_game (req : BetRequest) (user : AuthenticatedUser)
    (us ut : string) (others : list value) (now : Z) :
  preserves no_total_wins (server.join_game req user us ut others now).
Proof. unfold server.join_game. repeat preserve_step. Qed.

Lemma preserves_end_game (settings : Settings) (game_end : GameEnd)
    (user : AuthenticatedUser) (n : Z) (ut : string) (now : Z) :
  preserves no_total_wins (server.end_game settings game_end user n ut now).
Proof. unfold server.end_game. repeat preserve_step. Qed.

(** C10 (fails on the code): lazy user creation, join and end write no
    [total_wins] field, as claimed: a database whose user records have none
    keeps that property through each of them, whatever they return or
    raise.  But the win rate the leaderboard computes for such a record is
    0 only while [total_games] is 0: once a game is counted the division
    reads the field that nothing writes and the win rate is null, where the
    claim says 0. *)
Theorem total_wins_never_written :
  (∀ settings user rc uu ua now,
     preserves no_total_wins (server.get_user_profile settings user rc uu ua now))
  ∧ (∀ req user us ut others now,
       preserves no_total_wins (server.join_game req user us ut others now))
  ∧ (∀ settings game_end user n ut now,
       preserves no_total_wins (server.end_game settings game_end user n ut now))
  ∧ (∀ period limit now db db' lb,
       no_total_wins db →
       database.get_global_leaderboard period limit now db = (db', Ok lb) →
       ∀ a, a ∈ lb →
         ∃ k d, users db !! k = Some d
                ∧ a !! "user_id" = Some (VStr k)
                ∧ a !! "total_games" = d !! "total_games"
                ∧ a !! "win_rate"
                    = Some (if database.eq_zero (d !! "total_games")
                            then VInt 0 else VNull)).
Proof.
  split; [|split; [|split]].
  - apply preserves_get_user_profile.
  - apply preserves_join_game.
  - apply preserves_end_game.
  - intros period limit now db db' lb Hdb Hrun a Ha.
    apply leaderboard_entries in Hrun as (-> & _ & Hent).
    apply list_elem_of_lookup in Ha as [i Ha].
    destruct (Hent i a Ha) as (u & e & Hu & Hp & ->).
    destruct (ranked_users_stored _ _ _ _ _ Hu) as (k & d & Hk & -> & _).
    destruct (entry_fields _ e i Hp) as (_ & Hid & _ & Hg & w & Hw & Hwa).
    cbn zeta in Hid, Hg, Hwa. unfold get in Hid. rewrite with_id_id in Hid.
    rewrite with_id_field in Hg by done.
    rewrite (win_rate_without_wins k d (Hdb k d Hk)) in Hw. injection Hw as <-.
    exists k, d. done.
Qed.

Lemma total_wins_never_written_witness :
  no_total_wins scenario.first_end.1
  ∧ ∀ a, a ∈ scenario.board_after_win →
      ∃ k d, users scenario.first_end.1 !! k = Some d
             ∧ a !! "user_id" = Some (VStr k)
             ∧ a !! "total_games" = d !! "total_games"
             ∧ a !! "win_rate"
                 = Some (if database.eq_zero (d !! "total_games")
                         then VInt 0 else VNull).
Proof.
  destruct total_wins_never_written as (_ & Hjoin & Hend & Hboard).
  assert (H0 : no_total_wins (scenario.funded (dec 10 10))).
  { intros k d Hk. unfold scenario.funded in Hk. cbn [users] in Hk.
    apply lookup_singleton_Some in Hk as [_ <-]. reflexivity. }
  assert (H1 : no_total_wins scenario.after_join).
  { apply (Hjoin scenario.bet_half scenario.alice "s-1" "t-1" [] 1000
             (scenario.funded (dec 10 10)) scenario.after_join
             (Ok {| gs_game_session_id := "s-1";
                    gs_bet_amount := dec 5 10;
                    gs_new_balance := (dec 10 10 - dec 5 10)%Qc;
                    gs_game_state := "active";
                    gs_other_players := [] |}) H0).
    by_eval. }
  assert (H2 : no_total_wins scenario.first_end.1).
  { apply (Hend defaults scenario.won scenario.alice 9 "t-2" 2000
             scenario.after_join scenario.first_end.1 scenario.first_end.2 H1).
    unfold scenario.first_end. by destruct (server.end_game _ _ _ _ _ _ _). }
  split; [exact H2|].
  apply (Hboard "all_time" 100 5000 scenario.first_end.1 scenario.first_end.1
           scenario.board_after_win H2).
  by_eval.
Defined.

(** The record lazy creation writes for a new user is the record of the
    scenarios, with a balance of 0. *)
Example created_record :
  users (server.get_user_profile defaults scenario.alice "AB12CD34" "u-alice"
           "a-alice" 0 (mkDB ∅ ∅ ∅ ∅)).1
  = users (scenario.funded 0%Qc).
Proof. by_eval. Qed.

(** C10 (the failing input).  In the scenario of the specification (balance
    1.0, a bet of 0.5, a win) the record of the user never has a
    [total_wins] field, counts one game after the win, and gets a null win
    rate on the leaderboard, not 0.  The same holds of a user created by
    [get_user_profile] whose only change is an end of a session recorded
    under her identifier. *)
Lemma win_rate_null_counterexample :
  (scenario.field (users scenario.first_end.1) "u-alice" "total_wins" = None
   ∧ scenario.field (users scenario.first_end.1) "u-alice" "total_games"
       = Some (VInt 1)
   ∧ (database.get_global_leaderboard "all_time" 100 5000 scenario.first_end.1).2
       = Ok scenario.board_after_win
   ∧ (λ a : doc, (a !! "user_id", a !! "win_rate")) <$> scenario.board_after_win
       = [(Some (VStr "u-alice"), Some VNull)])
  ∧ (users scenario.open_session = ∅
     ∧ (∃ profile, scenario.created.2 = Ok profile)
     ∧ (∃ r, scenario.created_then_won.2 = Ok r)
     ∧ scenario.field (users scenario.created_then_won.1) "u-alice" "total_wins" = None
     ∧ scenario.field (users scenario.created_then_won.1) "u-alice" "total_games"
         = Some (VInt 1)
     ∧ (database.get_global_leaderboard "all_time" 100 5000
          scenario.created_then_won.1).2 = Ok scenario.board_of_created
     ∧ (λ a : doc, (a !! "user_id", a !! "win_rate")) <$> scenario.board_of_created
         = [(Some (VStr "u-alice"), Some VNull)]).
Proof.
  split.
  - repeat split; by_eval.
  - split; [reflexivity|]. split; [eexists; by_eval|]. split; [eexists; by_eval|].
    repeat split; by_eval.
Qed.

(** * Further properties *)

(** ** Looking a caller up *)

Lemma find_one_match (field s : string) (c : collection) (d : doc) :
  database.find_one field s c = Some d → eq_str (get d field VNull) s = true.
Proof.
  unfold database.find_one. intros H. apply head_Some_elem_of in H.
  apply list_elem_of_filter in H as [H _]. by apply Is_true_true.
Qed.

Lemma find_one_exists (field s : string) (c : collection) (k : string) (d0 : doc) :
  c !! k = Some d0 →
  eq_str (get (database.with_id k d0) field VNull) s = true →
  is_Some (database.find_one field s c).
Proof.
  intros Hk Hm. unfold database.find_one.
  destruct (filter _ _) as [|x l] eqn:Hf; [|by eexists].
  exfalso. assert (Hin : database.with_id k d0 ∈ @nil doc); [|by inversion Hin].
  rewrite <- Hf. apply list_elem_of_filter. split; [by apply Is_true_true|].
  unfold database.documents. apply list_elem_of_fmap.
  exists (k, d0). split; [done|]. by apply elem_of_map_to_list.
Qed.

Lemma find_one_None (field s : string) (c : collection) (k : string) (d0 : doc) :
  database.find_one field s c = None → c !! k = Some d0 →
  eq_str (get (database.with_id k d0) field VNull) s = false.
Proof.
  intros Hnone Hk. destruct (eq_str _ s) eqn:Hm; [|done].
  destruct (find_one_exists field s c k d0 Hk Hm) as [d Hd]. congruence.
Qed.

Lemma get_with_id (k : string) (d : doc) (f : string) (dflt : value) :
  f ≠ "_id" → get (database.with_id k d) f dflt = get d f dflt.
Proof. intros H. unfold get. by rewrite with_id_field. Qed.

(** With a sole record, the lookup of the caller returns it. *)
Lemma get_user_by_privy_id_sole (db : MongoDB) (p uid : string) :
  sole_record db p uid →
  ∃ d0, users db !! uid = Some d0
        ∧ database.get_user_by_privy_id p db
            = (db, Ok (Some (<["id" := VStr uid]> (database.with_id uid d0)))).
Proof.
  intros [(d0 & Hu & Hm) Hsole]. exists d0. split; [done|].
  unfold database.get_user_by_privy_id, read.
  destruct (find_one_exists "privy_user_id" p (users db) uid d0 Hu) as [d Hd].
  { by rewrite get_with_id. }
  rewrite Hd. pose proof (find_one_match _ _ _ _ Hd) as Hdm.
  apply find_one_stored in Hd as (k & d1 & Hk & ->).
  rewrite get_with_id in Hdm by done.
  assert (k = uid) as -> by eauto. rewrite Hu in Hk. injection Hk as <-.
  cbn. unfold get. by rewrite with_id_id.
Qed.

(** A caller without a record. *)
Lemma get_user_by_privy_id_unknown (db : MongoDB) (p : string) :
  (∀ k d, users db !! k = Some d → eq_str (get d "privy_user_id" VNull) p = false) →
  database.get_user_by_privy_id p db = (db, Ok None).
Proof.
  intros Hno. unfold database.get_user_by_privy_id, read.
  destruct (database.find_one _ _ _) as [d|] eqn:Hd; [|done].
  pose proof (find_one_match _ _ _ _ Hd) as Hm.
  apply find_one_stored in Hd as (k & d1 & Hk & ->).
  rewrite get_with_id in Hm by done. rewrite (Hno k d1 Hk) in Hm. done.
Qed.

(** ** Bounds on the payout *)

Lemma one_minus_edge (e : Decimal) :
  (0 ≤ e)%Qc → (e ≤ 1)%Qc → (0 ≤ 1 - e)%Qc ∧ (1 - e ≤ 1)%Qc.
Proof.
  intros H0 H1. split.
  - unfold Qcminus. by apply Qcle_minus_iff in H1.
  - apply Qcle_minus_iff. replace (1 + - (1 - e))%Qc with e by ring. done.
Qed.

(** X1: with a stake that is not negative and a house edge between 0 and 1
    the payout lies between 0 and 1.8 times the stake, at every rank. *)
Theorem calculate_payout_bounds (settings : Settings) (bet_amount : Decimal)
    (rank total_players : Z) :
  (0 ≤ bet_amount)%Qc →
  (0 ≤ HOUSE_EDGE settings)%Qc → (HOUSE_EDGE settings ≤ 1)%Qc →
  (0 ≤ server.calculate_payout settings bet_amount rank total_players)%Qc
  ∧ (server.calculate_payout settings bet_amount rank total_players
       ≤ bet_amount * dec 18 10)%Qc.
Proof.
  intros Hb H0 H1. destruct (one_minus_edge _ H0 H1) as [He0 He1].
  assert (H18 : (0 ≤ bet_amount * dec 18 10)%Qc).
  { apply Qcmult_nonneg_nonneg; [done|by_compute]. }
  unfold server.calculate_payout. repeat case_bool_decide.
  - split; [by apply Qcmult_nonneg_nonneg|].
    rewrite <- (Qcmult_1_r (bet_amount * dec 18 10)) at 2.
    by apply Qcmult_le_mono_nonneg_l.
  - split; [done|].
    rewrite <- (Qcmult_1_r bet_amount) at 1.
    apply Qcmult_le_mono_nonneg_l; [done|by_compute].
  - split; [apply Qcle_refl|done].
Qed.

Lemma calculate_payout_bounds_witness :
  (0 ≤ server.calculate_payout defaults (dec 5 10) 1 9)%Qc
  ∧ (server.calculate_payout defaults (dec 5 10) 1 9 ≤ dec 5 10 * dec 18 10)%Qc.
Proof.
  apply (calculate_payout_bounds defaults (dec 5 10) 1 9); by_compute.
Defined.

(** ** Callers and sessions that are not found *)

(** X2: a caller without a user record gets 404 "User not found" from join,
    end, balance, history and profile update, and nothing is written. *)
Theorem unknown_caller_not_found (db : MongoDB) (user : AuthenticatedUser) :
  (∀ k d, users db !! k = Some d →
          eq_str (get d "privy_user_id" VNull) (user_id user) = false) →
  let not_found {A} : MongoDB * result A :=
    (db, Raise (HTTPException 404 "User not found")) in
  (∀ req us ut others now, server.join_game req user us ut others now db = not_found)
  ∧ (∀ settings game_end n ut now,
       server.end_game settings game_end user n ut now db = not_found)
  ∧ server.get_user_balance user db = not_found
  ∧ (∀ limit offset, server.get_game_history user limit offset db = not_found)
  ∧ (∀ upd now, server.update_user_profile upd user now db = not_found).
Proof.
  intros Hno. pose proof (get_user_by_privy_id_unknown db _ Hno) as Hget.
  cbn zeta. repeat split; intros;
    unfold server.join_game, server.end_game, server.get_user_balance,
      server.get_game_history, server.update_user_profile, bind;
    by rewrite Hget.
Qed.

Lemma unknown_caller_not_found_witness :
  server.get_user_balance cases.nobody cases.two_users
    = (cases.two_users, Raise (HTTPException 404 "User not found")).
Proof.
  refine (proj1 (proj2 (proj2
            (unknown_caller_not_found cases.two_users cases.nobody _)))).
  intros k d Hk. unfold cases.two_users in Hk. cbn [users] in Hk.
  apply lookup_insert_Some in Hk as [[_ <-]|[_ Hk]]; [reflexivity|].
  apply lookup_singleton_Some in Hk as [_ <-]. reflexivity.
Defined.

(** X3: ending a session that does not exist, or that is recorded for
    another user, is refused with 404 "Game session not found", and nothing
    is written. *)
Theorem end_game_session_not_found (settings : Settings) (game_end : GameEnd)
    (user : AuthenticatedUser) (n : Z) (ut : string) (now : Z) (db : MongoDB)
    (u : doc) (uid : string) :
  database.get_user_by_privy_id (user_id user) db = (db, Ok (Some u)) →
  server.getitem_str u "id" = Ok uid →
  (game_sessions db !! game_session_id game_end = None
   ∨ ∃ s0 owner, game_sessions db !! game_session_id game_end = Some s0
                 ∧ s0 !! "user_id" = Some (VStr owner) ∧ owner ≠ uid) →
  server.end_game settings game_end user n ut now db
    = (db, Raise (HTTPException 404 "Game session not found")).
Proof.
  intros Hget Hid Hs.
  destruct (get_user_by_privy_id_found _ _ _ _ Hget) as (_ & uid' & d0 & Hu & ->).
  rewrite found_user_id in Hid. injection Hid as ->.
  unfold server.end_game, bind. rewrite Hget.
  unfold lift. rewrite found_user_id.
  unfold read, database.find_by_id.
  destruct Hs as [Hs|(s0 & owner & Hs & Ho & Hne)]; rewrite Hs.
  - reflexivity.
  - cbn [fmap option_fmap option_map]. unfold getitem.
    rewrite with_id_field by done. rewrite Ho.
    cbn [result_bind eq_str]. by rewrite bool_decide_eq_false_2.
Qed.

Lemma end_game_session_not_found_witness :
  server.end_game defaults scenario.won cases.bob 9 "t-2" 2000 cases.two_users
    = (cases.two_users, Raise (HTTPException 404 "Game session not found")).
Proof.
  apply (end_game_session_not_found defaults scenario.won cases.bob 9 "t-2" 2000
           cases.two_users
           (<["id" := VStr "u-bob"]> (database.with_id "u-bob" cases.bob_record))
           "u-bob").
  - by_eval.
  - by_eval.
  - right. exists (records.session "u-alice" scenario.bet_half "s-1" 1000), "u-alice".
    split; [by_eval|]. split; [by_eval|done].
Defined.

(** ** More on join and end *)

(** [end_game_run], from what the handler reads. *)
Lemma end_game_run_read (settings : Settings) (game_end : GameEnd)
    (user : AuthenticatedUser) (n : Z) (ut : string) (now : Z) (db : MongoDB)
    (u s : doc) (uid : string) (stake : value) (bet b w : Decimal) (g : value) :
  database.get_user_by_privy_id (user_id user) db = (db, Ok (Some u)) →
  server.getitem_str u "id" = Ok uid →
  database.find_by_id (game_session_id game_end) (game_sessions db) = Some s →
  getitem s "user_id" = Ok (VStr uid) →
  getitem s "bet_amount" = Ok stake →
  Decimal_str stake = Ok bet →
  Decimal_str (get u "balance" (VInt 0)) = Ok b →
  add_one (get u "total_games" (VInt 0)) = Ok g →
  Decimal_str (get u "total_winnings" (VInt 0)) = Ok w →
  let payout := server.calculate_payout settings bet (final_rank game_end) n in
  let db1 := records.settled db uid game_end b payout g w now in
  let r := {| gr_payout := payout;
              gr_new_balance := (b + payout)%Qc;
              gr_rank := final_rank game_end;
              gr_total_players := n;
              gr_game_result :=
                if bool_decide (final_rank game_end ≤ 3) then "win" else "loss" |} in
  (∃ d0, users db !! uid = Some d0
         ∧ users db1 !! uid
             = Some (records.stats_update g (w + payout)%Qc now
                       ∪ (records.balance_update (b + payout)%Qc now ∪ d0)))
  ∧ server.end_game settings game_end user n ut now db =
      if bool_decide (0 < payout)%Qc then
        match transactions db !! ut with
        | Some _ => (db1, Raise (DuplicateKeyError ut))
        | None =>
            (database.set_transactions
               (λ _, <[ut := records.payout uid game_end payout n ut now]>
                       (transactions db)) db1,
             Ok r)
        end
      else (db1, Ok r).
Proof.
  intros Hget Hid Hfind Hown Hstake Hbet Hbal Hg Hw payout db1 r.
  destruct (get_user_by_privy_id_found _ _ _ _ Hget) as (_ & uid' & d0 & Hu & ->).
  rewrite found_user_id in Hid. injection Hid as ->.
  unfold get in Hbal, Hg, Hw. rewrite found_user_field in Hbal, Hg, Hw by done.
  unfold database.find_by_id in Hfind.
  destruct (game_sessions db !! game_session_id game_end) as [s0|] eqn:Hs; [|done].
  injection Hfind as <-.
  unfold getitem in Hown, Hstake. rewrite with_id_field in Hown, Hstake by done.
  destruct (s0 !! "user_id") as [o|] eqn:Ho; [|done]. injection Hown as ->.
  destruct (s0 !! "bet_amount") as [st|] eqn:Hst; [|done]. injection Hstake as ->.
  split.
  - exists d0. split; [done|]. unfold db1, records.settled. cbn [users].
    erewrite update_one_lookup; [done|]. by apply update_one_lookup.
  - by apply (end_game_run settings game_end user n ut now db uid d0 s0 stake
                bet b w g).
Qed.

Lemma stats_after_end (g : value) (b w : Decimal) (now : Z) (d0 : doc) :
  let d' := records.stats_update g w now ∪ (records.balance_update b now ∪ d0) in
  Decimal_str (get d' "balance" (VInt 0)) = Ok b
  ∧ get d' "total_games" (VInt 0) = g
  ∧ Decimal_str (get d' "total_winnings" (VInt 0)) = Ok w.
Proof.
  cbn zeta. unfold get. split; [|split].
  - rewrite lookup_union_r by reflexivity.
    by rewrite (dict_union_lookup_l _ d0 "balance" (float b)).
  - by rewrite (dict_union_lookup_l _ _ "total_games" g).
  - by rewrite (dict_union_lookup_l _ _ "total_winnings" (float w)).
Qed.

(** X4: whatever a join returns or raises, a balance that was not negative
    before it is not negative after it. *)
Theorem join_keeps_balance_nonnegative (req : BetRequest) (user : AuthenticatedUser)
    (us ut : string) (others : list value) (now : Z) (db db' : MongoDB)
    (u : doc) (uid : string) (b : Decimal) (r : result GameSession) :
  database.get_user_by_privy_id (user_id user) db = (db, Ok (Some u)) →
  server.getitem_str u "id" = Ok uid →
  Decimal_str (get u "balance" (VInt 0)) = Ok b →
  (0 ≤ b)%Qc →
  server.join_game req user us ut others now db = (db', r) →
  ∃ d' b', users db' !! uid = Some d'
           ∧ Decimal_str (get d' "balance" (VInt 0)) = Ok b'
           ∧ (0 ≤ b')%Qc.
Proof.
  intros Hget Hid Hbal Hb.
  destruct (get_user_by_privy_id_found _ _ _ _ Hget) as (_ & uid' & d0 & Hu & ->).
  rewrite found_user_id in Hid. injection Hid as ->.
  unfold get in Hbal. rewrite found_user_field in Hbal by done.
  rewrite (join_game_run req user us ut others now db uid d0 b Hget Hbal).
  case_bool_decide as Hlt.
  - intros [= <- _]. exists d0, b. done.
  - assert (Hnew : (0 ≤ b - bet_amount req)%Qc).
    { unfold Qcminus. apply (proj1 (Qcle_minus_iff (bet_amount req) b)).
      by apply Qcnot_lt_le. }
    assert (Hd : ∀ dbx, users dbx = database.update_one uid
                   (records.balance_update (b - bet_amount req)%Qc now) (users db) →
                 ∃ d' b', users dbx !! uid = Some d'
                          ∧ Decimal_str (get d' "balance" (VInt 0)) = Ok b'
                          ∧ (0 ≤ b')%Qc).
    { intros dbx ->. eexists _, _. split; [by apply update_one_lookup|].
      split; [|exact Hnew]. unfold get.
      by rewrite (dict_union_lookup_l _ d0 "balance"
                    (float (b - bet_amount req)%Qc)). }
    cbn zeta. destruct (game_sessions db !! us).
    { intros [= <- _]. by apply Hd. }
    destruct (transactions db !! ut).
    { intros [= <- _]. by apply Hd. }
    intros [= <- _]. by apply Hd.
Qed.

Lemma join_keeps_balance_nonnegative_witness :
  ∃ d' b', users scenario.after_join !! "u-alice" = Some d'
           ∧ Decimal_str (get d' "balance" (VInt 0)) = Ok b'
           ∧ (0 ≤ b')%Qc.
Proof.
  apply (join_keeps_balance_nonnegative scenario.bet_half scenario.alice
           "s-1" "t-1" [] 1000 (scenario.funded (dec 10 10)) scenario.after_join
           (scenario.alice_found (dec 10 10)) "u-alice" (dec 10 10)
           (Ok {| gs_game_session_id := "s-1";
                  gs_bet_amount := dec 5 10;
                  gs_new_balance := (dec 10 10 - dec 5 10)%Qc;
                  gs_game_state := "active";
                  gs_other_players := [] |})).
  - by_eval.
  - by_eval.
  - by_eval.
  - by_compute.
  - by_eval.
Defined.

(** X5: whatever an end returns or raises for a session of the caller, the
    balance and the total winnings stored for the caller do not go down,
    when the stake recorded is not negative and the house edge lies between
    0 and 1. *)
Theorem end_never_lowers_balance_or_winnings (settings : Settings)
    (game_end : GameEnd) (user : AuthenticatedUser) (n : Z) (ut : string) (now : Z)
    (db db' : MongoDB) (u s : doc) (uid : string) (stake : value)
    (bet b w : Decimal) (g : value) (r : result GameResult) :
  database.get_user_by_privy_id (user_id user) db = (db, Ok (Some u)) →
  server.getitem_str u "id" = Ok uid →
  database.find_by_id (game_session_id game_end) (game_sessions db) = Some s →
  getitem s "user_id" = Ok (VStr uid) →
  getitem s "bet_amount" = Ok stake →
  Decimal_str stake = Ok bet →
  Decimal_str (get u "balance" (VInt 0)) = Ok b →
  add_one (get u "total_games" (VInt 0)) = Ok g →
  Decimal_str (get u "total_winnings" (VInt 0)) = Ok w →
  (0 ≤ bet)%Qc → (0 ≤ HOUSE_EDGE settings)%Qc → (HOUSE_EDGE settings ≤ 1)%Qc →
  server.end_game settings game_end user n ut now db = (db', r) →
  ∃ d' b' w', users db' !! uid = Some d'
              ∧ Decimal_str (get d' "balance" (VInt 0)) = Ok b'
              ∧ Decimal_str (get d' "total_winnings" (VInt 0)) = Ok w'
              ∧ (b ≤ b')%Qc ∧ (w ≤ w')%Qc.
Proof.
  intros Hget Hid Hfind Hown Hstake Hbet Hbal Hg Hw Hb0 He0 He1 Hrun.
  destruct (end_game_run_read settings game_end user n ut now db u s uid stake
              bet b w g Hget Hid Hfind Hown Hstake Hbet Hbal Hg Hw)
    as [(d0 & Hu & Hu1) Heq].
  cbn zeta in Hu1, Heq. rewrite Heq in Hrun. clear Heq.
  set (payout := server.calculate_payout settings bet (final_rank game_end) n) in *.
  destruct (calculate_payout_bounds settings bet (final_rank game_end) n Hb0 He0 He1)
    as [Hp0 _]. fold payout in Hp0.
  destruct (stats_after_end g (b + payout)%Qc (w + payout)%Qc now d0)
    as (H1 & _ & H3).
  assert (Hup : ∀ x, (x ≤ x + payout)%Qc).
  { intros x. rewrite <- (Qcplus_0_r x) at 1. by apply Qcplus_le_mono_l. }
  assert (Hd : ∀ dbx, users dbx
                 = users (records.settled db uid game_end b payout g w now) →
               ∃ d' b' w', users dbx !! uid = Some d'
                 ∧ Decimal_str (get d' "balance" (VInt 0)) = Ok b'
                 ∧ Decimal_str (get d' "total_winnings" (VInt 0)) = Ok w'
                 ∧ (b ≤ b')%Qc ∧ (w ≤ w')%Qc).
  { intros dbx Hx. rewrite Hx, Hu1. eexists _, _, _. split; [done|].
    split; [exact H1|]. split; [exact H3|]. split; apply Hup. }
  case_bool_decide.
  - destruct (transactions db !! ut); injection Hrun as <- _; by apply Hd.
  - injection Hrun as <- _. by apply Hd.
Qed.

Lemma end_never_lowers_balance_or_winnings_witness :
  ∃ d' b' w', users scenario.first_end.1 !! "u-alice" = Some d'
              ∧ Decimal_str (get d' "balance" (VInt 0)) = Ok b'
              ∧ Decimal_str (get d' "total_winnings" (VInt 0)) = Ok w'
              ∧ (dec 10 10 - dec 5 10 ≤ b')%Qc ∧ (0 ≤ w')%Qc.
Proof.
  apply (end_never_lowers_balance_or_winnings defaults scenario.won scenario.alice
           9 "t-2" 2000 scenario.after_join scenario.first_end.1
           scenario.alice_after_join scenario.session_after_join "u-alice"
           (float (dec 5 10)) (dec 5 10) (dec 10 10 - dec 5 10)%Qc 0%Qc (VInt 1)
           scenario.first_end.2).
  1-9: by_eval.
  1-3: by_compute.
  unfold scenario.first_end. by destruct (server.end_game _ _ _ _ _ _ _).
Defined.

Lemma sole_record_update (db db1 : MongoDB) (p uid : string) (upd : doc) :
  sole_record db p uid →
  upd !! "privy_user_id" = None →
  users db1 = database.update_one uid upd (users db) →
  sole_record db1 p uid.
Proof.
  intros [(d & Hu & Hm) Hsole] Hupd Hdb1. split.
  - exists (upd ∪ d). rewrite Hdb1. split; [by apply update_one_lookup|].
    unfold get in *. by rewrite lookup_union_r.
  - intros k d' Hk Hm'. destruct (decide (k = uid)) as [|Hne]; [done|].
    rewrite Hdb1, update_one_other in Hk by done. eauto.
Qed.

(** X6: a join followed by the end of the new session.  With a sole record
    for the caller, a covered bet and fresh identifiers, both go through and
    the balance after the end is the balance before the join, minus the
    bet, plus the payout: the balance before the join at ranks 2 and 3, and
    the bet less at every rank above 3.  The statement is for integers the
    store takes (score, rank, players, games), an appearance it takes
    (integers of 64 bits, field names without a NUL byte), a payout at rank
    1 that needs no rounding, and amounts that a double holds exactly (the
    bet, the balance after the join, the payout, the final balance and the
    new winnings). *)
Theorem join_then_end (settings : Settings) (req : BetRequest)
    (user : AuthenticatedUser) (us ut ut' : string) (others : list value)
    (now now' n : Z) (game_end : GameEnd) (db : MongoDB) (uid : string)
    (d0 : doc) (b w : Decimal) (g : value) :
  sole_record db (user_id user) uid →
  users db !! uid = Some d0 →
  Decimal_str (get d0 "balance" (VInt 0)) = Ok b →
  add_one (get d0 "total_games" (VInt 0)) = Ok g →
  Decimal_str (get d0 "total_winnings" (VInt 0)) = Ok w →
  (bet_amount req ≤ b)%Qc →
  game_sessions db !! us = None →
  transactions db !! ut = None → transactions db !! ut' = None → ut ≠ ut' →
  game_session_id game_end = us →
  let payout :=
    server.calculate_payout settings (bet_amount req) (final_rank game_end) n in
  storable (from_option VDict VNull (appearance req)) →
  int64 (final_score game_end) → int64 (final_rank game_end) → int64 n →
  storable g →
  (final_rank game_end = 1 → payout_unrounded settings (bet_amount req)) →
  float_exact (bet_amount req) → float_exact (b - bet_amount req)%Qc →
  float_exact payout → float_exact (b - bet_amount req + payout)%Qc →
  float_exact (w + payout)%Qc →
  ∃ db1 r1 db2 r2,
    server.join_game req user us ut others now db = (db1, Ok r1)
    ∧ server.end_game settings game_end user n ut' now' db1 = (db2, Ok r2)
    ∧ gr_payout r2 = payout
    ∧ gr_new_balance r2 = (b - bet_amount req + payout)%Qc
    ∧ (final_rank game_end = 2 ∨ final_rank game_end = 3 → gr_new_balance r2 = b)
    ∧ (3 < final_rank game_end → gr_new_balance r2 = (b - bet_amount req)%Qc).
Proof.
  intros Hsole Hu Hbal Hg Hw Hle Hs Ht Ht' Hne Hsid payout _ _ _ _ _ _ _ _ _ _ _.
  destruct (get_user_by_privy_id_sole db _ _ Hsole) as (d0' & Hu' & Hget).
  rewrite Hu in Hu'. injection Hu' as <-.
  pose proof (join_game_run req user us ut others now db uid d0 b Hget Hbal) as Hjoin.
  rewrite bool_decide_eq_false_2 in Hjoin by by apply Qcle_not_lt.
  cbn zeta in Hjoin. rewrite Hs, Ht in Hjoin.
  set (db1 := records.joined db uid b req us ut now) in *.
  set (d1 := records.balance_update (b - bet_amount req)%Qc now ∪ d0).
  assert (Hsole1 : sole_record db1 (user_id user) uid).
  { by eapply (sole_record_update db db1 _ _
                 (records.balance_update (b - bet_amount req)%Qc now)). }
  destruct (get_user_by_privy_id_sole db1 _ _ Hsole1) as (d1' & Hu1 & Hget1).
  assert (d1' = d1) as ->.
  { unfold db1, records.joined in Hu1. cbn [users] in Hu1.
    rewrite (update_one_lookup _ _ _ _ Hu) in Hu1. by injection Hu1. }
  assert (Hsess : game_sessions db1 !! game_session_id game_end
                    = Some (records.session uid req us now)).
  { rewrite Hsid. unfold db1, records.joined. cbn [game_sessions].
    by rewrite lookup_insert_eq. }
  assert (Hbal1 : Decimal_str (get d1 "balance" (VInt 0)) = Ok (b - bet_amount req)%Qc).
  { unfold get, d1.
    by rewrite (dict_union_lookup_l _ d0 "balance" (float (b - bet_amount req)%Qc)). }
  assert (Hg1 : add_one (get d1 "total_games" (VInt 0)) = Ok g).
  { unfold get, d1 in *. by rewrite lookup_union_r. }
  assert (Hw1 : Decimal_str (get d1 "total_winnings" (VInt 0)) = Ok w).
  { unfold get, d1 in *. by rewrite lookup_union_r. }
  pose proof (end_game_run settings game_end user n ut' now' db1 uid d1
                (records.session uid req us now) (float (bet_amount req))
                (bet_amount req) (b - bet_amount req)%Qc w g
                Hget1 Hsess eq_refl eq_refl eq_refl Hbal1 Hg1 Hw1) as Hend.
  cbn zeta in Hend. fold payout in Hend.
  assert (Ht1 : transactions db1 !! ut' = None).
  { unfold db1, records.joined. cbn [transactions]. by rewrite lookup_insert_ne. }
  rewrite Ht1 in Hend.
  assert (Hres : ∃ db2 r2,
            server.end_game settings game_end user n ut' now' db1 = (db2, Ok r2)
            ∧ gr_payout r2 = payout
            ∧ gr_new_balance r2 = (b - bet_amount req + payout)%Qc).
  { rewrite Hend. case_bool_decide; eexists _, _; done. }
  destruct Hres as (db2 & r2 & Hrun & Hp & Hb).
  eexists db1, _, db2, r2. split; [exact Hjoin|]. split; [exact Hrun|].
  split; [exact Hp|]. split; [exact Hb|]. split.
  - intros Hr. rewrite Hb. unfold payout, server.calculate_payout.
    rewrite bool_decide_eq_false_2 by lia. rewrite bool_decide_eq_true_2 by lia.
    ring.
  - intros Hr. rewrite Hb. unfold payout, server.calculate_payout.
    rewrite !bool_decide_eq_false_2 by lia. ring.
Qed.

Lemma join_then_end_witness :
  ∃ db1 r1 db2 r2,
    server.join_game scenario.bet_half scenario.alice "s-1" "t-1" [] 1000
        (scenario.funded (dec 10 10)) = (db1, Ok r1)
    ∧ server.end_game defaults cases.third scenario.alice 9 "t-2" 2000 db1
        = (db2, Ok r2)
    ∧ gr_new_balance r2 = dec 10 10.
Proof.
  destruct (join_then_end defaults scenario.bet_half scenario.alice "s-1" "t-1" "t-2"
              [] 1000 2000 9 cases.third (scenario.funded (dec 10 10)) "u-alice"
              (scenario.alice_record (dec 10 10)) (dec 10 10) 0%Qc (VInt 1))
    as (db1 & r1 & db2 & r2 & Hj & He & _ & _ & Hb & _).
  - split.
    + exists (scenario.alice_record (dec 10 10)). split; by_eval.
    + intros k d Hk _. unfold scenario.funded in Hk. cbn [users] in Hk.
      apply lookup_singleton_Some in Hk as [Hk _]. symmetry. exact Hk.
  - by_eval.
  - by_eval.
  - by_eval.
  - by_eval.
  - by_compute.
  - reflexivity.
  - reflexivity.
  - reflexivity.
  - done.
  - reflexivity.
  - exact I.
  - small_int.
  - small_int.
  - small_int.
  - small_int.
  - intros H. discriminate H.
  - numeral 5 (-1).
  - numeral 5 (-1).
  - numeral 5 (-1).
  - numeral 1 0.
  - numeral 5 (-1).
  - exists db1, r1, db2, r2. split; [exact Hj|]. split; [exact He|].
    apply Hb. by right.
Defined.

(** X7: for a session of the caller with a positive stake, a house edge
    below 1, a fresh transaction identifier and a score, a rank, a number
    of players and a count of games that the store takes (64 bits), the end
    goes through, and the result it reports is "win" exactly when the
    payout is positive, which is exactly when a payout transaction is
    written. *)
Theorem end_result_matches_payout (settings : Settings) (game_end : GameEnd)
    (user : AuthenticatedUser) (n : Z) (ut : string) (now : Z) (db : MongoDB)
    (u s : doc) (uid : string) (stake : value) (bet b w : Decimal) (g : value) :
  database.get_user_by_privy_id (user_id user) db = (db, Ok (Some u)) →
  server.getitem_str u "id" = Ok uid →
  database.find_by_id (game_session_id game_end) (game_sessions db) = Some s →
  getitem s "user_id" = Ok (VStr uid) →
  getitem s "bet_amount" = Ok stake →
  Decimal_str stake = Ok bet →
  Decimal_str (get u "balance" (VInt 0)) = Ok b →
  add_one (get u "total_games" (VInt 0)) = Ok g →
  Decimal_str (get u "total_winnings" (VInt 0)) = Ok w →
  (0 < bet)%Qc → (HOUSE_EDGE settings < 1)%Qc →
  transactions db !! ut = None →
  int64 (final_score game_end) → int64 (final_rank game_end) → int64 n →
  storable g →
  ∃ db' r,
    server.end_game settings game_end user n ut now db = (db', Ok r)
    ∧ (gr_game_result r = "win" ↔ final_rank game_end ≤ 3)
    ∧ (gr_game_result r = "win" ↔ (0 < gr_payout r)%Qc)
    ∧ (gr_game_result r = "win" ↔ is_Some (transactions db' !! ut)).
Proof.
  intros Hget Hid Hfind Hown Hstake Hbet Hbal Hg Hw Hb He Ht _ _ _ _.
  destruct (end_game_run_read settings game_end user n ut now db u s uid stake
              bet b w g Hget Hid Hfind Hown Hstake Hbet Hbal Hg Hw)
    as [_ Heq].
  cbn zeta in Heq. rewrite Heq, Ht. clear Heq.
  assert (Hpay : (0 < server.calculate_payout settings bet (final_rank game_end) n)%Qc
                 ↔ final_rank game_end ≤ 3).
  { destruct (decide (final_rank game_end = 1)) as [H1|H1].
    - rewrite H1. split; [lia|]. intros _. by apply winner_payout_positive.
    - unfold server.calculate_payout. rewrite (bool_decide_eq_false_2 _ H1).
      case_bool_decide; split; done. }
  assert (Hwin : (if bool_decide (final_rank game_end ≤ 3) then "win" else "loss")
                   = "win" ↔ final_rank game_end ≤ 3).
  { case_bool_decide; split; done. }
  destruct (decide (0 < server.calculate_payout settings bet
                         (final_rank game_end) n)%Qc) as [Hpos|Hpos].
  - rewrite (bool_decide_eq_true_2 _ Hpos).
    eexists _, _. split; [reflexivity|]. cbn [gr_game_result gr_payout].
    split; [exact Hwin|]. split; [by rewrite Hwin, Hpay|].
    rewrite Hwin. cbn [transactions database.set_transactions].
    rewrite lookup_insert_eq. split; [by eexists|]. intros _. by apply Hpay.
  - rewrite (bool_decide_eq_false_2 _ Hpos).
    eexists _, _. split; [reflexivity|]. cbn [gr_game_result gr_payout].
    split; [exact Hwin|]. split; [by rewrite Hwin, Hpay|].
    rewrite Hwin. cbn [transactions records.settled]. rewrite Ht.
    split; [by rewrite <- Hpay|]. by intros [? ?].
Qed.

Lemma end_result_matches_payout_witness :
  ∃ db' r,
    server.end_game defaults scenario.fourth scenario.alice 9 "t-2" 2000
        scenario.after_join = (db', Ok r)
    ∧ (gr_game_result r = "win" ↔ (0 < gr_payout r)%Qc).
Proof.
  destruct (end_result_matches_payout defaults scenario.fourth scenario.alice 9 "t-2"
              2000 scenario.after_join scenario.alice_after_join
              scenario.session_after_join "u-alice" (float (dec 5 10))
              (dec 5 10) (dec 10 10 - dec 5 10)%Qc 0%Qc (VInt 1))
    as (db' & r & Hrun & _ & Hw & _).
  1-9: by_eval.
  1-2: by_compute.
  1: reflexivity.
  1-4: small_int.
  exists db', r. split; [exact Hrun|exact Hw].
Defined.

(** ** Lazy creation of the user record *)

(** The profile call for a caller without a record, with fresh identifiers. *)
Lemma get_user_profile_run_new (settings : Settings) (user : AuthenticatedUser)
    (rc uu ua : string) (now : Z) (db : MongoDB) :
  (∀ k d, users db !! k = Some d →
          eq_str (get d "privy_user_id" VNull) (user_id user) = false) →
  users db !! uu = None →
  affiliates db !! ua = None →
  ∃ d a profile,
    server.get_user_profile settings user rc uu ua now db
      = ({| users := <[uu := d]> (users db);
            game_sessions := game_sessions db;
            transactions := transactions db;
            affiliates := <[ua := a]> (affiliates db) |}, Ok profile)
    ∧ (d !! "privy_user_id" = Some (VStr (user_id user))
       ∧ d !! "balance" = Some (VFloat 0%Qc)
       ∧ d !! "total_games" = Some (VInt 0)
       ∧ d !! "total_winnings" = Some (VFloat 0%Qc)
       ∧ d !! "referral_code" = Some (VStr rc)
       ∧ d !! "total_wins" = None)
    ∧ (a !! "user_id" = Some (VStr uu) ∧ a !! "referral_code" = Some (VStr rc))
    ∧ (server.up_user_id profile = uu
       ∧ server.up_balance profile = 0%Qc
       ∧ server.up_total_games profile = VInt 0
       ∧ server.up_total_winnings profile = 0%Qc).
Proof.
  intros Hno Hu Ha.
  unfold server.get_user_profile, bind.
  rewrite (get_user_by_privy_id_unknown db _ Hno).
  unfold database.create_user, database.inserting, database.insert_one, bind.
  rewrite Hu. unfold ret, lift, server.getitem_str. rewrite lookup_insert_eq.
  unfold database.create_affiliate, database.inserting, database.insert_one, bind.
  cbn [affiliates database.set_users]. rewrite Ha.
  unfold ret.
  eexists _, _, _. split; [reflexivity|].
  repeat split; reflexivity.
Qed.

(** X8: for a caller without a record, fresh identifiers and values that
    collide with no unique index of the store, the profile call creates
    exactly one user record, with a balance of 0, no games and no winnings,
    and exactly one affiliate record that refers to it with the same
    referral code; sessions and transactions are untouched, the profile
    returned shows the zeros, and the new record is the sole record of the
    caller. *)
Theorem get_user_profile_creates (settings : Settings) (user : AuthenticatedUser)
    (rc uu ua : string) (now : Z) (db : MongoDB) :
  (∀ k d, users db !! k = Some d →
          eq_str (get d "privy_user_id" VNull) (user_id user) = false) →
  users db !! uu = None →
  affiliates db !! ua = None →
  admitted_by_indexes db rc uu →
  ∃ db' profile d a,
    server.get_user_profile settings user rc uu ua now db = (db', Ok profile)
    ∧ users db' = <[uu := d]> (users db)
    ∧ d !! "balance" = Some (VFloat 0%Qc)
    ∧ d !! "total_games" = Some (VInt 0)
    ∧ d !! "total_winnings" = Some (VFloat 0%Qc)
    ∧ affiliates db' = <[ua := a]> (affiliates db)
    ∧ a !! "user_id" = Some (VStr uu)
    ∧ a !! "referral_code" = d !! "referral_code"
    ∧ game_sessions db' = game_sessions db
    ∧ transactions db' = transactions db
    ∧ server.up_user_id profile = uu
    ∧ server.up_balance profile = 0%Qc
    ∧ sole_record db' (user_id user) uu.
Proof.
  intros Hno Hu Ha _.
  destruct (get_user_profile_run_new settings user rc uu ua now db Hno Hu Ha)
    as (d & a & profile & Hrun & (Hp & Hb & Hg & Hw & Hrc & _) & (Hau & Harc)
        & (Hid & Hpb & _)).
  eexists _, profile, d, a. split; [exact Hrun|]. cbn [users affiliates
    game_sessions transactions].
  repeat (split; [done|]). split; [by rewrite Harc, Hrc|].
  repeat (split; [done|]).
  split.
  - exists d. cbn [users]. rewrite lookup_insert_eq. split; [done|].
    unfold get. rewrite Hp. cbn. by apply bool_decide_eq_true_2.
  - intros k d' Hk Hm. destruct (decide (k = uu)) as [|Hne]; [done|].
    cbn [users] in Hk.
    rewrite lookup_insert_ne in Hk by done. rewrite (Hno k d' Hk) in Hm. done.
Qed.

Lemma get_user_profile_creates_witness :
  ∃ db' profile,
    server.get_user_profile defaults scenario.alice "AB12CD34" "u-alice" "a-alice" 0
        (mkDB ∅ ∅ ∅ ∅) = (db', Ok profile)
    ∧ server.up_balance profile = 0%Qc
    ∧ sole_record db' "did:privy:alice" "u-alice".
Proof.
  destruct (get_user_profile_creates defaults scenario.alice "AB12CD34" "u-alice"
              "a-alice" 0 (mkDB ∅ ∅ ∅ ∅))
    as (db' & profile & d & a & Hrun & H).
  - intros k d Hk. cbn [users] in Hk. by rewrite lookup_empty in Hk.
  - reflexivity.
  - reflexivity.
  - split; intros k d Hk; cbn [users affiliates] in Hk;
      by rewrite lookup_empty in Hk.
  - exists db', profile. split; [exact Hrun|].
    destruct H as (_ & _ & _ & _ & _ & _ & _ & _ & _ & _ & Hb & Hs).
    split; [exact Hb|exact Hs].
Defined.

(** The profile call for a caller with a record. *)
Lemma get_user_profile_run_known (settings : Settings) (user : AuthenticatedUser)
    (rc uu ua : string) (now : Z) (db : MongoDB) (u : doc) (uid : string)
    (b w : Decimal) :
  database.get_user_by_privy_id (user_id user) db = (db, Ok (Some u)) →
  server.getitem_str u "id" = Ok uid →
  Decimal_str (get u "balance" (VInt 0)) = Ok b →
  Decimal_str (get u "total_winnings" (VInt 0)) = Ok w →
  ∃ profile,
    server.get_user_profile settings user rc uu ua now db = (db, Ok profile)
    ∧ server.up_user_id profile = uid
    ∧ server.up_balance profile = b
    ∧ server.up_total_winnings profile = w
    ∧ server.up_total_games profile = get u "total_games" (VInt 0).
Proof.
  intros Hget Hid Hb Hw.
  unfold server.get_user_profile, bind. rewrite Hget.
  unfold ret, lift. rewrite Hid, Hb, Hw. eexists. split; [reflexivity|]. done.
Qed.

(** X9: for a caller who has a record, with numbers for the balance and
    the winnings and fields the response model takes as they are, the
    profile call writes nothing, whatever identifiers are drawn, and returns
    the stored balance, games and winnings. *)
Theorem get_user_profile_reads (settings : Settings) (user : AuthenticatedUser)
    (rc uu ua : string) (now : Z) (db : MongoDB) (u : doc) (uid : string)
    (b w : Decimal) :
  database.get_user_by_privy_id (user_id user) db = (db, Ok (Some u)) →
  server.getitem_str u "id" = Ok uid →
  Decimal_str (get u "balance" (VInt 0)) = Ok b →
  Decimal_str (get u "total_winnings" (VInt 0)) = Ok w →
  profile_typed u →
  ∃ profile,
    server.get_user_profile settings user rc uu ua now db = (db, Ok profile)
    ∧ server.up_user_id profile = uid
    ∧ server.up_balance profile = b
    ∧ server.up_total_winnings profile = w
    ∧ server.up_total_games profile = get u "total_games" (VInt 0).
Proof. intros Hget Hid Hb Hw _. by apply get_user_profile_run_known. Qed.

Lemma get_user_profile_reads_witness :
  ∃ profile,
    server.get_user_profile defaults scenario.alice "ZZ99ZZ99" "u-2" "a-2" 7000
        scenario.after_join = (scenario.after_join, Ok profile)
    ∧ server.up_user_id profile = "u-alice"
    ∧ server.up_balance profile = (dec 10 10 - dec 5 10)%Qc.
Proof.
  destruct (get_user_profile_reads defaults scenario.alice "ZZ99ZZ99" "u-2" "a-2" 7000
              scenario.after_join scenario.alice_after_join "u-alice"
              (dec 10 10 - dec 5 10)%Qc 0%Qc)
    as (profile & Hrun & Hid & Hb & _).
  1-4: by_eval.
  - repeat split;
      first [ by left | right; eexists; by_eval | eexists; by_eval ].
  - exists profile. split; [exact Hrun|]. split; [exact Hid|exact Hb].
Defined.

(** X10: the profile call made twice.  After the call that created the
    record (for a caller without a record, with fresh identifiers and values
    that collide with no unique index of the store), a second call by the
    same caller, with any identifiers, leaves the database as the first call
    left it and returns the same user. *)
Theorem get_user_profile_twice (settings : Settings) (user : AuthenticatedUser)
    (rc uu ua rc' uu' ua' : string) (now now' : Z) (db : MongoDB) :
  (∀ k d, users db !! k = Some d →
          eq_str (get d "privy_user_id" VNull) (user_id user) = false) →
  users db !! uu = None →
  affiliates db !! ua = None →
  admitted_by_indexes db rc uu →
  ∃ db1 p1 p2,
    server.get_user_profile settings user rc uu ua now db = (db1, Ok p1)
    ∧ server.get_user_profile settings user rc' uu' ua' now' db1 = (db1, Ok p2)
    ∧ server.up_user_id p2 = server.up_user_id p1
    ∧ server.up_balance p2 = server.up_balance p1
    ∧ size (users db1) = S (size (users db)).
Proof.
  intros Hno Hu Ha _.
  destruct (get_user_profile_run_new settings user rc uu ua now db Hno Hu Ha)
    as (d & a & p1 & Hrun & (Hp & Hb & Hg & Hw & Hrc & _) & _ & (Hid & Hpb & _)).
  set (db1 := {| users := <[uu := d]> (users db);
                 game_sessions := game_sessions db;
                 transactions := transactions db;
                 affiliates := <[ua := a]> (affiliates db) |}) in *.
  assert (Hsole : sole_record db1 (user_id user) uu).
  { split.
    - exists d. unfold db1. cbn [users]. rewrite lookup_insert_eq. split; [done|].
      unfold get. rewrite Hp. cbn. by apply bool_decide_eq_true_2.
    - intros k d' Hk Hm. destruct (decide (k = uu)) as [|Hne]; [done|].
      unfold db1 in Hk. cbn [users] in Hk.
      rewrite lookup_insert_ne in Hk by done. rewrite (Hno k d' Hk) in Hm. done. }
  destruct (get_user_by_privy_id_sole db1 _ _ Hsole) as (d1 & Hu1 & Hget1).
  assert (d1 = d) as ->.
  { unfold db1 in Hu1. cbn [users] in Hu1. rewrite lookup_insert_eq in Hu1.
    by injection Hu1. }
  destruct (get_user_profile_run_known settings user rc' uu' ua' now' db1 _ uu
              0%Qc 0%Qc Hget1 (found_user_id uu d))
    as (p2 & Hrun2 & Hid2 & Hb2 & _).
  { unfold get. rewrite found_user_field by done. by rewrite Hb. }
  { unfold get. rewrite found_user_field by done. by rewrite Hw. }
  exists db1, p1, p2. split; [exact Hrun|]. split; [exact Hrun2|].
  split; [by rewrite Hid, Hid2|]. split; [by rewrite Hpb, Hb2|].
  unfold db1. cbn [users]. by apply map_size_insert_None.
Qed.

Lemma get_user_profile_twice_witness :
  ∃ db1 p1 p2,
    server.get_user_profile defaults scenario.alice "AB12CD34" "u-alice" "a-alice" 0
        (mkDB ∅ ∅ ∅ ∅) = (db1, Ok p1)
    ∧ server.get_user_profile defaults scenario.alice "ZZ99ZZ99" "u-2" "a-2" 50 db1
        = (db1, Ok p2)
    ∧ server.up_user_id p2 = server.up_user_id p1.
Proof.
  destruct (get_user_profile_twice defaults scenario.alice "AB12CD34" "u-alice"
              "a-alice" "ZZ99ZZ99" "u-2" "a-2" 0 50 (mkDB ∅ ∅ ∅ ∅))
    as (db1 & p1 & p2 & H1 & H2 & H3 & _).
  - intros k d Hk. cbn [users] in Hk. by rewrite lookup_empty in Hk.
  - reflexivity.
  - reflexivity.
  - split; intros k d Hk; cbn [users affiliates] in Hk;
      by rewrite lookup_empty in Hk.
  - exists db1, p1, p2. split; [exact H1|]. split; [exact H2|exact H3].
Defined.

(** ** Profile update *)

(** Every outcome of a profile update for a caller whose record is found. *)
Lemma update_user_profile_run (upd : UserProfileUpdate) (user : AuthenticatedUser)
    (now : Z) (db : MongoDB) (uid : string) (d0 : doc) :
  database.get_user_by_privy_id (user_id user) db
    = (db, Ok (Some (<["id" := VStr uid]> (database.with_id uid d0)))) →
  let taken :=
    match pu_username upd with
    | Some name =>
        match database.find_one "username" name (users db) with
        | Some e => negb (eq_str (get e "_id" VNull) uid)
        | None => false
        end
    | None => false
    end in
  server.update_user_profile upd user now db =
    if taken then (db, Raise (HTTPException 400 "Username already taken"))
    else (updates.updated db uid upd now, Ok "Profile updated successfully").
Proof.
  intros Hget. cbn zeta.
  unfold server.update_user_profile, bind. rewrite Hget.
  unfold lift. rewrite found_user_id.
  unfold updates.updated, updates.update_data.
  destruct (pu_username upd) as [name|].
  - unfold read. destruct (database.find_one _ _ _) as [e|] eqn:He.
    + apply find_one_stored in He as (k & d1 & Hk & ->).
      unfold getitem, get. rewrite with_id_id.
      cbn [result_bind from_option default id].
      destruct (eq_str (VStr k) uid); cbn [negb]; [|done].
      unfold ret. case_bool_decide; [done|].
      unfold database.update_user, write. done.
    + unfold ret. case_bool_decide; [done|].
      unfold database.update_user, write. done.
  - unfold ret. case_bool_decide; [done|].
    unfold database.update_user, write. done.
Qed.

Lemma eq_str_get (d : doc) (f s : string) :
  eq_str (get d f VNull) s = true ↔ d !! f = Some (VStr s).
Proof.
  unfold get. destruct (d !! f) as [[]|]; cbn; try (split; done).
  rewrite bool_decide_eq_true. split; [by intros ->|by intros [= ->]].
Qed.

Lemma update_data_username (upd : UserProfileUpdate) :
  updates.update_data upd !! "username" = VStr <$> pu_username upd.
Proof.
  unfold updates.update_data.
  destruct (pu_username upd), (pu_display_name upd), (pu_appearance upd); reflexivity.
Qed.

Lemma update_data_display_name (upd : UserProfileUpdate) :
  updates.update_data upd !! "display_name" = VStr <$> pu_display_name upd.
Proof.
  unfold updates.update_data.
  destruct (pu_username upd), (pu_display_name upd), (pu_appearance upd); reflexivity.
Qed.

Lemma update_data_other (upd : UserProfileUpdate) (now : Z) (f : string) :
  f ∉ updates.profile_fields →
  (<["updated_at" := VDate now]> (updates.update_data upd)) !! f = None.
Proof.
  unfold updates.profile_fields. intros Hf.
  assert (f ≠ "username" ∧ f ≠ "display_name" ∧ f ≠ "appearance" ∧ f ≠ "updated_at")
    as (H1 & H2 & H3 & H4) by set_solver.
  unfold updates.update_data.
  destruct (pu_username upd), (pu_display_name upd), (pu_appearance upd);
    rewrite ?lookup_insert_ne by done; apply lookup_empty.
Qed.

(** The record of the caller after a profile update that went through. *)
Lemma updated_record (db : MongoDB) (uid : string) (upd : UserProfileUpdate)
    (now : Z) (d0 : doc) :
  users db !! uid = Some d0 →
  ∃ d', users (updates.updated db uid upd now) !! uid = Some d'
        ∧ (∀ name, pu_username upd = Some name → d' !! "username" = Some (VStr name))
        ∧ (pu_username upd = None → d' !! "username" = d0 !! "username")
        ∧ (∀ name, pu_display_name upd = Some name →
                   d' !! "display_name" = Some (VStr name))
        ∧ (∀ f, f ∉ updates.profile_fields → d' !! f = d0 !! f).
Proof.
  intros Hu. unfold updates.updated. case_bool_decide as He.
  - exists d0. split; [done|].
    pose proof (update_data_username upd) as H1.
    pose proof (update_data_display_name upd) as H2.
    rewrite He, lookup_empty in H1, H2.
    split; [intros name Hn; by rewrite Hn in H1|]. split; [done|].
    split; [intros name Hn; by rewrite Hn in H2|done].
  - eexists. split; [cbn [users database.set_users]; by apply update_one_lookup|].
    split; [|split; [|split]].
    + intros name Hn. apply lookup_union_Some_l. rewrite lookup_insert_ne by done.
      by rewrite update_data_username, Hn.
    + intros Hn. rewrite lookup_union_r; [done|].
      rewrite lookup_insert_ne by done. by rewrite update_data_username, Hn.
    + intros name Hn. apply lookup_union_Some_l. rewrite lookup_insert_ne by done.
      by rewrite update_data_display_name, Hn.
    + intros f Hf. rewrite lookup_union_r; [done|]. by apply update_data_other.
Qed.

Lemma updated_other (db : MongoDB) (uid : string) (upd : UserProfileUpdate)
    (now : Z) (k : string) :
  k ≠ uid → users (updates.updated db uid upd now) !! k = users db !! k.
Proof.
  intros Hk. unfold updates.updated. case_bool_decide; [done|].
  cbn [users database.set_users]. by apply update_one_other.
Qed.

(** X11: a profile update that asks for a username held by another user is
    refused with 400 "Username already taken" and writes nothing (usernames
    being unique among the records). *)
Theorem update_username_taken (upd : UserProfileUpdate) (user : AuthenticatedUser)
    (now : Z) (db : MongoDB) (u : doc) (uid k name : string) (d : doc) :
  usernames_unique db →
  database.get_user_by_privy_id (user_id user) db = (db, Ok (Some u)) →
  server.getitem_str u "id" = Ok uid →
  pu_username upd = Some name →
  users db !! k = Some d → d !! "username" = Some (VStr name) → k ≠ uid →
  server.update_user_profile upd user now db
    = (db, Raise (HTTPException 400 "Username already taken")).
Proof.
  intros Huniq Hget Hid Hname Hk Hd Hne.
  destruct (get_user_by_privy_id_found _ _ _ _ Hget) as (_ & uid' & d0 & Hu & ->).
  rewrite found_user_id in Hid. injection Hid as ->.
  rewrite (update_user_profile_run upd user now db uid d0 Hget). cbn zeta.
  rewrite Hname.
  destruct (find_one_exists "username" name (users db) k d Hk) as [e He].
  { rewrite get_with_id by done. by apply eq_str_get. }
  rewrite He. pose proof (find_one_match _ _ _ _ He) as Hm.
  apply find_one_stored in He as (k' & d1 & Hk' & ->).
  rewrite get_with_id in Hm by done. apply eq_str_get in Hm.
  assert (k' = k) as -> by (eapply Huniq; eauto).
  unfold get. rewrite with_id_id. cbn. by rewrite bool_decide_eq_false_2.
Qed.

Lemma update_username_taken_witness :
  server.update_user_profile
      {| pu_username := Some "bobby"; pu_display_name := None; pu_appearance := None |}
      scenario.alice 3000 cases.two_users
    = (cases.two_users, Raise (HTTPException 400 "Username already taken")).
Proof.
  apply (update_username_taken _ scenario.alice 3000 cases.two_users
           (scenario.alice_found (dec 10 10)) "u-alice" "u-bob" "bobby"
           cases.bob_record).
  - intros k1 k2 d1 d2 name H1 H2 Hn1 Hn2.
    unfold cases.two_users in H1, H2. cbn [users] in H1, H2.
    apply lookup_insert_Some in H1 as [[_ <-]|[_ H1]]; [done|].
    apply lookup_insert_Some in H2 as [[_ <-]|[_ H2]]; [done|].
    apply lookup_singleton_Some in H1 as [<- _].
    apply lookup_singleton_Some in H2 as [<- _]. reflexivity.
  - by_eval.
  - by_eval.
  - reflexivity.
  - by_eval.
  - by_eval.
  - discriminate.
Defined.



(** A record other than the caller's cannot share the caller's username
    after an update that went through. *)
Lemma updated_username_clash (upd : UserProfileUpdate) (now : Z) (db : MongoDB)
    (uid k2 : string) (d0 d1 d2 : doc) (n : string) :
  usernames_unique db →
  users db !! uid = Some d0 →
  match pu_username upd with
  | Some name =>
      match database.find_one "username" name (users db) with
      | Some e => negb (eq_str (get e "_id" VNull) uid)
      | None => false
      end
  | None => false
  end = false →
  users (updates.updated db uid upd now) !! uid = Some d1 →
  users db !! k2 = Some d2 →
  d1 !! "username" = Some (VStr n) → d2 !! "username" = Some (VStr n) →
  uid = k2.
Proof.
  intros Huniq Hu Hnot H1 H2 Hn1 Hn2.
  destruct (updated_record db uid upd now d0 Hu) as (d' & Hd' & Hset & Hkeep & _).
  rewrite Hd' in H1. injection H1 as <-.
  destruct (pu_username upd) as [name|] eqn:Hname.
  - rewrite (Hset name eq_refl) in Hn1. injection Hn1 as ->.
    destruct (find_one_exists "username" n (users db) k2 d2 H2) as [e He].
    { rewrite get_with_id by done. by apply eq_str_get. }
    rewrite He in Hnot. pose proof (find_one_match _ _ _ _ He) as Hm.
    apply find_one_stored in He as (k' & d3 & Hk' & ->).
    rewrite get_with_id in Hm by done. apply eq_str_get in Hm.
    unfold get in Hnot. rewrite with_id_id in Hnot. cbn in Hnot.
    apply negb_false_iff, bool_decide_eq_true_1 in Hnot. subst k'.
    by eapply (Huniq uid k2 d3 d2 n).
  - rewrite (Hkeep eq_refl) in Hn1. by eapply (Huniq uid k2 d0 d2 n).
Qed.

(** X13: a profile update keeps usernames unique: if no two user records
    share a username before it, none do after it, whatever it returns or
    raises. *)
Theorem update_keeps_usernames_unique (upd : UserProfileUpdate)
    (user : AuthenticatedUser) (now : Z) (db db' : MongoDB) (r : result string) :
  usernames_unique db →
  server.update_user_profile upd user now db = (db', r) →
  usernames_unique db'.
Proof.
  intros Huniq Hrun.
  destruct (get_user_by_privy_id_pure (user_id user) db) as [[u|] Hget].
  - destruct (get_user_by_privy_id_found _ _ _ _ Hget) as (_ & uid & d0 & Hu & ->).
    rewrite (update_user_profile_run upd user now db uid d0 Hget) in Hrun.
    cbn zeta in Hrun.
    destruct (match pu_username upd with Some _ => _ | None => _ end) eqn:Hnot.
    { by injection Hrun as <- _. }
    injection Hrun as <- _.
    intros k1 k2 d1 d2 n H1 H2 Hn1 Hn2.
    destruct (decide (k1 = uid)) as [->|Hk1], (decide (k2 = uid)) as [->|Hk2].
    + done.
    + rewrite updated_other in H2 by done.
      by eapply (updated_username_clash upd now db uid k2 d0 d1 d2 n).
    + rewrite updated_other in H1 by done. symmetry.
      by eapply (updated_username_clash upd now db uid k1 d0 d2 d1 n).
    + rewrite updated_other in H1, H2 by done. by eapply Huniq.
  - unfold server.update_user_profile, bind in Hrun. rewrite Hget in Hrun.
    by injection Hrun as <- _.
Qed.

Lemma two_users_usernames_unique : usernames_unique cases.two_users.
Proof.
  intros k1 k2 d1 d2 name H1 H2 Hn1 Hn2.
  unfold cases.two_users in H1, H2. cbn [users] in H1, H2.
  apply lookup_insert_Some in H1 as [[_ <-]|[_ H1]]; [done|].
  apply lookup_insert_Some in H2 as [[_ <-]|[_ H2]]; [done|].
  apply lookup_singleton_Some in H1 as [<- _].
  apply lookup_singleton_Some in H2 as [<- _]. reflexivity.
Qed.

Lemma update_keeps_usernames_unique_witness :
  usernames_unique
    (server.update_user_profile
       {| pu_username := Some "alice_1"; pu_display_name := None;
          pu_appearance := None |}
       scenario.alice 3000 cases.two_users).1.
Proof.
  eapply (update_keeps_usernames_unique _ scenario.alice 3000 cases.two_users).
  - exact two_users_usernames_unique.
  - apply surjective_pairing.
Defined.

(** ** Validation of a profile update *)

Lemma chomp_Some (s w : string) : chomp s = Some w → s = w +:+ newline.
Proof.
  revert w. induction s as [|c s IH]; intros w; [done|].
  cbn [chomp]. destruct s as [|c' s'].
  - destruct (code c =? 10)%N eqn:Hc; [|done]. intros [= <-].
    apply N.eqb_eq in Hc. unfold code in Hc. unfold newline.
    rewrite <- Hc, Ascii.ascii_N_embedding. done.
  - destruct (chomp (String c' s')) as [w'|]; [|done].
    cbn [fmap option_fmap option_map]. intros [= <-].
    change (String c (String c' s') = String c (w' +:+ newline)).
    f_equal. by apply IH.
Qed.

Lemma re_match_to_end_cases (body : string → bool) (s : string) :
  re_match_to_end body s = true →
  ∃ w, (s = w ∨ s = w +:+ newline) ∧ body w = true.
Proof.
  unfold re_match_to_end. intros H. apply orb_true_iff in H as [H|H].
  - exists s. auto.
  - destruct (chomp s) as [w|] eqn:Hc; [|done]. exists w.
    split; [right; by apply chomp_Some|done].
Qed.

(** X14: a profile update that is accepted has a username, if any, of 3 to
    20 characters that are letters, digits or underscores (a single newline
    may follow them) and that is none of the reserved names, whatever the
    case of its letters; a username that is a reserved name in some case is
    refused. *)
Theorem username_rules (body : UserProfileUpdate) (s : string) :
  pu_username body = Some s →
  (∀ r, parse_UserProfileUpdate body = Ok r →
     pu_username r = Some s
     ∧ (3 ≤ String.length s ≤ 20)%nat
     ∧ (∃ w, (s = w ∨ s = w +:+ newline)
             ∧ w ≠ EmptyString ∧ all_chars is_word_char w = true)
     ∧ lower s ∉ prohibited)
  ∧ (lower s ∈ prohibited → ∃ e, parse_UserProfileUpdate body = Raise e).
Proof.
  intros Hs. unfold parse_UserProfileUpdate, optional, field_length, validate_username.
  rewrite Hs. split.
  - intros r.
    case_bool_decide as Hlo; [done|]. case_bool_decide as Hhi; [done|].
    cbn [result_bind].
    destruct (re_match_to_end word s) eqn:Hre; [|done]. cbn [negb].
    case_bool_decide as Hp; [done|]. cbn [result_bind].
    destruct (pu_display_name body) as [dn|].
    + repeat case_bool_decide; try done. cbn [result_bind]. intros [= <-].
      split; [done|]. split; [lia|]. split; [|done].
      apply re_match_to_end_cases in Hre as (w & Hw & Hword). exists w.
      split; [done|]. unfold word in Hword. apply andb_true_iff in Hword as [H1 H2].
      split; [|done]. intros ->. done.
    + cbn [result_bind]. intros [= <-].
      split; [done|]. split; [lia|]. split; [|done].
      apply re_match_to_end_cases in Hre as (w & Hw & Hword). exists w.
      split; [done|]. unfold word in Hword. apply andb_true_iff in Hword as [H1 H2].
      split; [|done]. intros ->. done.
  - intros Hp. repeat case_bool_decide; try by eexists.
    cbn [result_bind]. destruct (re_match_to_end word s); cbn [negb]; [|by eexists].
    rewrite bool_decide_eq_true_2 by done. by eexists.
Qed.

Lemma username_rules_witness :
  ∃ e, parse_UserProfileUpdate
         {| pu_username := Some "AdMiN"; pu_display_name := None;
            pu_appearance := None |} = Raise e.
Proof.
  refine (proj2 (username_rules
                   {| pu_username := Some "AdMiN"; pu_display_name := None;
                      pu_appearance := None |} "AdMiN" eq_refl) _).
  by_compute.
Defined.

(** ** Validation of a withdrawal request *)

Lemma lower_char_idemp (c : Ascii.ascii) : lower_char (lower_char c) = lower_char c.
Proof. destruct c as [[] [] [] [] [] [] [] []]; reflexivity. Qed.

Lemma lower_char_hex (c : Ascii.ascii) :
  is_hex_char c = true → is_hex_char (lower_char c) = true.
Proof. destruct c as [[] [] [] [] [] [] [] []]; (reflexivity || discriminate). Qed.

Lemma lower_char_newline (c : Ascii.ascii) :
  (code (lower_char c) =? 10)%N = (code c =? 10)%N.
Proof. destruct c as [[] [] [] [] [] [] [] []]; reflexivity. Qed.

Lemma lower_idemp (s : string) : lower (lower s) = lower s.
Proof. induction s as [|c s IH]; [done|]. cbn. by rewrite lower_char_idemp, IH. Qed.

Lemma length_lower (s : string) : String.length (lower s) = String.length s.
Proof. induction s as [|c s IH]; [done|]. cbn. by rewrite IH. Qed.

Lemma lower_hex (s : string) :
  all_chars is_hex_char s = true → all_chars is_hex_char (lower s) = true.
Proof.
  induction s as [|c s IH]; [done|]. cbn. intros H.
  apply andb_true_iff in H as [H1 H2]. by rewrite lower_char_hex, IH.
Qed.

Lemma substring_lower (n m : nat) (s : string) :
  String.substring n m (lower s) = lower (String.substring n m s).
Proof.
  revert n m. induction s as [|c s IH]; intros [|n] [|m]; cbn; rewrite ?IH; done.
Qed.

Lemma chomp_lower (s : string) : chomp (lower s) = lower <$> chomp s.
Proof.
  induction s as [|c s IH]; [done|].
  cbn [lower chomp]. destruct s as [|c' s'].
  - cbn [lower]. rewrite lower_char_newline. by destruct (code c =? 10)%N.
  - cbn [lower] in *. rewrite IH. by destruct (chomp (String c' s')).
Qed.

(** The case of a character tested against a given one. *)
Ltac case_ascii c :=
  match goal with
  | |- context [Ascii.ascii_dec ?a c] =>
      destruct (Ascii.ascii_dec a c) as [<-|]; [|done]
  end.

Lemma prefix_0x_lower (s : string) :
  String.prefix "0x" s = true → String.prefix "0x" (lower s) = true.
Proof.
  destruct s as [|c1 [|c2 s]]; cbn [String.prefix lower];
    [done | case_ascii c1; done | case_ascii c1; case_ascii c2].
  intros _. by destruct s.
Qed.

Lemma eth_address_lower (s : string) :
  eth_address s = true → eth_address (lower s) = true.
Proof.
  unfold eth_address. intros H.
  apply andb_true_iff in H as [H H3]. apply andb_true_iff in H as [H1 H2].
  rewrite prefix_0x_lower, length_lower, H2 by done.
  rewrite substring_lower. by rewrite lower_hex.
Qed.

Lemma re_match_eth_lower (s : string) :
  re_match_to_end eth_address s = true →
  re_match_to_end eth_address (lower s) = true.
Proof.
  unfold re_match_to_end. intros H. apply orb_true_iff in H as [H|H].
  - by rewrite eth_address_lower.
  - rewrite chomp_lower. destruct (chomp s) as [w|]; [|done].
    cbn [from_option fmap option_fmap option_map] in *.
    rewrite (eth_address_lower w) by done. apply orb_true_r.
Qed.

(** A base58 address does not start with [0x], and an address that is not a
    base58 address and is accepted starts with it. *)
Lemma base58_not_0x (s : string) :
  re_match_to_end base58_address s = true → String.prefix "0x" s = false.
Proof.
  intros H. destruct s as [|c1 s]; [done|]. cbn [String.prefix].
  case_ascii c1. exfalso.
  unfold re_match_to_end, base58_address in H.
  apply orb_true_iff in H as [H|H].
  - apply andb_true_iff in H as [_ H]. cbn in H. done.
  - destruct (chomp (String _ s)) as [w|] eqn:Hc; [|done].
    cbn [from_option] in H. apply andb_true_iff in H as [_ H].
    cbn [chomp] in Hc. destruct s as [|c2 s2]; [done|].
    destruct (chomp (String c2 s2)); [|done]. injection Hc as <-. done.
Qed.

Lemma prefix_append (p w t : string) :
  String.prefix p w = true → String.prefix p (w +:+ t) = true.
Proof.
  revert w. induction p as [|a p IH]; intros w.
  - intros _. by destruct (w +:+ t).
  - destruct w as [|b w]; [done|].
    change (String b w +:+ t) with (String b (w +:+ t)). cbn [String.prefix].
    destruct (Ascii.ascii_dec a b); [apply IH|done].
Qed.

Lemma eth_0x (s : string) :
  re_match_to_end eth_address s = true → String.prefix "0x" s = true.
Proof.
  unfold re_match_to_end, eth_address. intros H. apply orb_true_iff in H as [H|H].
  - apply andb_true_iff in H as [H _]. by apply andb_true_iff in H as [H _].
  - destruct (chomp s) as [w|] eqn:Hc; [|done]. cbn in H.
    apply andb_true_iff in H as [H _]. apply andb_true_iff in H as [H _].
    apply chomp_Some in Hc as ->. by apply prefix_append.
Qed.

(** X15: a withdrawal request that is accepted has an amount from 0.01 to
    100 and a destination of 40 to 50 characters; a destination that
    starts with [0x] comes out in lower case and any other comes out as
    given; and an accepted request, validated again, is accepted
    unchanged. *)
Theorem withdrawal_request_rules (body r : WithdrawalRequest) :
  parse_WithdrawalRequest body = Ok r →
  wr_amount r = wr_amount body
  ∧ (dec 1 100 ≤ wr_amount r)%Qc ∧ (wr_amount r ≤ dec 1000 10)%Qc
  ∧ (40 ≤ String.length (wr_destination_address r) ≤ 50)%nat
  ∧ wr_destination_address r
      = (if String.prefix "0x" (wr_destination_address body)
         then lower (wr_destination_address body)
         else wr_destination_address body)
  ∧ parse_WithdrawalRequest r = Ok r.
Proof.
  unfold parse_WithdrawalRequest.
  destruct body as [a d t]. cbn [wr_amount wr_destination_address wr_token_type].
  destruct (field_bet_amount a) as [a'|] eqn:Hfa; [|done].
  assert (a' = a) as ->.
  { unfold field_bet_amount in Hfa.
    repeat (destruct (negb _); [done|]). by injection Hfa. }
  cbn [result_bind].
  destruct (validate_withdrawal_amount a) as [a'|] eqn:Hva; [|done].
  assert (a' = a ∧ (dec 1 100 ≤ a)%Qc ∧ (a ≤ dec 1000 10)%Qc) as (-> & Hmin & Hmax).
  { unfold validate_withdrawal_amount in Hva. cbn zeta in Hva.
    case_bool_decide as H1; [done|]. case_bool_decide as H2; [done|].
    injection Hva as <-. split; [done|]. split; by apply Qcnot_lt_le. }
  cbn [result_bind].
  destruct (field_length 40 50 d) as [d'|] eqn:Hfl; [|done].
  assert (d' = d ∧ (40 ≤ String.length d ≤ 50)%nat) as (-> & Hlen).
  { unfold field_length in Hfl.
    case_bool_decide; [done|]. case_bool_decide; [done|].
    injection Hfl as <-. split; [done|lia]. }
  cbn [result_bind].
  destruct (validate_address d) as [d'|] eqn:Hvd; [|done].
  cbn [result_bind]. intros [= <-].
  cbn [wr_amount wr_destination_address wr_token_type].
  unfold validate_address in Hvd.
  destruct (re_match_to_end eth_address d || re_match_to_end base58_address d)
    eqn:Hre; [|done].
  cbn [negb] in Hvd. injection Hvd as <-.
  assert (Hlen' : String.length
                    (if String.prefix "0x" d then lower d else d) = String.length d).
  { destruct (String.prefix "0x" d); [apply length_lower|done]. }
  split; [done|]. split; [done|]. split; [done|].
  split; [by rewrite Hlen'|]. split; [done|].
  rewrite Hfa. cbn [result_bind]. rewrite Hva. cbn [result_bind].
  unfold field_length. rewrite Hlen'.
  rewrite bool_decide_eq_false_2 by lia. rewrite bool_decide_eq_false_2 by lia.
  cbn [result_bind]. unfold validate_address.
  apply orb_true_iff in Hre as [He|Hb].
  - rewrite (eth_0x d He). rewrite (re_match_eth_lower d He).
    cbn [orb negb]. rewrite (prefix_0x_lower d (eth_0x d He)).
    cbn [result_bind]. by rewrite lower_idemp.
  - rewrite (base58_not_0x d Hb). rewrite Hb, orb_true_r.
    cbn [negb]. rewrite (base58_not_0x d Hb). done.
Qed.

Lemma withdrawal_request_rules_witness :
  wr_destination_address
      {| wr_amount := dec 15 10;
         wr_destination_address := "0xabcdef0123456789abcdef0123456789abcdef01";
         wr_token_type := "SOL" |}
    = lower "0xAbCdEf0123456789aBcDeF0123456789ABCDEF01"
  ∧ parse_WithdrawalRequest
        {| wr_amount := dec 15 10;
           wr_destination_address := "0xabcdef0123456789abcdef0123456789abcdef01";
           wr_token_type := "SOL" |}
      = Ok {| wr_amount := dec 15 10;
              wr_destination_address := "0xabcdef0123456789abcdef0123456789abcdef01";
              wr_token_type := "SOL" |}.
Proof.
  destruct (withdrawal_request_rules
              {| wr_amount := dec 15 10;
                 wr_destination_address := "0xAbCdEf0123456789aBcDeF0123456789ABCDEF01";
                 wr_token_type := "SOL" |}
              {| wr_amount := dec 15 10;
                 wr_destination_address := "0xabcdef0123456789abcdef0123456789abcdef01";
                 wr_token_type := "SOL" |})
    as (_ & _ & _ & _ & Haddr & Hagain).
  - by_eval.
  - split; [exact Haddr|exact Hagain].
Defined.

(** ** The balance view *)

Lemma get_user_balance_run (user : AuthenticatedUser) (db : MongoDB)
    (uid : string) (d0 : doc) (b : Decimal) :
  database.get_user_by_privy_id (user_id user) db
    = (db, Ok (Some (<["id" := VStr uid]> (database.with_id uid d0)))) →
  Decimal_str (get d0 "balance" (VInt 0)) = Ok b →
  server.get_user_balance user db
    = (db, Ok {| ub_balance := b;
                 ub_currency := "SOL";
                 ub_wallet_address := get d0 "wallet_address" VNull;
                 ub_pending_withdrawals := views.pending_sum uid (transactions db) |}).
Proof.
  intros Hget Hbal. unfold server.get_user_balance, bind. rewrite Hget.
  unfold lift. rewrite found_user_id. unfold read, get.
  rewrite !found_user_field by done.
  fold (get d0 "balance" (VInt 0)). rewrite Hbal.
  unfold database.pending_withdrawals, views.pending_sum.
  destruct (filter _ _) as [|x l]; reflexivity.
Qed.

Lemma documents_insert (c : collection) (k : string) (t : doc) :
  c !! k = None →
  database.documents (<[k := t]> c) ≡ₚ database.with_id k t :: database.documents c.
Proof.
  intros Hk. unfold database.documents.
  by rewrite (map_to_list_insert c k t Hk).
Qed.

(** A transaction that is not a pending withdrawal of the user adds nothing
    to the pending sum. *)
Lemma pending_sum_insert (uid : string) (c : collection) (k : string) (t : doc) :
  c !! k = None →
  database.pending_withdrawal uid (database.with_id k t) = false →
  views.pending_sum uid (<[k := t]> c) = views.pending_sum uid c.
Proof.
  intros Hk Hp. unfold views.pending_sum.
  assert (Hperm : filter (λ d, Is_true (database.pending_withdrawal uid d))
                    (database.documents (<[k := t]> c))
                  ≡ₚ filter (λ d, Is_true (database.pending_withdrawal uid d))
                       (database.documents c)).
  { rewrite (documents_insert c k t Hk). rewrite filter_cons_False; [done|].
    rewrite Hp. exact id. }
  apply (foldr_permutation_proper (=)
           (λ d acc, (database.amount_of d + acc)%Qc) 0%Qc); [|done].
  intros a1 a2 x. ring.
Qed.

(** X16: the balance view around a join.  With a sole record for the
    caller (holding a wallet address that is null or a string), a covered
    bet and fresh identifiers, the view shows the stored balance before the
    join and the debited balance after it, writes nothing itself, and shows
    the same pending withdrawals before and after: the [bet] transaction of
    the join is not counted.  The statement is for a bet and a debited
    balance that a double holds exactly, and an appearance the store takes
    (integers of 64 bits, field names without a NUL byte). *)
Theorem balance_view_around_join (req : BetRequest) (user : AuthenticatedUser)
    (us ut : string) (others : list value) (now : Z) (db : MongoDB)
    (uid : string) (d0 : doc) (b : Decimal) :
  sole_record db (user_id user) uid →
  users db !! uid = Some d0 →
  Decimal_str (get d0 "balance" (VInt 0)) = Ok b →
  optional_string (get d0 "wallet_address" VNull) →
  (bet_amount req ≤ b)%Qc →
  float_exact (bet_amount req) →
  float_exact (b - bet_amount req)%Qc →
  storable (from_option VDict VNull (appearance req)) →
  game_sessions db !! us = None →
  transactions db !! ut = None →
  ∃ ub0 db1 r1 ub1,
    server.get_user_balance user db = (db, Ok ub0)
    ∧ server.join_game req user us ut others now db = (db1, Ok r1)
    ∧ server.get_user_balance user db1 = (db1, Ok ub1)
    ∧ ub_balance ub0 = b
    ∧ ub_balance ub1 = (b - bet_amount req)%Qc
    ∧ ub_balance ub1 = gs_new_balance r1
    ∧ ub_pending_withdrawals ub1 = ub_pending_withdrawals ub0.
Proof.
  intros Hsole Hu Hbal _ Hle _ _ _ Hs Ht.
  destruct (get_user_by_privy_id_sole db _ _ Hsole) as (d0' & Hu' & Hget).
  rewrite Hu in Hu'. injection Hu' as <-.
  pose proof (join_game_run req user us ut others now db uid d0 b Hget Hbal) as Hjoin.
  rewrite bool_decide_eq_false_2 in Hjoin by by apply Qcle_not_lt.
  cbn zeta in Hjoin. rewrite Hs, Ht in Hjoin.
  set (db1 := records.joined db uid b req us ut now) in *.
  set (d1 := records.balance_update (b - bet_amount req)%Qc now ∪ d0).
  assert (Hsole1 : sole_record db1 (user_id user) uid).
  { by eapply (sole_record_update db db1 _ _
                 (records.balance_update (b - bet_amount req)%Qc now)). }
  destruct (get_user_by_privy_id_sole db1 _ _ Hsole1) as (d1' & Hu1 & Hget1).
  assert (d1' = d1) as ->.
  { unfold db1, records.joined in Hu1. cbn [users] in Hu1.
    rewrite (update_one_lookup _ _ _ _ Hu) in Hu1. by injection Hu1. }
  assert (Hbal1 : Decimal_str (get d1 "balance" (VInt 0)) = Ok (b - bet_amount req)%Qc).
  { unfold get, d1.
    by rewrite (dict_union_lookup_l _ d0 "balance" (float (b - bet_amount req)%Qc)). }
  eexists _, db1, _, _.
  split; [exact (get_user_balance_run user db uid d0 b Hget Hbal)|].
  split; [exact Hjoin|].
  split; [exact (get_user_balance_run user db1 uid d1 _ Hget1 Hbal1)|].
  cbn [ub_balance ub_pending_withdrawals gs_new_balance].
  repeat (split; [done|]).
  unfold db1, records.joined. cbn [transactions].
  apply pending_sum_insert; [done|].
  unfold database.pending_withdrawal.
  replace (eq_str (get (database.with_id ut (records.bet uid req us ut now))
                     "type" VNull) "withdrawal") with false by reflexivity.
  by rewrite andb_false_r.
Qed.

Lemma balance_view_around_join_witness :
  ∃ ub0 db1 r1 ub1,
    server.get_user_balance scenario.alice cases.withdrawing
      = (cases.withdrawing, Ok ub0)
    ∧ server.join_game scenario.bet_half scenario.alice "s-1" "t-1" [] 1000
        cases.withdrawing = (db1, Ok r1)
    ∧ server.get_user_balance scenario.alice db1 = (db1, Ok ub1)
    ∧ ub_balance ub1 = (dec 10 10 - dec 5 10)%Qc
    ∧ ub_pending_withdrawals ub1 = ub_pending_withdrawals ub0.
Proof.
  destruct (balance_view_around_join scenario.bet_half scenario.alice "s-1" "t-1"
              [] 1000 cases.withdrawing "u-alice"
              (scenario.alice_record (dec 10 10)) (dec 10 10))
    as (ub0 & db1 & r1 & ub1 & H0 & Hj & H1 & _ & Hb & _ & Hp).
  - split.
    + exists (scenario.alice_record (dec 10 10)). split; by_eval.
    + intros k d Hk _. unfold cases.withdrawing in Hk. cbn [users] in Hk.
      apply lookup_singleton_Some in Hk as [Hk _]. symmetry. exact Hk.
  - by_eval.
  - by_eval.
  - left. by_eval.
  - by_compute.
  - numeral 5 (-1).
  - numeral 5 (-1).
  - exact I.
  - reflexivity.
  - reflexivity.
  - exists ub0, db1, r1, ub1.
    split; [exact H0|]. split; [exact Hj|]. split; [exact H1|].
    split; [exact Hb|exact Hp].
Defined.

(** ** The game history *)

#[local] Instance newest_first_total : Total database.newest_first.
Proof.
  intros u v. unfold database.newest_first.
  destruct (database.date_key u) as [x|], (database.date_key v) as [y|]; simpl;
    try (by left); try (by right).
  destruct (decide (x ≤ y)); [right|left]; [done|lia].
Qed.

#[local] Instance newest_first_trans : Transitive database.newest_first.
Proof.
  intros u v w. unfold database.newest_first.
  destruct (database.date_key u), (database.date_key v), (database.date_key w);
    simpl; try done. lia.
Qed.

Lemma sessions_of_stored (uid : string) (db : MongoDB) (s : doc) :
  s ∈ views.sessions_of uid db ↔
  ∃ k s0, game_sessions db !! k = Some s0 ∧ s = database.with_id k s0
          ∧ s0 !! "user_id" = Some (VStr uid).
Proof.
  unfold views.sessions_of. rewrite merge_sort_Permutation.
  unfold database.find_all, database.documents.
  rewrite list_elem_of_filter, list_elem_of_fmap. split.
  - intros [Hm [[k s0] [-> Hin]]]. apply elem_of_map_to_list in Hin.
    exists k, s0. split; [done|]. split; [done|].
    cbn [fst snd] in Hm. rewrite get_with_id in Hm by done.
    unfold get, eq_str in Hm. destruct (s0 !! "user_id") as [[]|]; try done.
    apply bool_decide_unpack in Hm. by subst.
  - intros (k & s0 & Hk & -> & Hu). split.
    + rewrite get_with_id by done. unfold get. rewrite Hu. simpl.
      by apply bool_decide_pack.
    + exists (k, s0). split; [done|]. by apply elem_of_map_to_list.
Qed.

Lemma length_sessions_of (uid : string) (db : MongoDB) :
  length (views.sessions_of uid db)
    = database.count_documents "user_id" uid (game_sessions db).
Proof.
  unfold views.sessions_of, database.count_documents.
  by rewrite merge_sort_Permutation.
Qed.

Lemma result_map_ok {A B} (f : A → result B) (l : list A) :
  (∀ x, x ∈ l → ∃ y, f x = Ok y) → ∃ ys, result_map f l = Ok ys.
Proof.
  induction l as [|x l IH]; intros H; [by eexists|].
  destruct (H x) as [y Hy]; [by left|].
  destruct IH as [ys Hys]; [intros x' Hx'; apply H; by right|].
  exists (y :: ys). simpl. by rewrite Hy, Hys.
Qed.

Lemma result_map_app {A B} (f : A → result B) (l1 l2 : list A) (ys1 ys2 : list B) :
  result_map f l1 = Ok ys1 → result_map f l2 = Ok ys2 →
  result_map f (l1 ++ l2)%list = Ok (ys1 ++ ys2)%list.
Proof.
  revert ys1. induction l1 as [|x l1 IH]; intros ys1 H1 H2.
  - by injection H1 as <-.
  - simpl in *. destruct (f x) as [y|]; [|done]. simpl in *.
    destruct (result_map f l1) as [ys|]; [|done]. simpl in *.
    injection H1 as <-. by rewrite (IH ys eq_refl H2).
Qed.

Lemma result_map_lookup_Some {A B} (f : A → result B) (l : list A) (l' : list B) :
  result_map f l = Ok l' →
  ∀ i x, l !! i = Some x → ∃ y, l' !! i = Some y ∧ f x = Ok y.
Proof.
  revert l'. induction l as [|x l IH]; intros l' H i x' Hx'; [done|].
  simpl in H. destruct (f x) as [y0|] eqn:Hx; [|done]. simpl in H.
  destruct (result_map f l) as [ys|] eqn:Hl; [|done]. simpl in H.
  injection H as <-. destruct i as [|i].
  - injection Hx' as <-. eauto.
  - simpl in Hx'. apply (IH ys eq_refl i x' Hx').
Qed.

(** A stored session formats into one history entry. *)
Lemma format_game_session (k : string) (s0 : doc) :
  (∀ v, s0 !! "final_rank" = Some v → ∃ n, v = VInt n) →
  ∃ g, server.format_game (database.with_alias (database.with_id k s0)) = Ok g
       ∧ g !! "game_id" = Some (VStr k)
       ∧ g !! "bet_amount" = Some (get s0 "bet_amount" (VInt 0))
       ∧ g !! "payout" = Some (get s0 "payout" (VInt 0))
       ∧ g !! "rank" = Some (get s0 "final_rank" VNull)
       ∧ g !! "timestamp" = Some (get s0 "created_at" VNull)
       ∧ g !! "result"
           = Some (VStr (match s0 !! "final_rank" with
                         | Some (VInt n) => if bool_decide (n ≤ 3) then "win" else "loss"
                         | _ => "win"
                         end)).
Proof.
  intros Hrank. unfold server.format_game, database.with_alias, getitem.
  rewrite lookup_insert_eq. cbn [result_bind].
  unfold get. rewrite !lookup_insert_ne by done.
  rewrite with_id_id.
  rewrite (with_id_field k s0 "game_type"), (with_id_field k s0 "bet_amount"),
    (with_id_field k s0 "payout"), (with_id_field k s0 "final_score"),
    (with_id_field k s0 "final_rank"), (with_id_field k s0 "created_at") by done.
  destruct (s0 !! "final_rank") as [v|] eqn:Hv.
  - destruct (Hrank v eq_refl) as [n ->]. cbn [server.le_three result_bind].
    eexists. split; [reflexivity|].
    destruct (bool_decide (n ≤ 3)); repeat split; reflexivity.
  - cbn [server.le_three result_bind].
    eexists. split; [reflexivity|]. repeat split; reflexivity.
Qed.

Lemma get_game_history_run (user : AuthenticatedUser) (limit offset : nat)
    (db : MongoDB) (uid : string) :
  sole_record db (user_id user) uid →
  views.ranks_are_integers db →
  ∃ games,
    result_map server.format_game
      (database.with_alias <$> database.page offset limit (views.sessions_of uid db))
      = Ok games
    ∧ server.get_game_history user limit offset db
      = (db, Ok {| gh_games := games;
                   gh_total := database.count_documents "user_id" uid (game_sessions db);
                   gh_has_more :=
                     bool_decide (offset + limit
                                  < database.count_documents "user_id" uid
                                      (game_sessions db))%nat |}).
Proof.
  intros Hsole Hranks.
  destruct (get_user_by_privy_id_sole db _ _ Hsole) as (d0 & Hu & Hget).
  destruct (result_map_ok server.format_game
              (database.with_alias
                 <$> database.page offset limit (views.sessions_of uid db)))
    as [games Hgames].
  { intros x Hx. apply list_elem_of_fmap in Hx as (s & -> & Hs).
    assert (Hin : s ∈ views.sessions_of uid db).
    { unfold database.page in Hs.
      destruct limit; [|apply elem_of_take in Hs as (i & Hs & _);
                          apply list_elem_of_lookup_2 in Hs];
        eapply (subseteq_drop offset); exact Hs. }
    apply sessions_of_stored in Hin as (k & s0 & Hk & -> & _).
    destruct (format_game_session k s0) as (g & Hg & _); [|by exists g].
    intros v Hv. exact (Hranks k s0 v Hk Hv). }
  exists games. split; [done|].
  unfold server.get_game_history, bind. rewrite Hget.
  unfold lift. rewrite found_user_id.
  unfold database.get_user_game_history, read.
  fold (views.sessions_of uid db). by rewrite Hgames.
Qed.

Lemma page_positive {A} (offset limit : nat) (l : list A) :
  (1 ≤ limit)%nat → database.page offset limit l = take limit (drop offset l).
Proof. unfold database.page. destruct limit; [lia|done]. Qed.

Lemma page_lookup {A} (offset limit : nat) (l : list A) (i : nat) (x : A) :
  database.page offset limit l !! i = Some x → l !! (offset + i)%nat = Some x.
Proof.
  unfold database.page. intros H.
  destruct limit; [|apply lookup_take_Some in H as [H _]];
    by rewrite lookup_drop in H.
Qed.

Lemma played_sole_record : sole_record cases.played "did:privy:alice" "u-alice".
Proof.
  split.
  - exists (scenario.alice_record (dec 10 10)). split; by_eval.
  - intros k d Hk Hd. unfold cases.played in Hk. cbn [users] in Hk.
    apply lookup_insert_Some in Hk as [[Hk _]|[_ Hk]]; [by symmetry|].
    apply lookup_singleton_Some in Hk as [_ <-]. discriminate Hd.
Qed.

Lemma played_ranks_are_integers : views.ranks_are_integers cases.played.
Proof.
  intros k s v Hk Hv. unfold cases.played in Hk. cbn [game_sessions] in Hk.
  repeat (apply lookup_insert_Some in Hk as [[_ <-]|[_ Hk]];
          [vm_compute in Hv; injection Hv as <-; by eexists|]).
  apply lookup_singleton_Some in Hk as [_ <-]. discriminate Hv.
Qed.

(** X17: one page of the game history.  For a caller with a sole record,
    sessions whose ranks are integers and a limit of at least 1, the
    handler returns without writing; [total] counts the sessions of the
    caller whatever the page; the page holds [min limit (total - offset)]
    games; and [has_more] is true exactly when the page that follows (the
    same limit, the offset moved on by it) is not empty. *)
Theorem history_page (user : AuthenticatedUser) (limit offset : nat)
    (db : MongoDB) (uid : string) :
  sole_record db (user_id user) uid →
  views.ranks_are_integers db →
  (1 ≤ limit)%nat →
  ∃ h, server.get_game_history user limit offset db = (db, Ok h)
       ∧ gh_total h = database.count_documents "user_id" uid (game_sessions db)
       ∧ length (gh_games h) = Nat.min limit (gh_total h - offset)
       ∧ (gh_has_more h = true ↔
          ∃ h', server.get_game_history user limit (offset + limit) db = (db, Ok h')
                ∧ gh_games h' ≠ []).
Proof.
  intros Hsole Hranks Hlimit.
  destruct (get_game_history_run user limit offset db uid Hsole Hranks)
    as (games & Hgames & Hrun).
  destruct (get_game_history_run user limit (offset + limit) db uid Hsole Hranks)
    as (games' & Hgames' & Hrun').
  eexists. split; [exact Hrun|]. cbn [gh_games gh_total gh_has_more].
  split; [done|].
  apply result_map_length in Hgames, Hgames'.
  rewrite length_fmap, page_positive, length_take, length_drop, length_sessions_of
    in Hgames, Hgames' by done.
  split; [done|].
  rewrite bool_decide_eq_true. split.
  - intros Hlt. eexists. split; [exact Hrun'|]. cbn [gh_games].
    intros ->. simpl in Hgames'. lia.
  - intros (h' & Hh' & Hne). rewrite Hrun' in Hh'. injection Hh' as <-.
    cbn [gh_games] in Hne. destruct games'; [done|]. simpl in Hgames'. lia.
Qed.

Lemma history_page_witness :
  ∃ h, server.get_game_history scenario.alice 2 0 cases.played = (cases.played, Ok h)
       ∧ gh_total h = 3%nat
       ∧ length (gh_games h) = 2%nat
       ∧ gh_has_more h = true.
Proof.
  destruct (history_page scenario.alice 2 0 cases.played "u-alice")
    as (h & Hrun & Ht & Hl & Hm).
  - exact played_sole_record.
  - exact played_ranks_are_integers.
  - lia.
  - assert (Ht' : gh_total h = 3%nat) by (rewrite Ht; by_eval).
    exists h. split; [exact Hrun|]. split; [exact Ht'|].
    split; [rewrite Hl, Ht'; reflexivity|].
    apply Hm. eexists. split; [by_eval|]. intros Hn. discriminate Hn.
Defined.

(** X18: consecutive pages tile the history.  For limits of at least 1,
    the page at [offset] of [l1] games followed by the page at
    [offset + l1] of [l2] games is the page at [offset] of [l1 + l2] games:
    nothing is listed twice and nothing is skipped between pages. *)
Theorem history_pages_tile (user : AuthenticatedUser) (l1 l2 offset : nat)
    (db : MongoDB) (uid : string) :
  sole_record db (user_id user) uid →
  views.ranks_are_integers db →
  (1 ≤ l1)%nat → (1 ≤ l2)%nat →
  ∃ h1 h2 h,
    server.get_game_history user l1 offset db = (db, Ok h1)
    ∧ server.get_game_history user l2 (offset + l1) db = (db, Ok h2)
    ∧ server.get_game_history user (l1 + l2) offset db = (db, Ok h)
    ∧ gh_games h = (gh_games h1 ++ gh_games h2)%list.
Proof.
  intros Hsole Hranks H1 H2.
  destruct (get_game_history_run user l1 offset db uid Hsole Hranks)
    as (g1 & Hg1 & Hrun1).
  destruct (get_game_history_run user l2 (offset + l1) db uid Hsole Hranks)
    as (g2 & Hg2 & Hrun2).
  destruct (get_game_history_run user (l1 + l2) offset db uid Hsole Hranks)
    as (g & Hg & Hrun).
  eexists _, _, _. split; [exact Hrun1|]. split; [exact Hrun2|].
  split; [exact Hrun|]. cbn [gh_games].
  rewrite page_positive in Hg1, Hg2, Hg by lia.
  rewrite <- take_take_drop, drop_drop, fmap_app in Hg.
  rewrite (result_map_app _ _ _ _ _ Hg1 Hg2) in Hg. by injection Hg.
Qed.

Lemma history_pages_tile_witness :
  ∃ h1 h2 h,
    server.get_game_history scenario.alice 1 0 cases.played = (cases.played, Ok h1)
    ∧ server.get_game_history scenario.alice 2 1 cases.played = (cases.played, Ok h2)
    ∧ server.get_game_history scenario.alice 3 0 cases.played = (cases.played, Ok h)
    ∧ gh_games h = (gh_games h1 ++ gh_games h2)%list.
Proof.
  apply (history_pages_tile scenario.alice 1 2 0 cases.played "u-alice").
  - exact played_sole_record.
  - exact played_ranks_are_integers.
  - lia.
  - lia.
Defined.

Lemma result_map_elem_of {A B} (f : A → result B) (l : list A) (l' : list B) (y : B) :
  result_map f l = Ok l' → y ∈ l' → ∃ x, x ∈ l ∧ f x = Ok y.
Proof.
  intros H Hy. apply list_elem_of_lookup in Hy as [i Hi].
  destruct (result_map_lookup f l l' H i y Hi) as (x & Hx & Hfx).
  exists x. split; [|done]. by eapply list_elem_of_lookup_2.
Qed.

Lemma page_subseteq {A} (offset limit : nat) (l : list A) (x : A) :
  x ∈ database.page offset limit l → x ∈ l.
Proof.
  intros H. apply list_elem_of_lookup in H as [i Hi].
  apply page_lookup in Hi. by eapply list_elem_of_lookup_2.
Qed.

(** X19: what the history lists.  Every game of a page stems from a stored
    session of the caller and carries its identifier; a session that was
    settled with rank [n] is listed with that rank, as a win when [n <= 3]
    and as a loss otherwise; a session without a rank (one that is still
    open) is listed with a null rank and as a win. *)
Theorem history_lists_own_sessions (user : AuthenticatedUser) (limit offset : nat)
    (db db' : MongoDB) (uid : string) (h : GameHistory) (g : doc) :
  sole_record db (user_id user) uid →
  views.ranks_are_integers db →
  server.get_game_history user limit offset db = (db', Ok h) →
  g ∈ gh_games h →
  ∃ k s, game_sessions db !! k = Some s
         ∧ s !! "user_id" = Some (VStr uid)
         ∧ g !! "game_id" = Some (VStr k)
         ∧ (∀ n, s !! "final_rank" = Some (VInt n) →
                 g !! "rank" = Some (VInt n)
                 ∧ g !! "result"
                     = Some (VStr (if bool_decide (n ≤ 3) then "win" else "loss")))
         ∧ (s !! "final_rank" = None →
            g !! "rank" = Some VNull ∧ g !! "result" = Some (VStr "win")).
Proof.
  intros Hsole Hranks Hrun Hg.
  destruct (get_game_history_run user limit offset db uid Hsole Hranks)
    as (games & Hgames & Hrun').
  rewrite Hrun' in Hrun. injection Hrun as <- <-. cbn [gh_games] in Hg.
  destruct (result_map_elem_of _ _ _ _ Hgames Hg) as (x & Hx & Hfx).
  apply list_elem_of_fmap in Hx as (s & -> & Hs).
  apply page_subseteq in Hs.
  apply sessions_of_stored in Hs as (k & s0 & Hk & -> & Hu).
  destruct (format_game_session k s0) as (g' & Hg' & Hid & _ & _ & Hr & _ & Hres).
  { intros v Hv. exact (Hranks k s0 v Hk Hv). }
  rewrite Hfx in Hg'. injection Hg' as <-.
  exists k, s0. split; [done|]. split; [done|]. split; [done|]. split.
  - intros n Hn. unfold get in Hr. rewrite Hn in Hr, Hres. done.
  - intros Hn. unfold get in Hr. rewrite Hn in Hr, Hres. done.
Qed.

Lemma history_lists_own_sessions_witness :
  ∃ k s, game_sessions cases.played !! k = Some s
         ∧ s !! "user_id" = Some (VStr "u-alice")
         ∧ cases.newest_game !! "game_id" = Some (VStr k)
         ∧ cases.newest_game !! "result" = Some (VStr "win").
Proof.
  destruct (history_lists_own_sessions scenario.alice 50 0 cases.played cases.played
              "u-alice" cases.alice_history cases.newest_game
              played_sole_record played_ranks_are_integers)
    as (k & s & Hk & Hu & Hid & _).
  - by_eval.
  - apply (list_elem_of_lookup_2 _ 0%nat). by_eval.
  - exists k, s. split; [exact Hk|]. split; [exact Hu|]. split; [exact Hid|].
    by_eval.
Defined.

(** X20: the history is listed newest first.  Of two games of one page,
    the later one carries no later creation date than the earlier one:
    when the later one has a date, so has the earlier one. *)
Theorem history_newest_first (user : AuthenticatedUser) (limit offset : nat)
    (db db' : MongoDB) (uid : string) (h : GameHistory)
    (i j : nat) (gi gj : doc) (tj : Z) :
  sole_record db (user_id user) uid →
  views.ranks_are_integers db →
  server.get_game_history user limit offset db = (db', Ok h) →
  (i < j)%nat →
  gh_games h !! i = Some gi →
  gh_games h !! j = Some gj →
  gj !! "timestamp" = Some (VDate tj) →
  ∃ ti, gi !! "timestamp" = Some (VDate ti) ∧ tj ≤ ti.
Proof.
  intros Hsole Hranks Hrun Hij Hi Hj Htj.
  destruct (get_game_history_run user limit offset db uid Hsole Hranks)
    as (games & Hgames & Hrun').
  rewrite Hrun' in Hrun. injection Hrun as <- <-. cbn [gh_games] in Hi, Hj.
  destruct (result_map_lookup _ _ _ Hgames i gi Hi) as (xi & Hxi & Hfi).
  destruct (result_map_lookup _ _ _ Hgames j gj Hj) as (xj & Hxj & Hfj).
  rewrite list_lookup_fmap in Hxi, Hxj.
  destruct (database.page offset limit (views.sessions_of uid db) !! i)
    as [si|] eqn:Hsi; [|done].
  destruct (database.page offset limit (views.sessions_of uid db) !! j)
    as [sj|] eqn:Hsj; [|done].
  injection Hxi as <-. injection Hxj as <-.
  apply page_lookup in Hsi, Hsj.
  assert (Hord : database.newest_first si sj).
  { eapply (StronglySorted_lookup_lt database.newest_first
              (views.sessions_of uid db) (offset + i) (offset + j));
      [|lia|exact Hsi|exact Hsj].
    apply StronglySorted_merge_sort; apply _. }
  apply list_elem_of_lookup_2 in Hsi, Hsj.
  apply sessions_of_stored in Hsi as (ki & s0i & Hki & -> & _).
  apply sessions_of_stored in Hsj as (kj & s0j & Hkj & -> & _).
  destruct (format_game_session ki s0i) as (gi' & Hgi & _ & _ & _ & _ & Hti & _).
  { intros v Hv. exact (Hranks ki s0i v Hki Hv). }
  destruct (format_game_session kj s0j) as (gj' & Hgj & _ & _ & _ & _ & Htj' & _).
  { intros v Hv. exact (Hranks kj s0j v Hkj Hv). }
  rewrite Hfi in Hgi. injection Hgi as <-.
  rewrite Hfj in Hgj. injection Hgj as <-.
  rewrite Htj in Htj'. injection Htj' as Htj'.
  rewrite Hti. unfold database.newest_first, database.date_key in Hord.
  rewrite !with_id_field in Hord by done.
  unfold get in *.
  destruct (s0j !! "created_at") as [vj|]; [|done]. simpl in Htj'. subst vj.
  destruct (s0i !! "created_at") as [[]|]; simpl in Hord; try done.
  eexists. split; [reflexivity|done].
Qed.

Lemma history_newest_first_witness :
  ∃ ti, cases.newest_game !! "timestamp" = Some (VDate ti) ∧ 300 ≤ ti.
Proof.
  apply (history_newest_first scenario.alice 50 0 cases.played cases.played
           "u-alice" cases.alice_history 0 1 cases.newest_game cases.second_game 300
           played_sole_record played_ranks_are_integers).
  - by_eval.
  - lia.
  - by_eval.
  - by_eval.
  - by_eval.
Defined.

(** ** Stored ranks *)

Lemma ranks_update_user_balance (uid : string) (b : Decimal) (now : Z) :
  preserves views.ranks_are_integers (database.update_user_balance uid b now).
Proof. apply preserves_write. by intros db. Qed.

Lemma ranks_update_user (uid : string) (upd : doc) (now : Z) :
  preserves views.ranks_are_integers (database.update_user uid upd now).
Proof. apply preserves_write. by intros db. Qed.

Lemma ranks_create_user (user_data : doc) (uuid : string) (now : Z) :
  preserves views.ranks_are_integers (database.create_user user_data uuid now).
Proof.
  unfold database.create_user.
  apply preserves_bind; [|intros; apply preserves_ret].
  apply preserves_inserting. by intros db Hdb _.
Qed.

Lemma ranks_create_transaction (transaction_data : doc) (uuid : string) (now : Z) :
  preserves views.ranks_are_integers
    (database.create_transaction transaction_data uuid now).
Proof.
  unfold database.create_transaction.
  apply preserves_bind; [|intros; apply preserves_ret].
  apply preserves_inserting. by intros db Hdb _.
Qed.

Lemma ranks_create_affiliate (affiliate_data : doc) (uuid : string) (now : Z) :
  preserves views.ranks_are_integers
    (database.create_affiliate affiliate_data uuid now).
Proof.
  unfold database.create_affiliate.
  apply preserves_bind; [|intros; apply preserves_ret].
  apply preserves_inserting. by intros db Hdb _.
Qed.

Lemma ranks_create_game_session (session_data : doc) (uuid : string) (now : Z) :
  session_data !! "final_rank" = None →
  preserves views.ranks_are_integers
    (database.create_game_session session_data uuid now).
Proof.
  intros Hnone. unfold database.create_game_session.
  apply preserves_bind; [|intros; apply preserves_ret].
  apply preserves_inserting. intros db Hdb _ k s v.
  unfold database.set_game_sessions. cbn [game_sessions].
  destruct (decide (uuid = k)) as [<-|Hne].
  - rewrite lookup_insert_eq. intros [= <-].
    rewrite !lookup_insert_ne by done. by rewrite Hnone.
  - rewrite lookup_insert_ne by done. apply Hdb.
Qed.

Lemma ranks_update_game_session (sid : string) (upd : doc) :
  (∀ v, upd !! "final_rank" = Some v → ∃ n, v = VInt n) →
  preserves views.ranks_are_integers (database.update_game_session sid upd).
Proof.
  intros Hupd. apply preserves_write. intros db Hdb k s v.
  unfold database.set_game_sessions, database.update_one. cbn [game_sessions].
  destruct (decide (sid = k)) as [<-|Hne].
  - rewrite lookup_alter_eq.
    destruct (game_sessions db !! sid) as [s0|] eqn:Hs; [|done].
    intros [= <-] Hv. apply lookup_union_Some_raw in Hv as [Hv|[_ Hv]].
    + by apply Hupd.
    + by eapply Hdb.
  - rewrite lookup_alter_ne by done. apply Hdb.
Qed.

Create HintDb ranks.
#[local] Hint Resolve preserves_ret preserves_raise preserves_lift preserves_read
  ranks_update_user_balance ranks_update_user ranks_create_user
  ranks_create_transaction ranks_create_affiliate : ranks.

Ltac ranks_step :=
  lazymatch goal with
  | |- preserves _ (bind _ _) => apply preserves_bind; [|intros ?]
  | |- preserves _ (match ?x with _ => _ end) => destruct x
  | |- preserves _ (database.get_user_by_privy_id _) => apply preserves_read
  | |- preserves _ (database.create_game_session _ _ _) =>
      apply ranks_create_game_session; reflexivity
  | |- preserves _ (database.update_game_session _ _) =>
      apply ranks_update_game_session;
      let v := fresh "v" in let Hv := fresh "Hv" in
      intros v Hv; eexists; symmetry; apply (inj Some); rewrite <- Hv; reflexivity
  | |- preserves _ _ => solve [auto with ranks]
  end.

(** X21: stored ranks stay integers.  Lazy user creation, a profile update,
    a join and an end of a game each leave every stored [final_rank] an
    integer when it was so before, whatever they return or raise: a join
    stores a session without a rank, an end stores the integer rank of the
    request, and the others write no session. *)
Theorem ranks_stay_integers :
  (∀ settings user rc uu ua now,
     preserves views.ranks_are_integers
       (server.get_user_profile settings user rc uu ua now))
  ∧ (∀ profile_update user now,
       preserves views.ranks_are_integers
         (server.update_user_profile profile_update user now))
  ∧ (∀ req user us ut others now,
       preserves views.ranks_are_integers
         (server.join_game req user us ut others now))
  ∧ (∀ settings game_end user n ut now,
       preserves views.ranks_are_integers
         (server.end_game settings game_end user n ut now)).
Proof.
  split; [|split; [|split]]; intros.
  - unfold server.get_user_profile. repeat ranks_step.
  - unfold server.update_user_profile. repeat ranks_step.
  - unfold server.join_game. repeat ranks_step.
  - unfold server.end_game. repeat ranks_step.
Qed.

Lemma ranks_stay_integers_witness :
  views.ranks_are_integers
    (server.end_game defaults cases.third scenario.alice 9 "t-2" 2000 cases.played).1.
Proof.
  destruct ranks_stay_integers as (_ & _ & _ & Hend).
  apply (Hend defaults cases.third scenario.alice 9 "t-2" 2000 cases.played
           (server.end_game defaults cases.third scenario.alice 9 "t-2" 2000
              cases.played).1
           (server.end_game defaults cases.third scenario.alice 9 "t-2" 2000
              cases.played).2
           played_ranks_are_integers).
  apply surjective_pairing.
Defined.

(** ** A join seen in the history *)




(** ** The leaderboard endpoint *)

(** Every entry of the database leaderboard carries its rank and the
    identifier of a stored user. *)
Lemma leaderboard_entry_shape (period : string) (limit now : Z) (db db' : MongoDB)
    (lb : list doc) (i : nat) (a : doc) :
  database.get_global_leaderboard period limit now db = (db', Ok lb) →
  lb !! i = Some a →
  ∃ k d w,
    database.ranked_users (users db) (database.date_filter period now) limit !! i
      = Some (database.with_id k d)
    ∧ users db !! k = Some d
    ∧ a !! "rank" = Some (VInt (Z.of_nat i + 1))
    ∧ a !! "user_id" = Some (VStr k)
    ∧ database.win_rate (database.with_id k d) = Ok w
    ∧ a !! "win_rate" = Some w.
Proof.
  intros Hrun Ha.
  apply leaderboard_entries in Hrun as (_ & _ & Hent).
  destruct (Hent i a Ha) as (u & e & Hu & He & ->).
  destruct (ranked_users_stored _ _ _ _ _ Hu) as (k & d & Hk & -> & _).
  destruct (entry_fields _ _ i He) as (Hr & Hid & _ & _ & w & Hw & Hwr).
  exists k, d, w. split; [done|]. split; [done|]. split; [done|].
  split; [|done]. rewrite Hid. unfold get. by rewrite with_id_id.
Qed.

Lemma find_user_rank_ok (id : string) (l : list doc) :
  (∀ a, a ∈ l → is_Some (a !! "rank") ∧ is_Some (a !! "user_id")) →
  ∃ r, server.find_user_rank id l = Ok r.
Proof.
  induction l as [|a l IH]; intros H; [by eexists|].
  destruct (H a) as [[r Hr] [u Hu]]; [by left|].
  simpl. unfold getitem. rewrite Hu, Hr. cbn [result_bind].
  destruct (eq_str u id); [by eexists|].
  apply IH. intros b Hb. apply H. by right.
Qed.

(** What the search for the caller's rank returns. *)
Lemma find_user_rank_spec (id : string) (l : list doc) (r : option value) :
  server.find_user_rank id l = Ok r →
  match r with
  | Some v => ∃ i a, l !! i = Some a ∧ a !! "user_id" = Some (VStr id)
                     ∧ a !! "rank" = Some v
  | None => ∀ a, a ∈ l → a !! "user_id" ≠ Some (VStr id)
  end.
Proof.
  revert r. induction l as [|a l IH]; intros r H.
  - injection H as <-. intros a Ha. by inversion Ha.
  - simpl in H. unfold getitem in H.
    destruct (a !! "user_id") as [u|] eqn:Hu; [|done]. cbn [result_bind] in H.
    destruct (eq_str u id) eqn:Heq.
    + destruct (a !! "rank") as [v|] eqn:Hv; [|done]. cbn [result_bind] in H.
      injection H as <-. exists 0%nat, a. split; [done|]. split; [|done].
      unfold eq_str in Heq. destruct u; try done.
      apply bool_decide_eq_true in Heq. by subst.
    + specialize (IH r H). destruct r as [v|].
      * destruct IH as (i & b & Hb & Hid & Hr). by exists (S i), b.
      * intros b Hb. apply elem_of_cons in Hb as [->|Hb]; [|by apply IH].
        rewrite Hu. intros [= ->]. simpl in Heq.
        by rewrite bool_decide_eq_true_2 in Heq.
Qed.

Lemma format_entry_run (a : doc) (r : value) (k : string) :
  a !! "rank" = Some r → a !! "user_id" = Some (VStr k) →
  server.format_entry a
    = result_bind (Decimal_str (get a "total_winnings" (VInt 0))) (λ total_winnings,
      result_bind (Decimal_str (get a "win_rate" (VInt 0))) (λ win_rate,
      Ok {| le_rank := r;
            le_user_id := k;
            le_username :=
              get a "username" (VStr ("Player_" +:+ String.substring 0 8 k));
            le_total_winnings := total_winnings;
            le_games_played := get a "total_games" (VInt 0);
            le_win_rate := win_rate |})).
Proof.
  intros Hr Hk. unfold server.format_entry, getitem, server.getitem_str.
  by rewrite Hr, Hk.
Qed.

Lemma result_map_raise {A B} (f : A → result B) (l : list A) (e : exn) :
  (∀ x, x ∈ l → (∃ y, f x = Ok y) ∨ f x = Raise e) →
  (∃ x, x ∈ l ∧ f x = Raise e) →
  result_map f l = Raise e.
Proof.
  induction l as [|x l IH]; intros Hall (x0 & Hin & Hx0); [by inversion Hin|].
  simpl. destruct (Hall x) as [[y Hy]|Hx]; [by left| |by rewrite Hx].
  rewrite Hy. cbn [result_bind]. rewrite IH; [done| |].
  - intros x' Hx'. apply Hall. by right.
  - apply elem_of_cons in Hin as [->|Hin]; [congruence|eauto].
Qed.

(** The endpoint beyond the formatting of the entries. *)
Lemma server_leaderboard_run (period : string) (limit : Z)
    (user : option AuthenticatedUser) (now : Z) (db : MongoDB) (lb : list doc) :
  database.get_global_leaderboard period limit now db = (db, Ok lb) →
  ∃ r,
    server.get_global_leaderboard period limit user now db
      = (db, result_bind (result_map server.format_entry lb) (λ formatted,
               Ok {| lb_leaderboard := formatted;
                     lb_user_rank := r;
                     lb_total_players := size (users db) |}))
    ∧ (user = None → r = None)
    ∧ (∀ u uid, user = Some u → sole_record db (user_id u) uid →
                server.find_user_rank uid lb = Ok r).
Proof.
  intros Hrun.
  assert (Hshape : ∀ a, a ∈ lb → is_Some (a !! "rank") ∧ is_Some (a !! "user_id")).
  { intros a Ha. apply list_elem_of_lookup in Ha as [i Hi].
    destruct (leaderboard_entry_shape _ _ _ _ _ _ _ _ Hrun Hi)
      as (k & d & w & _ & _ & Hr & Hid & _). rewrite Hr, Hid. eauto. }
  unfold server.get_global_leaderboard, bind. rewrite Hrun.
  destruct user as [u|].
  - unfold database.get_user_by_privy_id at 1, read.
    destruct (database.find_one "privy_user_id" (user_id u) (users db))
      as [found|] eqn:Hf.
    + pose proof (find_one_stored _ _ _ _ Hf) as (k & d & Hk & ->).
      cbn [fmap option_fmap option_map]. unfold lift at 1.
      assert (Hid : server.getitem_str
                      (<["id" := get (database.with_id k d) "_id" VNull]>
                         (database.with_id k d)) "id" = Ok k).
      { unfold server.getitem_str, get. by rewrite lookup_insert_eq, with_id_id. }
      rewrite Hid. destruct (find_user_rank_ok k lb Hshape) as [r Hr].
      exists r. unfold lift, read, ret. rewrite Hr.
      split; [by destruct (result_map _ _)|]. split; [done|].
      intros u' uid [= <-] Hsole.
      destruct (get_user_by_privy_id_sole db _ _ Hsole) as (d0 & _ & Hget).
      unfold database.get_user_by_privy_id, read in Hget. rewrite Hf in Hget.
      injection Hget as Hget.
      apply (f_equal (λ m : doc, m !! "id")) in Hget.
      rewrite !lookup_insert_eq in Hget. unfold get in Hget.
      rewrite with_id_id in Hget. injection Hget as <-. done.
    + exists None. unfold lift, read, ret. cbn [fmap option_fmap option_map].
      split; [by destruct (result_map _ _)|]. split; [done|].
      intros u' uid [= <-] Hsole.
      destruct (get_user_by_privy_id_sole db _ _ Hsole) as (d0 & _ & Hget).
      unfold database.get_user_by_privy_id, read in Hget. rewrite Hf in Hget.
      discriminate Hget.
  - exists None. unfold lift, read, ret.
    split; [by destruct (result_map _ _)|]. split; [done|]. intros u uid Hu. done.
Qed.

(** X23: the leaderboard endpoint fails once a listed user has a counted
    game.  When no user record has a [total_wins] field (the program writes
    none) and some user on the requested page has a non-zero integer
    [total_games], the endpoint raises, for every caller and without
    writing anything: the null win rate of that user is no numeral for
    [Decimal], so no leaderboard is returned. *)
Theorem leaderboard_fails_once_a_game_is_counted (period : string) (limit : Z)
    (user : option AuthenticatedUser) (now : Z) (db : MongoDB)
    (i : nat) (u : doc) (n : Z) :
  no_total_wins db →
  database.ranked_users (users db) (database.date_filter period now) limit !! i
    = Some u →
  u !! "total_games" = Some (VInt n) →
  n ≠ 0 →
  ∃ e, server.get_global_leaderboard period limit user now db = (db, Raise e).
Proof.
  intros Hno Hu Hg Hn. exists InvalidOperation.
  assert (Hlimit : ¬ limit ≤ 0).
  { intros Hl. unfold database.ranked_users in Hu.
    replace (Z.to_nat limit) with 0%nat in Hu by lia. done. }
  assert (Hagg : ∃ es, database.aggregate (users db)
                         (database.date_filter period now) limit = Ok es).
  { unfold database.aggregate. rewrite bool_decide_eq_false_2 by done.
    apply result_map_ok. intros x Hx. apply list_elem_of_lookup in Hx as [j Hj].
    destruct (ranked_users_stored _ _ _ _ _ Hj) as (k & d & Hk & -> & _).
    unfold database.project. rewrite (win_rate_without_wins k d (Hno k d Hk)).
    by eexists. }
  destruct Hagg as [es Hes].
  assert (Hrun : database.get_global_leaderboard period limit now db
                 = (db, Ok (database.add_ranks es))).
  { unfold database.get_global_leaderboard, bind, ret. by rewrite Hes. }
  destruct (server_leaderboard_run period limit user now db _ Hrun) as (r & Hsrv & _).
  rewrite Hsrv.
  rewrite (result_map_raise server.format_entry (database.add_ranks es)
             InvalidOperation); [done| |].
  - intros a Ha. apply list_elem_of_lookup in Ha as [j Hj].
    destruct (leaderboard_entry_shape _ _ _ _ _ _ _ _ Hrun Hj)
      as (k & d & w & _ & _ & Hr & Hid & _).
    rewrite (format_entry_run a _ k Hr Hid). unfold Decimal_str.
    destruct (numeric (get a "total_winnings" (VInt 0))); [|by right].
    cbn [result_bind].
    destruct (numeric (get a "win_rate" (VInt 0))); [left; by eexists|by right].
  - assert (Hlen : (i < length (database.add_ranks es))%nat).
    { rewrite (leaderboard_length _ _ _ _ _ _ Hrun). by eapply lookup_lt_Some. }
    apply lookup_lt_is_Some_2 in Hlen as [a Ha].
    exists a. split; [by eapply list_elem_of_lookup_2|].
    destruct (leaderboard_entry_shape _ _ _ _ _ _ _ _ Hrun Ha)
      as (k & d & w & Hranked & Hk & Hr & Hid & Hw & Hwr).
    rewrite Hu in Hranked. injection Hranked as ->.
    rewrite with_id_field in Hg by done.
    rewrite (win_rate_without_wins k d (Hno k d Hk)), Hg in Hw.
    unfold database.eq_zero in Hw. simpl in Hw.
    rewrite bool_decide_eq_false_2 in Hw by by apply int_not_zero.
    injection Hw as <-.
    rewrite (format_entry_run a _ k Hr Hid). unfold Decimal_str, get.
    rewrite Hwr. simpl.
    by destruct (numeric (default (VInt 0) (a !! "total_winnings"))).
Qed.

Lemma two_users_no_total_wins : no_total_wins cases.two_users.
Proof.
  intros k d Hk. unfold cases.two_users in Hk. cbn [users] in Hk.
  apply lookup_insert_Some in Hk as [[_ <-]|[_ Hk]]; [reflexivity|].
  apply lookup_singleton_Some in Hk as [_ <-]. reflexivity.
Qed.

Lemma leaderboard_fails_once_a_game_is_counted_witness :
  ∃ e, server.get_global_leaderboard "all_time" 100 None 5000 cases.two_users
       = (cases.two_users, Raise e).
Proof.
  apply (leaderboard_fails_once_a_game_is_counted "all_time" 100 None 5000
           cases.two_users 0 (database.with_id "u-bob" cases.bob_record) 3
           two_users_no_total_wins).
  - by_eval.
  - reflexivity.
  - lia.
Defined.

(** X24: what the leaderboard endpoint returns.  When it returns, it has
    written nothing; [total_players] counts all user records, whatever the
    period and the limit; the entries are those of the database
    leaderboard, in order, each with its rank, its user, numbers for the
    winnings and the win rate, and the name [Player_] followed by the first
    eight characters of the user identifier when the record has no
    username; without a caller [user_rank] is null; for a caller with a
    sole record it is the rank of an entry of the caller, and null only when
    the page holds no entry of the caller.  (The games of an entry are
    stated where the stored count is an integer.) *)
Theorem leaderboard_endpoint_returns (period : string) (limit : Z)
    (user : option AuthenticatedUser) (now : Z) (db db' : MongoDB)
    (l : Leaderboard) :
  server.get_global_leaderboard period limit user now db = (db', Ok l) →
  db' = db
  ∧ lb_total_players l = size (users db)
  ∧ ∃ lb,
      database.get_global_leaderboard period limit now db = (db, Ok lb)
      ∧ length (lb_leaderboard l) = length lb
      ∧ (∀ i a, lb !! i = Some a →
           ∃ e, lb_leaderboard l !! i = Some e
                ∧ le_rank e = VInt (Z.of_nat i + 1)
                ∧ a !! "user_id" = Some (VStr (le_user_id e))
                ∧ (∀ n, get a "total_games" (VInt 0) = VInt n →
                        le_games_played e = VInt n)
                ∧ numeric (get a "total_winnings" (VInt 0)) = Some (le_total_winnings e)
                ∧ numeric (get a "win_rate" (VInt 0)) = Some (le_win_rate e)
                ∧ (a !! "username" = None →
                   le_username e
                     = VStr ("Player_" +:+ String.substring 0 8 (le_user_id e))))
      ∧ (user = None → lb_user_rank l = None)
      ∧ (∀ u uid, user = Some u → sole_record db (user_id u) uid →
           match lb_user_rank l with
           | Some v => ∃ i a, lb !! i = Some a
                              ∧ a !! "user_id" = Some (VStr uid)
                              ∧ v = VInt (Z.of_nat i + 1)
           | None => ∀ a, a ∈ lb → a !! "user_id" ≠ Some (VStr uid)
           end).
Proof.
  intros Hsrv.
  assert (Hdb : ∃ lb, database.get_global_leaderboard period limit now db
                      = (db, Ok lb)).
  { unfold server.get_global_leaderboard, bind in Hsrv.
    unfold database.get_global_leaderboard, bind, ret in *.
    destruct (database.aggregate _ _ _) as [es|]; [by eexists|done]. }
  destruct Hdb as [lb Hrun].
  destruct (server_leaderboard_run period limit user now db lb Hrun)
    as (r & Hsrv' & Hnone & Hsome).
  rewrite Hsrv' in Hsrv.
  destruct (result_map server.format_entry lb) as [formatted|] eqn:Hfmt; [|done].
  cbn [result_bind] in Hsrv. injection Hsrv as <- <-.
  cbn [lb_leaderboard lb_user_rank lb_total_players].
  split; [done|]. split; [done|]. exists lb. split; [done|].
  split; [by eapply result_map_length|]. split; [|split; [done|]].
  - intros i a Ha.
    destruct (result_map_lookup_Some _ _ _ Hfmt i a Ha) as (e & He & Hfe).
    destruct (leaderboard_entry_shape _ _ _ _ _ _ _ _ Hrun Ha)
      as (k & d & w & _ & _ & Hr & Hid & _).
    rewrite (format_entry_run a _ k Hr Hid) in Hfe. unfold Decimal_str in Hfe.
    destruct (numeric (get a "total_winnings" (VInt 0))) as [tw|]; [|done].
    cbn [result_bind] in Hfe.
    destruct (numeric (get a "win_rate" (VInt 0))) as [wr|]; [|done].
    cbn [result_bind] in Hfe. injection Hfe as Heq.
    exists e. split; [done|]. rewrite <- Heq.
    cbn [le_rank le_user_id le_username le_total_winnings le_games_played
         le_win_rate].
    split; [done|]. split; [done|]. split; [by intros n ->|]. split; [done|].
    split; [done|]. intros Hn. unfold get. by rewrite Hn.
  - intros u uid Hu Hsole. specialize (Hsome u uid Hu Hsole).
    pose proof (find_user_rank_spec uid lb r Hsome) as Hspec.
    destruct r as [v|]; [|done].
    destruct Hspec as (i & a & Ha & Hid & Hv).
    destruct (leaderboard_entry_shape _ _ _ _ _ _ _ _ Hrun Ha)
      as (k & d & w & _ & _ & Hr & _).
    rewrite Hr in Hv. injection Hv as <-. by exists i, a.
Qed.

Lemma leaderboard_endpoint_returns_witness :
  lb_total_players cases.alice_board = 1%nat
  ∧ lb_user_rank cases.alice_board = Some (VInt 1).
Proof.
  destruct (leaderboard_endpoint_returns "all_time" 100 (Some scenario.alice) 5000
              (scenario.funded (dec 10 10)) (scenario.funded (dec 10 10))
              cases.alice_board)
    as (_ & Hn & lb & _ & _ & _ & _ & Hrank).
  - by_eval.
  - split; [rewrite Hn; by_eval|]. by_eval.
Defined.

(** ** Lookups by identifier *)

(** A query that one stored document alone matches finds that document. *)
Lemma find_one_sole (field s : string) (c : collection) (k : string) (d0 : doc) :
  c !! k = Some d0 →
  eq_str (get (database.with_id k d0) field VNull) s = true →
  (∀ k' d', c !! k' = Some d' →
            eq_str (get (database.with_id k' d') field VNull) s = true → k' = k) →
  database.find_one field s c = Some (database.with_id k d0).
Proof.
  intros Hk Hm Hsole.
  destruct (find_one_exists field s c k d0 Hk Hm) as [d Hd]. rewrite Hd.
  pose proof (find_one_match _ _ _ _ Hd) as Hdm.
  apply find_one_stored in Hd as (k1 & d1 & Hk1 & ->).
  assert (k1 = k) as -> by eauto. rewrite Hk in Hk1. by injection Hk1 as <-.
Qed.

(** X25: the records of a new user are found by their identifiers.  After
    the profile call that created a user (no record for the caller, fresh
    identifiers, values that collide with no unique index of the store),
    the lookup by user identifier returns the same record as the lookup by
    Privy identifier, and the lookups of the affiliate by user identifier
    and by referral code both return the affiliate record just written,
    under its own identifier. *)
Theorem created_records_are_found (settings : Settings) (user : AuthenticatedUser)
    (rc uu ua : string) (now : Z) (db : MongoDB) :
  (∀ k d, users db !! k = Some d →
          eq_str (get d "privy_user_id" VNull) (user_id user) = false) →
  users db !! uu = None →
  affiliates db !! ua = None →
  admitted_by_indexes db rc uu →
  ∃ db' profile u a,
    server.get_user_profile settings user rc uu ua now db = (db', Ok profile)
    ∧ database.get_user_by_id (server.up_user_id profile) db' = (db', Ok (Some u))
    ∧ database.get_user_by_privy_id (user_id user) db' = (db', Ok (Some u))
    ∧ u !! "id" = Some (VStr uu)
    ∧ u !! "referral_code" = Some (VStr rc)
    ∧ database.get_affiliate_by_user_id (server.up_user_id profile) db'
        = (db', Ok (Some a))
    ∧ database.get_affiliate_by_code rc db' = (db', Ok (Some a))
    ∧ a !! "id" = Some (VStr ua)
    ∧ a !! "user_id" = Some (VStr uu)
    ∧ server.up_user_id profile = uu.
Proof.
  intros Hno Hu Ha [_ Hidx].
  destruct (get_user_profile_run_new settings user rc uu ua now db Hno Hu Ha)
    as (d & a & profile & Hrun & (Hp & _ & _ & _ & Hrc & _) & (Hau & Harc)
        & (Hid & _)).
  set (db' := {| users := <[uu := d]> (users db);
                 game_sessions := game_sessions db;
                 transactions := transactions db;
                 affiliates := <[ua := a]> (affiliates db) |}) in *.
  assert (Hsole : sole_record db' (user_id user) uu).
  { split.
    - exists d. unfold db'. cbn [users]. rewrite lookup_insert_eq. split; [done|].
      by apply eq_str_get.
    - intros k d' Hk Hm. destruct (decide (k = uu)) as [|Hne]; [done|].
      unfold db' in Hk. cbn [users] in Hk.
      rewrite lookup_insert_ne in Hk by done. rewrite (Hno k d' Hk) in Hm. done. }
  destruct (get_user_by_privy_id_sole db' _ _ Hsole) as (d1 & Hu1 & Hget).
  assert (d1 = d) as ->.
  { unfold db' in Hu1. cbn [users] in Hu1. rewrite lookup_insert_eq in Hu1.
    by injection Hu1. }
  assert (Hfind : ∀ field s, a !! field = Some (VStr s) → field ≠ "_id" →
            (∀ k' a', affiliates db !! k' = Some a' → a' !! field ≠ Some (VStr s)) →
            database.find_one field s (affiliates db')
              = Some (database.with_id ua a)).
  { intros field s Hf Hne Hother. apply find_one_sole.
    - unfold db'. cbn [affiliates]. by rewrite lookup_insert_eq.
    - rewrite get_with_id by done. by apply eq_str_get.
    - intros k' a' Hk' Hm. destruct (decide (k' = ua)) as [|Hne']; [done|].
      unfold db' in Hk'. cbn [affiliates] in Hk'.
      rewrite lookup_insert_ne in Hk' by done.
      rewrite get_with_id in Hm by done. apply eq_str_get in Hm.
      by destruct (Hother k' a' Hk'). }
  exists db', profile, (<["id" := VStr uu]> (database.with_id uu d)),
    (<["id" := VStr ua]> (database.with_id ua a)).
  split; [exact Hrun|].
  split.
  { rewrite Hid. unfold database.get_user_by_id, read, database.find_by_id.
    rewrite Hu1. cbn [fmap option_fmap option_map].
    unfold get. rewrite with_id_id. reflexivity. }
  split; [exact Hget|].
  split; [by rewrite lookup_insert_eq|].
  split; [by rewrite found_user_field|].
  split.
  { rewrite Hid. unfold database.get_affiliate_by_user_id, read.
    rewrite (Hfind "user_id" uu Hau);
      [cbn [fmap option_fmap option_map]; unfold get; by rewrite with_id_id|done|].
    intros k' a' Hk'. by destruct (Hidx k' a' Hk'). }
  split.
  { unfold database.get_affiliate_by_code, read.
    rewrite (Hfind "referral_code" rc Harc);
      [cbn [fmap option_fmap option_map]; unfold get; by rewrite with_id_id|done|].
    intros k' a' Hk'. by destruct (Hidx k' a' Hk'). }
  split; [by rewrite lookup_insert_eq|].
  split; [|done].
  rewrite lookup_insert_ne by done. by rewrite with_id_field.
Qed.

Lemma created_records_are_found_witness :
  ∃ db' profile u a,
    server.get_user_profile defaults scenario.alice "AB12CD34" "u-alice" "a-alice" 0
        scenario.open_session = (db', Ok profile)
    ∧ database.get_user_by_id "u-alice" db' = (db', Ok (Some u))
    ∧ database.get_user_by_privy_id "did:privy:alice" db' = (db', Ok (Some u))
    ∧ database.get_affiliate_by_code "AB12CD34" db' = (db', Ok (Some a))
    ∧ a !! "id" = Some (VStr "a-alice").
Proof.
  destruct (created_records_are_found defaults scenario.alice "AB12CD34" "u-alice"
              "a-alice" 0 scenario.open_session)
    as (db' & profile & u & a & Hrun & Hu & Hp & _ & _ & _ & Hc & Hid & _ & Hn).
  - intros k d Hk. unfold scenario.open_session in Hk. cbn [users] in Hk.
    by rewrite lookup_empty in Hk.
  - reflexivity.
  - reflexivity.
  - split; intros k d Hk; unfold scenario.open_session in Hk;
      cbn [users affiliates] in Hk; by rewrite lookup_empty in Hk.
  - rewrite Hn in Hu.
    exists db', profile, u, a. split; [exact Hrun|]. split; [exact Hu|].
    split; [exact Hp|]. split; [exact Hc|exact Hid].
Defined.

(** ** The transactions of a user *)

Lemma transactions_of_stored (uid : string) (ty : option string) (db : MongoDB)
    (t : doc) :
  t ∈ views.transactions_of uid ty db ↔
  ∃ k t0, transactions db !! k = Some t0 ∧ t = database.with_id k t0
          ∧ t0 !! "user_id" = Some (VStr uid)
          ∧ database.type_query ty t0 = true.
Proof.
  unfold views.transactions_of, database.find_all, database.documents.
  rewrite !list_elem_of_filter, list_elem_of_fmap. split.
  - intros (Hty & Hm & [[k t0] [-> Hin]]). apply elem_of_map_to_list in Hin.
    exists k, t0. cbn [fst snd] in *. split; [done|]. split; [done|].
    apply Is_true_true in Hm, Hty. rewrite get_with_id in Hm by done.
    split; [by apply eq_str_get|].
    unfold database.type_query in *. destruct ty as [[|c ty]|]; try done.
    by rewrite get_with_id in Hty.
  - intros (k & t0 & Hk & -> & Hu & Hty). split; [|split].
    + apply Is_true_true. unfold database.type_query in *.
      destruct ty as [[|c ty]|]; try done. by rewrite get_with_id.
    + apply Is_true_true. rewrite get_with_id by done. by apply eq_str_get.
    + exists (k, t0). split; [done|]. by apply elem_of_map_to_list.
Qed.

Lemma type_query_typed (ty : option string) (t0 : doc) (ty' : string) :
  database.type_query ty t0 = true → ty = Some ty' → ty' ≠ "" →
  t0 !! "type" = Some (VStr ty').
Proof.
  intros Hq -> Hne. unfold database.type_query in Hq.
  destruct ty' as [|c ty']; [done|]. by apply eq_str_get.
Qed.

(** X26: what the listing of a user's transactions returns.  It writes
    nothing; with a limit of at least 1 it returns at most that many
    records; every record returned is a stored transaction of the user,
    under its identifier, and of the requested type when a type that is not
    empty is asked for; the records come newest first; and when the limit is
    0 (no limit) or covers all matching transactions, every matching
    transaction is returned. *)
Theorem transactions_listed (uid : string) (ty : option string) (limit : nat)
    (db db' : MongoDB) (txs : list doc) :
  database.get_user_transactions uid ty limit db = (db', Ok txs) →
  db' = db
  ∧ ((1 ≤ limit)%nat → (length txs ≤ limit)%nat)
  ∧ (∀ t, t ∈ txs →
       ∃ k t0, transactions db !! k = Some t0
               ∧ t = <["id" := VStr k]> (database.with_id k t0)
               ∧ t0 !! "user_id" = Some (VStr uid)
               ∧ ∀ ty', ty = Some ty' → ty' ≠ "" → t0 !! "type" = Some (VStr ty'))
  ∧ (∀ i j ti tj dj, (i < j)%nat → txs !! i = Some ti → txs !! j = Some tj →
       tj !! "created_at" = Some (VDate dj) →
       ∃ di, ti !! "created_at" = Some (VDate di) ∧ dj ≤ di)
  ∧ (limit = 0%nat ∨ (length (views.transactions_of uid ty db) ≤ limit)%nat →
     ∀ k t0, transactions db !! k = Some t0 →
             t0 !! "user_id" = Some (VStr uid) →
             database.type_query ty t0 = true →
             <["id" := VStr k]> (database.with_id k t0) ∈ txs).
Proof.
  unfold database.get_user_transactions, read. intros [= <- <-].
  fold (views.transactions_of uid ty db).
  assert (Halias : ∀ k t0, database.with_alias (database.with_id k t0)
                           = <["id" := VStr k]> (database.with_id k t0)).
  { intros k t0. unfold database.with_alias, get. by rewrite with_id_id. }
  split; [done|]. split; [|split; [|split]].
  - intros Hl. rewrite length_fmap, page_positive, length_take by done. lia.
  - intros t Ht. apply list_elem_of_fmap in Ht as (x & -> & Hx).
    apply page_subseteq in Hx. rewrite merge_sort_Permutation in Hx.
    apply transactions_of_stored in Hx as (k & t0 & Hk & -> & Hu & Hq).
    exists k, t0. split; [done|]. split; [by apply Halias|]. split; [done|].
    intros ty' Hty Hne. by eapply type_query_typed.
  - intros i j ti tj dj Hij Hi Hj Hdj.
    rewrite list_lookup_fmap in Hi, Hj.
    destruct (database.page 0 limit _ !! i) as [xi|] eqn:Hxi; [|done].
    destruct (database.page 0 limit _ !! j) as [xj|] eqn:Hxj; [|done].
    injection Hi as <-. injection Hj as <-.
    apply page_lookup in Hxi, Hxj.
    assert (Hord : database.newest_first xi xj).
    { eapply (StronglySorted_lookup_lt database.newest_first _ (0 + i) (0 + j));
        [|lia|exact Hxi|exact Hxj].
      apply StronglySorted_merge_sort; apply _. }
    unfold database.newest_first, database.date_key in Hord.
    unfold database.with_alias in *.
    rewrite lookup_insert_ne in Hdj by done. rewrite Hdj in Hord.
    rewrite lookup_insert_ne by done.
    destruct (xi !! "created_at") as [[]|]; simpl in Hord; try done.
    eexists. split; [reflexivity|done].
  - intros Hlimit k t0 Hk Hu Hq. rewrite <- Halias.
    apply list_elem_of_fmap_2.
    assert (Hin : database.with_id k t0
                  ∈ merge_sort database.newest_first (views.transactions_of uid ty db)).
    { rewrite merge_sort_Permutation. apply transactions_of_stored. eauto 10. }
    unfold database.page. rewrite drop_0. destruct limit as [|n]; [done|].
    rewrite take_ge; [done|]. rewrite merge_sort_Permutation.
    destruct Hlimit; [done|lia].
Qed.

Lemma transactions_listed_witness :
  (length cases.alice_bets ≤ 50)%nat
  ∧ ∀ t, t ∈ cases.alice_bets →
      ∃ k t0, transactions scenario.first_end.1 !! k = Some t0
              ∧ t = <["id" := VStr k]> (database.with_id k t0)
              ∧ t0 !! "type" = Some (VStr "bet").
Proof.
  destruct (transactions_listed "u-alice" (Some "bet") 50 scenario.first_end.1
              scenario.first_end.1 cases.alice_bets)
    as (_ & Hlen & Hin & _).
  - by_eval.
  - split; [apply Hlen; lia|].
    intros t Ht. destruct (Hin t Ht) as (k & t0 & Hk & Heq & _ & Hty).
    exists k, t0. split; [exact Hk|]. split; [exact Heq|].
    apply (Hty "bet" eq_refl). intros Hne. discriminate Hne.
Defined.

(** ** Verification of the caller *)

Import auth.

Lemma dict_get_not_unauthorized (v : json) (k : string) (dflt : json) (d : string) :
  dict_get v k dflt ≠ Raises (Unauthorized d).
Proof. by destruct v. Qed.

Lemma first_wallet_not_unauthorized (l : list json) (d : string) :
  first_wallet l ≠ Raises (Unauthorized d).
Proof.
  induction l as [|w l IH]; [done|]. simpl.
  destruct w as [| | | | | |kv]; try done. simpl.
  destruct (is_wallet _); done.
Qed.

(** The steps that read the user information raise no 401. *)
Lemma user_info_not_unauthorized (user_id app_id user_info : json) (d : string) :
  and_then (dict_get user_info "email" JNull) (λ email_obj,
  and_then (if truthy email_obj then dict_get email_obj "address" JNull
            else Returns JNull) (λ email,
  and_then (dict_get user_info "linkedAccounts" (JList [])) (λ wallets,
  and_then (iterate wallets) (λ wallets,
  and_then (first_wallet wallets) (λ wallet_address,
  Returns {| a_user_id := user_id; a_app_id := app_id;
             a_email := email; a_wallet_address := wallet_address |})))))
  ≠ Raises (Unauthorized d).
Proof.
  destruct user_info as [| | | | | |info]; try done. simpl.
  destruct (truthy (default JNull (entry "email" info))).
  - destruct (default JNull (entry "email" info)); try done. simpl.
    destruct (default (JList []) (entry "linkedAccounts" info)); try done; simpl;
      match goal with
      | |- context [first_wallet ?l] =>
          pose proof (first_wallet_not_unauthorized l d);
          destruct (first_wallet l); [done|simpl; congruence]
      end.
  - simpl.
    destruct (default (JList []) (entry "linkedAccounts" info)); try done; simpl;
      match goal with
      | |- context [first_wallet ?l] =>
          pose proof (first_wallet_not_unauthorized l d);
          destruct (first_wallet l); [done|simpl; congruence]
      end.
Qed.

(** X27: when the verification of the caller answers 401.  The 401 is
    raised exactly when the token has no claims (a failed verification or
    an empty set of claims), with the detail [Invalid or expired access
    token], or when the claims lack a non-empty subject or audience, with
    the detail [Invalid token claims]; nothing in the user information leads
    to a 401.  The optional verification never raises a 401: without a
    token, and where the verification answers 401, it returns no user, and
    it returns a user exactly when the verification returns that user. *)
Theorem unauthorized_only_by_claims
    (verify_token : string → option (list (string * json)))
    (get_user : string → json) (token detail : string) :
  (get_current_user verify_token get_user token = Raises (Unauthorized detail)
   ↔ ((verify_token token = None ∨ verify_token token = Some [])
      ∧ detail = "Invalid or expired access token")
     ∨ (∃ claims, verify_token token = Some claims ∧ claims ≠ []
          ∧ (truthy (default JNull (entry "sub" claims)) = false
             ∨ truthy (default JNull (entry "aud" claims)) = false)
          ∧ detail = "Invalid token claims"))
  ∧ get_optional_user verify_token get_user (Some token) ≠ Raises (Unauthorized detail)
  ∧ get_optional_user verify_token get_user None = Returns None
  ∧ (get_current_user verify_token get_user token = Raises (Unauthorized detail) →
     get_optional_user verify_token get_user (Some token) = Returns None)
  ∧ (∀ u, get_optional_user verify_token get_user (Some token) = Returns (Some u)
          ↔ get_current_user verify_token get_user token = Returns u).
Proof.
  split; [|split; [|split; [done|split]]].
  - unfold get_current_user.
    destruct (verify_token token) as [[|c claims]|] eqn:Hv.
    + split; [intros [= <-]; left; auto|].
      intros [[_ ->]|(claims & Hc & Hne & _)]; [done|].
      by injection Hc as <-.
    + remember (c :: claims) as cl eqn:Hcl.
      assert (Hne : cl ≠ []) by (by subst cl).
      destruct (truthy (default JNull (entry "sub" cl))) eqn:Hs;
      destruct (truthy (default JNull (entry "aud" cl))) eqn:Ha; cbn [negb orb].
      * split.
        -- destruct (truthy (get_user token)); [|done].
           intros H. by apply user_info_not_unauthorized in H.
        -- intros [[[?|?] _]|(claims' & [= <-] & _ & [H|H] & _)]; congruence.
      * split; [intros [= <-]; right; exists cl; auto|].
        intros [[[?|?] _]|(claims' & _ & _ & _ & ->)]; [congruence|congruence|done].
      * split; [intros [= <-]; right; exists cl; auto|].
        intros [[[?|?] _]|(claims' & _ & _ & _ & ->)]; [congruence|congruence|done].
      * split; [intros [= <-]; right; exists cl; auto|].
        intros [[[?|?] _]|(claims' & _ & _ & _ & ->)]; [congruence|congruence|done].
    + split; [intros [= <-]; left; auto|].
      intros [[_ ->]|(claims & Hc & _)]; [done|congruence].
  - unfold get_optional_user.
    destruct (get_current_user _ _ _) as [u|[]]; done.
  - unfold get_optional_user. by intros ->.
  - intros u. unfold get_optional_user.
    destruct (get_current_user _ _ _) as [u'|[]]; split; try done.
    + by intros [= ->].
    + by intros [= ->].
Qed.

Lemma unauthorized_only_by_claims_witness :
  get_current_user visitors.verify_token visitors.get_user "tok-empty"
    = Raises (Unauthorized "Invalid token claims")
  ∧ get_optional_user visitors.verify_token visitors.get_user (Some "tok-empty")
    = Returns None.
Proof.
  destruct (unauthorized_only_by_claims visitors.verify_token visitors.get_user
              "tok-empty" "Invalid token claims") as (Hiff & _ & _ & Hnone & _).
  assert (H : get_current_user visitors.verify_token visitors.get_user "tok-empty"
              = Raises (Unauthorized "Invalid token claims")).
  { apply Hiff. right. exists [("sub", JStr ""); ("aud", JStr "damnbruh")].
    split; [reflexivity|]. split; [discriminate|]. split; [by left|reflexivity]. }
  split; [exact H|exact (Hnone H)].
Defined.

(** X28: who is authenticated.  A user is returned only for claims with a
    non-empty subject and audience, which become its identifier and its
    application; when the user information is missing (the request to Privy
    failed) the caller is authenticated all the same, without an email and
    without a wallet address. *)
Theorem authenticated_identity
    (verify_token : string → option (list (string * json)))
    (get_user : string → json) (token : string) :
  (∀ u, get_current_user verify_token get_user token = Returns u →
        ∃ claims, verify_token token = Some claims
                  ∧ entry "sub" claims = Some (a_user_id u)
                  ∧ entry "aud" claims = Some (a_app_id u)
                  ∧ truthy (a_user_id u) = true
                  ∧ truthy (a_app_id u) = true)
  ∧ (∀ claims sub aud,
       verify_token token = Some claims →
       entry "sub" claims = Some sub → truthy sub = true →
       entry "aud" claims = Some aud → truthy aud = true →
       truthy (get_user token) = false →
       get_current_user verify_token get_user token
         = Returns {| a_user_id := sub; a_app_id := aud;
                      a_email := JNull; a_wallet_address := JNull |}).
Proof.
  split.
  - intros u. unfold get_current_user.
    destruct (verify_token token) as [[|c claims]|] eqn:Hv; [done| |done].
    set (cl := c :: claims).
    destruct (entry "sub" cl) as [sub|] eqn:Hs; [|done].
    destruct (entry "aud" cl) as [aud|] eqn:Ha;
      [|by rewrite orb_true_r].
    cbn [default id].
    destruct (truthy sub) eqn:Hts; [|by cbn [negb orb]].
    destruct (truthy aud) eqn:Hta; [|by cbn [negb orb]]. cbn [negb orb].
    intros Hu. exists cl. split; [done|].
    assert (Hids : a_user_id u = sub ∧ a_app_id u = aud).
    { destruct (truthy (get_user token)); [|by injection Hu as <-].
      destruct (dict_get (get_user token) "email" JNull) as [eo|]; [|done].
      cbn [and_then] in Hu.
      destruct (if truthy eo then dict_get eo "address" JNull else Returns JNull)
        as [em|]; [|done].
      cbn [and_then] in Hu.
      destruct (dict_get (get_user token) "linkedAccounts" (JList [])) as [ws|];
        [|done].
      cbn [and_then] in Hu. destruct (iterate ws) as [l|]; [|done].
      cbn [and_then] in Hu. destruct (first_wallet l) as [w|]; [|done].
      cbn [and_then] in Hu. by injection Hu as <-. }
    destruct Hids as [-> ->]. done.
  - intros claims sub aud Hv Hs Hts Ha Hta Hinfo. unfold get_current_user.
    rewrite Hv. destruct claims as [|c claims]; [done|].
    rewrite Hs, Ha. cbn [default id]. rewrite Hts, Hta, Hinfo. done.
Qed.

Lemma authenticated_identity_witness :
  get_current_user visitors.verify_token visitors.get_user "tok-offline"
    = Returns {| a_user_id := JStr "did:privy:alice"; a_app_id := JStr "damnbruh";
                 a_email := JNull; a_wallet_address := JNull |}.
Proof.
  destruct (authenticated_identity visitors.verify_token visitors.get_user
              "tok-offline") as [_ H].
  apply (H visitors.alice_claims); reflexivity.
Defined.

(** X29: the first linked account of type [wallet] decides the wallet
    address.  For verified claims and user information whose email is
    absent and whose linked accounts are a list that starts with objects of
    other types followed by an object of type [wallet], the address of the
    caller is the [address] of that object (null when it has none),
    whatever follows it in the list. *)
Theorem first_wallet_decides
    (verify_token : string → option (list (string * json)))
    (get_user : string → json) (token : string)
    (claims info : list (string * json))
    (sub aud : json) (before after : list json) (kv : list (string * json)) :
  verify_token token = Some claims →
  entry "sub" claims = Some sub → truthy sub = true →
  entry "aud" claims = Some aud → truthy aud = true →
  get_user token = JDict info →
  entry "email" info = None →
  entry "linkedAccounts" info = Some (JList (before ++ JDict kv :: after)%list) →
  (∀ w, w ∈ before →
        ∃ kv', w = JDict kv' ∧ is_wallet (default JNull (entry "type" kv')) = false) →
  entry "type" kv = Some (JStr "wallet") →
  get_current_user verify_token get_user token
    = Returns {| a_user_id := sub; a_app_id := aud; a_email := JNull;
                 a_wallet_address := default JNull (entry "address" kv) |}.
Proof.
  intros Hv Hs Hts Ha Hta Hinfo Hemail Hacc Hbefore Htype.
  assert (Hwallet : first_wallet (before ++ JDict kv :: after)%list
                    = Returns (default JNull (entry "address" kv))).
  { clear Hacc. induction before as [|w before IH]; simpl.
    - by rewrite Htype.
    - destruct (Hbefore w) as (kv' & -> & Hw); [by left|]. simpl. rewrite Hw.
      apply IH. intros w' Hw'. apply Hbefore. by right. }
  unfold get_current_user. rewrite Hv.
  destruct claims as [|c claims]; [done|].
  rewrite Hs, Ha. cbn [default id]. rewrite Hts, Hta, Hinfo. cbn [negb orb].
  destruct info as [|i info]; [done|].
  cbn [truthy dict_get and_then]. rewrite Hemail, Hacc.
  cbn [default id truthy and_then iterate]. by rewrite Hwallet.
Qed.

Lemma first_wallet_decides_witness :
  get_current_user visitors.verify_token visitors.get_user "tok-alice"
    = Returns {| a_user_id := JStr "did:privy:alice"; a_app_id := JStr "damnbruh";
                 a_email := JNull; a_wallet_address := JNull |}.
Proof.
  apply (first_wallet_decides visitors.verify_token visitors.get_user "tok-alice"
           visitors.alice_claims visitors.alice_info
           (JStr "did:privy:alice") (JStr "damnbruh")
           [JDict [("type", JStr "phone"); ("number", JStr "+1 555 0100")]]
           [JDict [("type", JStr "wallet"); ("address", JStr "0xabc")]]
           [("type", JStr "wallet")]).
  1-8: reflexivity.
  - intros w Hw. apply list_elem_of_singleton in Hw as ->.
    eexists. split; reflexivity.
  - reflexivity.
Defined.

(** ** The request to end a game *)

Lemma returns_bind {A B} (Q : B → Prop) (m : M A) (k : A → M B) :
  (∀ a, returns Q (k a)) → returns Q (bind m k).
Proof.
  intros Hk db db' b. unfold bind.
  destruct (m db) as [db1 [a|e]]; [apply Hk|done].
Qed.

Lemma returns_ret {A} (Q : A → Prop) (a : A) : Q a → returns Q (ret a).
Proof. intros H db db' a' [= _ <-]. done. Qed.

Lemma returns_raise {A} (Q : A → Prop) (e : exn) : returns Q (raise e).
Proof. by intros db db' a. Qed.

Ltac returns_step :=
  lazymatch goal with
  | |- returns _ (bind _ _) => apply returns_bind; intros ?
  | |- returns _ (match ?x with _ => _ end) => destruct x
  | |- returns _ (raise _) => apply returns_raise
  | |- returns _ (ret _) => apply returns_ret
  end.

(** What an end of a game returns, when it returns. *)
Lemma end_game_returns (settings : Settings) (game_end : GameEnd)
    (user : AuthenticatedUser) (n : Z) (ut : string) (now : Z) :
  returns (λ r, gr_rank r = final_rank game_end
                ∧ gr_total_players r = n
                ∧ gr_game_result r
                    = (if bool_decide (final_rank game_end ≤ 3) then "win" else "loss"))
    (server.end_game settings game_end user n ut now).
Proof.
  unfold server.end_game. repeat returns_step.
  cbn [gr_rank gr_total_players gr_game_result]. done.
Qed.

Lemma bind_ok {A B} (m : M A) (k : A → M B) (db db' : MongoDB) (b : B) :
  bind m k db = (db', Ok b) → ∃ db1 a, m db = (db1, Ok a) ∧ k a db1 = (db', Ok b).
Proof.
  unfold bind. destruct (m db) as [db1 [a|e]]; [|done]. intros H. by exists db1, a.
Qed.

Lemma lift_ok {A} (x : result A) (db db1 : MongoDB) (a : A) :
  lift x db = (db1, Ok a) → db1 = db ∧ x = Ok a.
Proof. by intros [= -> ->]. Qed.

Lemma read_ok {A} (f : MongoDB → A) (db db1 : MongoDB) (a : A) :
  read f db = (db1, Ok a) → db1 = db ∧ a = f db.
Proof. by intros [= -> <-]. Qed.

(** The payout an end of a game returns is computed from the stake of the
    stored session. *)
Lemma end_game_reads_stake (settings : Settings) (game_end : GameEnd)
    (user : AuthenticatedUser) (n : Z) (ut : string) (now : Z) (db db' : MongoDB)
    (r : GameResult) :
  server.end_game settings game_end user n ut now db = (db', Ok r) →
  ∃ s stake bet,
    game_sessions db !! game_session_id game_end = Some s
    ∧ s !! "bet_amount" = Some stake
    ∧ Decimal_str stake = Ok bet
    ∧ gr_payout r = server.calculate_payout settings bet (final_rank game_end) n.
Proof.
  unfold server.end_game, database.get_user_by_privy_id. intros H.
  apply bind_ok in H as (db1 & found & Hf & H). apply read_ok in Hf as [-> _].
  destruct found as [db_user|]; [|done].
  apply bind_ok in H as (db1 & id & Hf & H). apply lift_ok in Hf as [-> _].
  apply bind_ok in H as (db1 & session & Hf & H). apply read_ok in Hf as [-> Hs].
  apply bind_ok in H as (db1 & owner & Hf & H). apply lift_ok in Hf as [-> _].
  destruct session as [session|]; [|done]. destruct owner; [|done].
  apply bind_ok in H as (db1 & stake & Hf & H). apply lift_ok in Hf as [-> Hstake].
  apply bind_ok in H as (db1 & bet & Hf & H). apply lift_ok in Hf as [-> Hbet].
  unfold database.find_by_id in Hs.
  destruct (game_sessions db !! game_session_id game_end) as [s|] eqn:Hl; [|done].
  injection Hs as ->. unfold getitem in Hstake.
  rewrite with_id_field in Hstake by done.
  destruct (s !! "bet_amount") as [v|] eqn:Hv; [|done]. injection Hstake as ->.
  exists s, stake, bet. split; [done|]. split; [done|]. split; [done|].
  match type of H with
  | ?m _ = _ =>
      assert (Hr : returns
                     (λ r, gr_payout r
                           = server.calculate_payout settings bet (final_rank game_end) n)
                     m)
  end.
  { repeat returns_step. reflexivity. }
  exact (Hr _ _ _ H).
Qed.

(** X30: the request to end a game is validated before anything happens.
    A request with a negative score or a rank below 1 is refused with a
    validation error and nothing is written; so whatever the endpoint
    returns carries a rank of at least 1, the rank of the request, and its
    result is [win] exactly for the ranks 1 to 3 and [loss] above.  The
    session the request names is then stored, its [bet_amount] reads as a
    number, and the payout returned is the one the payout rule gives for
    that stake at that rank: the stake itself at ranks 2 and 3, nothing
    above 3 (at rank 1, for a stake whose payout needs no rounding, the
    product with 1.8 and with the share left by the house edge).  A rank of
    0 or less, for which the payout rule would return the stake, is never
    settled. *)
Theorem end_request_validated (settings : Settings) (body : GameEnd)
    (user : AuthenticatedUser) (n : Z) (ut : string) (now : Z) (db : MongoDB) :
  (final_score body < 0 ∨ final_rank body < 1 →
   ∃ msg, server.post_games_end settings body user n ut now db
          = (db, Raise (ValidationError msg)))
  ∧ (∀ db' r,
       server.post_games_end settings body user n ut now db = (db', Ok r) →
       0 ≤ final_score body
       ∧ gr_rank r = final_rank body
       ∧ 1 ≤ gr_rank r
       ∧ gr_total_players r = n
       ∧ (gr_game_result r = "win" ↔ gr_rank r ≤ 3)
       ∧ (gr_game_result r = "loss" ↔ 3 < gr_rank r)
       ∧ ∃ s stake bet,
           game_sessions db !! game_session_id body = Some s
           ∧ s !! "bet_amount" = Some stake
           ∧ Decimal_str stake = Ok bet
           ∧ (gr_rank r = 1 → payout_unrounded settings bet →
              gr_payout r = (bet * dec 18 10 * (1 - HOUSE_EDGE settings))%Qc)
           ∧ (gr_rank r = 2 ∨ gr_rank r = 3 → gr_payout r = bet)
           ∧ (3 < gr_rank r → gr_payout r = 0%Qc)).
Proof.
  unfold server.post_games_end, bind, lift, parse_GameEnd. split.
  - intros H. destruct (0 <=? final_score body) eqn:Hs; cbn [negb].
    + destruct (1 <=? final_rank body) eqn:Hr; cbn [negb]; [lia|by eexists].
    + by eexists.
  - intros db' r.
    destruct (0 <=? final_score body) eqn:Hs; cbn [negb]; [|done].
    destruct (1 <=? final_rank body) eqn:Hr; cbn [negb]; [|done].
    intros Hrun.
    destruct (end_game_returns settings body user n ut now db db' r Hrun)
      as (Hrank & Hn & Hres).
    destruct (end_game_reads_stake settings body user n ut now db db' r Hrun)
      as (s & stake & bet & Hl & Hstake & Hbet & Hpay).
    split; [lia|]. split; [done|]. split; [lia|]. split; [done|].
    rewrite Hres, Hrank. split; [|split].
    + case_bool_decide; split; done.
    + case_bool_decide; split; (done || lia).
    + exists s, stake, bet. split; [done|]. split; [done|]. split; [done|].
      rewrite Hpay. unfold server.calculate_payout.
      split; [|split].
      * intros -> _. reflexivity.
      * intros [-> | ->]; reflexivity.
      * intros H. rewrite !bool_decide_eq_false_2 by lia. reflexivity.
Qed.

Lemma end_request_validated_witness :
  (∃ msg, server.post_games_end defaults cases.rank_zero scenario.alice 9 "t-2" 2000
            scenario.after_join
          = (scenario.after_join, Raise (ValidationError msg)))
  ∧ (∀ r, scenario.first_end.2 = Ok r → gr_payout r = dec 882 1000).
Proof.
  split.
  - destruct (end_request_validated defaults cases.rank_zero scenario.alice 9 "t-2" 2000
                scenario.after_join) as [H _].
    apply H. right. reflexivity.
  - intros r Hr.
    destruct (end_request_validated defaults scenario.won scenario.alice 9 "t-2" 2000
                scenario.after_join) as [_ H].
    destruct (H scenario.first_end.1 r)
      as (_ & Hrank & _ & _ & _ & _ & s & stake & bet & Hl & Hstake & Hbet & Hpay & _).
    { change (scenario.first_end = (scenario.first_end.1, Ok r)).
      rewrite <- Hr. apply surjective_pairing. }
    assert (Hs : game_sessions scenario.after_join !! "s-1"
                 = Some (records.session "u-alice" scenario.bet_half "s-1" 1000))
      by by_eval.
    change (game_session_id scenario.won) with "s-1" in Hl.
    rewrite Hs in Hl. injection Hl as <-.
    assert (Hb : records.session "u-alice" scenario.bet_half "s-1" 1000 !! "bet_amount"
                 = Some (VFloat (dec 5 10))) by by_eval.
    rewrite Hb in Hstake. injection Hstake as <-.
    injection Hbet as <-.
    rewrite Hpay; [by_compute|exact Hrank|].
    split; [|split]; [numeral 9 (-1)|numeral 98 (-2)|numeral 882 (-3)].
Defined.

